(** * ModbusSimulator: the register codec, the simulator and the polling client

    A shallow embedding of [modbus_simulator.py] (class [ModbusRTUSimulator])
    and [modbus_client.py] (class [ModbusRTUClient]).

    - Python floats are IEEE-754 binary64 values, modelled with the
      axiom-free [spec_float] of the standard library (precision 53,
      [emax] 1024); [struct.pack(">f", x)] rounds to binary32 (precision 24,
      [emax] 128) and lays the result out in four big-endian bytes.
    - Registers and bytes are integers ([Z]) with their ranges written out.
    - Python strings are [string]s; a character with code above 127 is a
      non-ASCII code point.
    - Exceptions are values of [exn]; mutable objects live in a heap of
      slave contexts addressed by reference, so that two names for one
      object see each other's writes. *)

From Stdlib Require Import ZArith List String Ascii Lia Bool.
From Stdlib Require Import Floats.SpecFloat.
From stdpp Require Import gmap list strings pretty.

Open Scope Z_scope.
Set Warnings "-clear-no-such-hyp".

(** ** Exceptions and results *)

Inductive exn :=
  | StructError          (* struct.error *)
  | UnicodeEncodeError
  | UnicodeDecodeError
  | OverflowError
  | TypeError
  | KeyError
  | NoSuchSlaveException.

Definition result (A : Type) : Type := (exn + A)%type.
Definition Ok {A} (a : A) : result A := inr a.
Definition Raise {A} (e : exn) : result A := inl e.

Definition rbind {A B} (r : result A) (k : A -> result B) : result B :=
  match r with
  | inl e => inl e
  | inr a => k a
  end.

Declare Scope result_scope.
Delimit Scope result_scope with result.
Notation "'try!' x ':=' r 'in' k" := (rbind r (fun x => k))
  (at level 10, x name, r at level 100, k at level 200) : result_scope.

(** [[f(x) for x in xs]] where [f] may raise: the first exception wins. *)
Fixpoint rmap {A B} (f : A -> result B) (xs : list A) : result (list B) :=
  match xs with
  | [] => Ok []
  | x :: xs' =>
      match f x with
      | inl e => inl e
      | inr y =>
          match rmap f xs' with
          | inl e => inl e
          | inr ys => Ok (y :: ys)
          end
      end
  end.

(** ** Python floats *)

Module PyFloat.

(** A Python [float]: a binary64 value in canonical form. *)
Definition float := spec_float.

Definition of_int (n : Z) : float := binary_normalize 53 1024 n 0 false.

(** The literal [n/d] written in decimal ([0.07] is [decimal 7 100]): the
    parser rounds the exact quotient to the nearest binary64, ties to
    even, which is what the correctly rounded division of two exactly
    represented integers gives. *)
Definition decimal (n : Z) (d : positive) : float :=
  SFdiv 53 1024 (of_int n) (of_int (Zpos d)).

Definition add : float -> float -> float := SFadd 53 1024.
Definition sub : float -> float -> float := SFsub 53 1024.
Definition mul : float -> float -> float := SFmul 53 1024.
Definition leb : float -> float -> bool := SFleb.
Definition ltb : float -> float -> bool := SFltb.

Definition is_finite (x : float) : bool :=
  match x with
  | S754_zero _ | S754_finite _ _ _ => true
  | _ => false
  end.

Definition is_inf (x : float) : bool :=
  match x with
  | S754_infinity _ => true
  | _ => false
  end.

(** The C conversion [(float)x]: round to the nearest binary32. *)
Definition single_of_double (x : float) : spec_float :=
  match x with
  | S754_finite s m e => binary_round 24 128 s m e
  | _ => x
  end.

(** The C conversion [(double)y] of a binary32 value: exact. *)
Definition double_of_single (y : spec_float) : float :=
  match y with
  | S754_finite s m e => binary_round 53 1024 s m e
  | _ => y
  end.

(** IEEE-754 binary32 interchange format: 1 sign bit, 8 exponent bits
    (bias 127), 23 fraction bits. *)
Definition join_bits32 (s : bool) (e m : Z) : Z :=
  (if s then 2 ^ 31 else 0) + e * 2 ^ 23 + m.

(** The bit pattern of a binary32 value. [spec_float] has one NaN, laid
    out here as the quiet NaN 0x7FC00000; [struct.pack] keeps the sign and
    the payload of the NaN it is given, so what is stated of the
    registers of a float leaves NaN out. *)
Definition bits_of_single (y : spec_float) : Z :=
  match y with
  | S754_zero s => join_bits32 s 0 0
  | S754_infinity s => join_bits32 s 255 0
  | S754_nan => join_bits32 false 255 (2 ^ 22)
  | S754_finite s m e =>
      if 2 ^ 23 <=? Zpos m
      then join_bits32 s (e + 150) (Zpos m - 2 ^ 23)
      else join_bits32 s 0 (Zpos m)
  end.

Definition single_of_bits (b : Z) : spec_float :=
  let s := 2 ^ 31 <=? b in
  let e := (b / 2 ^ 23) mod 2 ^ 8 in
  let m := b mod 2 ^ 23 in
  if e =? 0 then
    match m with
    | Zpos p => S754_finite s p (-149)
    | _ => S754_zero s
    end
  else if e =? 255 then
    (if m =? 0 then S754_infinity s else S754_nan)
  else
    match m + 2 ^ 23 with
    | Zpos p => S754_finite s p (e - 150)
    | _ => S754_nan
    end.

(** The finite 32-bit floats: zeros and the canonical binary32 numbers. *)
Definition finite_single (y : spec_float) : bool :=
  is_finite y && valid_binary 24 128 y.

End PyFloat.

(** ** The [struct] module, big-endian formats *)

Definition bytes := list Z.

Definition be_bytes4 (b : Z) : bytes :=
  [b / 2 ^ 24; (b / 2 ^ 16) mod 256; (b / 2 ^ 8) mod 256; b mod 256].

Definition of_be_bytes4 (b3 b2 b1 b0 : Z) : Z :=
  ((b3 * 256 + b2) * 256 + b1) * 256 + b0.

(** [struct.pack(">f", x)]: [OverflowError] when a finite [x] is too large
    for binary32. *)
Definition struct_pack_f (x : PyFloat.float) : result bytes :=
  let y := PyFloat.single_of_double x in
  if PyFloat.is_inf y && negb (PyFloat.is_inf x) then Raise OverflowError
  else Ok (be_bytes4 (PyFloat.bits_of_single y)).

(** [struct.unpack(">f", bs)[0]]: the buffer must hold exactly 4 bytes. *)
Definition struct_unpack_f (bs : bytes) : result PyFloat.float :=
  match bs with
  | [b3; b2; b1; b0] =>
      Ok (PyFloat.double_of_single
            (PyFloat.single_of_bits (of_be_bytes4 b3 b2 b1 b0)))
  | _ => Raise StructError
  end.

(** [struct.pack(">H", r)]: the value must fit 16 bits. *)
Definition struct_pack_H (r : Z) : result bytes :=
  if (0 <=? r) && (r <=? 65535) then Ok [r / 256; r mod 256]
  else Raise StructError.

(** [struct.unpack(">H", bs)[0]]: the buffer must hold exactly 2 bytes. *)
Definition struct_unpack_H (bs : bytes) : result Z :=
  match bs with
  | [hi; lo] => Ok (hi * 256 + lo)
  | _ => Raise StructError
  end.

(** [[bs[i : i + 2] for i in range(0, len(bs), 2)]]: the last slice of a
    buffer of odd length holds one byte. *)
Fixpoint slices2 (bs : bytes) : list bytes :=
  match bs with
  | [] => []
  | [b] => [[b]]
  | b :: b' :: rest => [b; b'] :: slices2 rest
  end.

(** ** pymodbus payload builder and decoder, byte order and word order big *)

Module BinaryPayloadBuilder.

(** [add_32bit_float] on an empty builder: the payload is
    [pack("!f", value)]; with both orders big no word is swapped. *)
Definition add_32bit_float (value : PyFloat.float) : result bytes :=
  struct_pack_f value.

(** [build]: pad the buffer to even length, cut it in 2-byte strings. *)
Definition build (buffer : bytes) : list bytes :=
  let length := List.length buffer in
  slices2 (buffer ++ repeat 0 (length mod 2)%nat).

(** [to_registers]: one big-endian 16-bit word per 2-byte string. *)
Definition to_registers (buffer : bytes) : result (list Z) :=
  rmap struct_unpack_H (build buffer).

End BinaryPayloadBuilder.

Module BinaryPayloadDecoder.

(** [fromRegisters]: [pack("!{n}H", *registers)]. *)
Definition fromRegisters (registers : list Z) : result bytes :=
  rbind (rmap struct_pack_H registers) (fun bss => Ok (concat bss)).

(** [decode_32bit_float] at pointer 0: the first four bytes. *)
Definition decode_32bit_float (payload : bytes) : result PyFloat.float :=
  struct_unpack_f (firstn 4 payload).

End BinaryPayloadDecoder.

(** ** pymodbus datastore *)

(** The slice assignment [values[start : start + len(new)] = new]; past the
    end of the list Python appends. *)
Definition slice_assign (values : list Z) (start : nat) (new : list Z)
    : list Z :=
  take start values ++ new ++ drop (start + List.length new) values.

(** [ModbusSequentialDataBlock(address, values)]. *)
Module ModbusSequentialDataBlock.

Record t := { address : nat; values : list Z }.

(** [validate]: the requested range lies inside the block. *)
Definition validate (b : t) (addr count : nat) : bool :=
  (address b <=? addr)%nat &&
  (addr + count <=? address b + List.length (values b))%nat.

(** [getValues]: the slice [values[start : start + count]]. *)
Definition getValues (b : t) (addr count : nat) : list Z :=
  let start := (addr - address b)%nat in
  take count (drop start (values b)).

(** [setValues]: [values[start : start + len(new)] = new]. *)
Definition setValues (b : t) (addr : nat) (new : list Z) : t :=
  let start := (addr - address b)%nat in
  {| address := address b;
     values := slice_assign (values b) start new |}.

End ModbusSequentialDataBlock.

Definition block_size : nat := Z.to_nat 65536.

(** [ModbusSlaveContext(di, co, hr, ir, zero_mode)]. *)
Module ModbusSlaveContext.

Record t := {
  di : ModbusSequentialDataBlock.t;
  co : ModbusSequentialDataBlock.t;
  hr : ModbusSequentialDataBlock.t;
  ir : ModbusSequentialDataBlock.t;
  zero_mode : bool
}.

Inductive store := D | C | H | I.

(** [decode]: function code to store; an unknown code is a [KeyError]. *)
Definition decode (fx : Z) : result store :=
  if decide (fx = 2) then Ok D
  else if decide (fx = 4) then Ok I
  else if decide (fx ∈ [3; 6; 16; 22; 23]) then Ok H
  else if decide (fx ∈ [1; 5; 15]) then Ok C
  else Raise KeyError.

Definition get_store (c : t) (s : store) : ModbusSequentialDataBlock.t :=
  match s with D => di c | C => co c | H => hr c | I => ir c end.

Definition set_store (c : t) (s : store)
    (b : ModbusSequentialDataBlock.t) : t :=
  match s with
  | D => {| di := b; co := co c; hr := hr c; ir := ir c;
            zero_mode := zero_mode c |}
  | C => {| di := di c; co := b; hr := hr c; ir := ir c;
            zero_mode := zero_mode c |}
  | H => {| di := di c; co := co c; hr := b; ir := ir c;
            zero_mode := zero_mode c |}
  | I => {| di := di c; co := co c; hr := hr c; ir := b;
            zero_mode := zero_mode c |}
  end.

Definition shift (c : t) (addr : nat) : nat :=
  if zero_mode c then addr else S addr.

Definition validate (c : t) (fx : Z) (addr count : nat) : result bool :=
  (try! s := decode fx in
   Ok (ModbusSequentialDataBlock.validate (get_store c s)
         (shift c addr) count))%result.

Definition getValues (c : t) (fx : Z) (addr count : nat)
    : result (list Z) :=
  (try! s := decode fx in
   Ok (ModbusSequentialDataBlock.getValues (get_store c s)
         (shift c addr) count))%result.

Definition setValues (c : t) (fx : Z) (addr : nat) (new : list Z)
    : result t :=
  (try! s := decode fx in
   Ok (set_store c s
         (ModbusSequentialDataBlock.setValues (get_store c s)
            (shift c addr) new)))%result.

End ModbusSlaveContext.

(** [ModbusServerContext(slaves, single)]: device ids to references of
    slave contexts. *)
Module ModbusServerContext.

Record t := { slaves : gmap Z nat; single : bool }.

(** [context[slave]]. *)
Definition getitem (c : t) (slave : Z) : result nat :=
  let slave := if single c then 0 else slave in
  match slaves c !! slave with
  | Some r => Ok r
  | None => Raise NoSuchSlaveException
  end.

End ModbusServerContext.

(** ** The process state: heap of slave contexts, random draws, log *)

(** What the update thread leaves behind in time, oldest first: the lines
    of [log.info], and the calls of [time.sleep] with their seconds. *)
Inductive log_line :=
  | Completed_SFP_update
  | Completed_Product_Info_update
  | Slept (seconds : Z).

Record World := {
  heap : list ModbusSlaveContext.t;  (* objects, by reference *)
  random_outputs : nat -> PyFloat.float;
                                     (* what random.random() will return *)
  draws : nat;                       (* calls of random.random() so far *)
  log : list log_line                (* log.info lines and sleeps,
                                        oldest first *)
}.

(** A computation over a state [S] returns or raises, and leaves a state
    behind either way: what was mutated before an exception stays mutated. *)
Definition ST (S A : Type) : Type := S -> result A * S.

Definition ret {S A} (a : A) : ST S A := fun w => (Ok a, w).
Definition raise {S A} (e : exn) : ST S A := fun w => (Raise e, w).
Definition bind {S A B} (m : ST S A) (k : A -> ST S B) : ST S B :=
  fun w =>
    match m w with
    | (inl e, w') => (inl e, w')
    | (inr a, w') => k a w'
    end.
Definition lift {S A} (r : result A) : ST S A := fun w => (r, w).

Declare Scope M_scope.
Delimit Scope M_scope with M.
Notation "'do!' x ':=' m 'in' k" := (bind m (fun x => k))
  (at level 10, x name, m at level 100, k at level 200) : M_scope.
Notation "'run!' m 'in' k" := (bind m (fun _ => k))
  (at level 10, m at level 100, k at level 200) : M_scope.

(** [for x in xs: body(x)]. *)
Fixpoint for_each {S A} (xs : list A) (body : A -> ST S unit) : ST S unit :=
  match xs with
  | [] => ret tt
  | x :: xs' => (run! body x in for_each xs' body)%M
  end.

(** [for x in xs: acc = body(acc, x)], for a loop that updates a local. *)
Fixpoint for_fold {S A B} (xs : list A) (acc : B)
    (body : B -> A -> ST S B) : ST S B :=
  match xs with
  | [] => ret acc
  | x :: xs' => (do! acc' := body acc x in for_fold xs' acc' body)%M
  end.

(** The simulator's process. *)
Definition M (A : Type) : Type := ST World A.

Definition new_object (c : ModbusSlaveContext.t) : M nat :=
  fun w => (Ok (List.length (heap w)),
            {| heap := heap w ++ [c]; random_outputs := random_outputs w;
               draws := draws w; log := log w |}).

(** [context.setValues(fx, address, values)] on the object behind [r]. *)
Definition context_setValues (r : nat) (fx : Z) (addr : nat)
    (new : list Z) : M unit :=
  fun w =>
    match heap w !! r with
    | None => (Raise NoSuchSlaveException, w)
    | Some c =>
        match ModbusSlaveContext.setValues c fx addr new with
        | inl e => (inl e, w)
        | inr c' =>
            (Ok tt, {| heap := <[r := c']> (heap w);
                       random_outputs := random_outputs w;
                       draws := draws w; log := log w |})
        end
    end.

Definition log_info (l : log_line) : M unit :=
  fun w => (Ok tt, {| heap := heap w; random_outputs := random_outputs w;
                      draws := draws w; log := log w ++ [l] |}).

(** [time.sleep(seconds)]: the thread does nothing for that long. *)
Definition time_sleep (seconds : Z) : M unit :=
  fun w => (Ok tt, {| heap := heap w; random_outputs := random_outputs w;
                      draws := draws w; log := log w ++ [Slept seconds] |}).

(** [random.random()]: the next output, in [[0, 1)]. *)
Definition random_random : M PyFloat.float :=
  fun w => (Ok (random_outputs w (draws w)),
            {| heap := heap w; random_outputs := random_outputs w;
               draws := S (draws w); log := log w |}).

(** [random.uniform(a, b)] is [a + (b - a) * self.random()]. *)
Definition uniform (a b u : PyFloat.float) : PyFloat.float :=
  PyFloat.add a (PyFloat.mul (PyFloat.sub b a) u).

Definition random_uniform (a b : PyFloat.float) : M PyFloat.float :=
  (do! u := random_random in ret (uniform a b u))%M.

(** ** Python strings *)

Definition NUL : ascii := Ascii.zero.

Fixpoint string_repeat (c : ascii) (n : nat) : string :=
  match n with
  | O => EmptyString
  | S n' => String c (string_repeat c n')
  end.

(** [s.ljust(width, fill)]: [s] itself when it is [width] long or longer. *)
Definition ljust (s : string) (width : nat) (fill : ascii) : string :=
  (s ++ string_repeat fill (width - String.length s))%string.

(** [s.rstrip(c)]: remove the trailing run of [c]. *)
Fixpoint rstrip (c : ascii) (s : string) : string :=
  match s with
  | EmptyString => EmptyString
  | String a s' =>
      match rstrip c s' with
      | EmptyString =>
          if Ascii.eqb a c then EmptyString else String a EmptyString
      | r => String a r
      end
  end.

Definition code (c : ascii) : Z := Z.of_N (N_of_ascii c).

(** [s.encode("ascii")]. *)
Fixpoint encode_ascii (s : string) : result bytes :=
  match s with
  | EmptyString => Ok []
  | String c s' =>
      if code c <? 128
      then (try! bs := encode_ascii s' in Ok (code c :: bs))%result
      else Raise UnicodeEncodeError
  end.

(** [bytes(bs).decode("ascii")]. *)
Fixpoint decode_ascii (bs : bytes) : result string :=
  match bs with
  | [] => Ok EmptyString
  | b :: bs' =>
      if (0 <=? b) && (b <? 128)
      then (try! s := decode_ascii bs' in
            Ok (String (ascii_of_N (Z.to_N b)) s))%result
      else Raise UnicodeDecodeError
  end.

(** [r.to_bytes(2, byteorder="big")]. *)
Definition to_bytes_2_big (r : Z) : result bytes :=
  if (0 <=? r) && (r <=? 65535) then Ok [r / 256; r mod 256]
  else Raise OverflowError.

(** ** The configuration document, as [yaml.safe_load] returns it

    Keys that the programs index without a test are record fields; keys
    they test with [in] or read with [.get] are options. Addresses and
    lengths are naturals. *)

Module FloatField.
Record t := { address : nat }.
End FloatField.

Module StringField.
Record t := { address : nat; length : nat }.
End StringField.

Record Sfp := {
  sfp : Z;
  rx_power : FloatField.t;
  tx_power : FloatField.t;
  temperature : FloatField.t
}.

Record ProductInfo := {
  product_number : option StringField.t;
  serial_number : option StringField.t
}.

Record Registers := {
  sfps : option (list Sfp);
  product_info : option ProductInfo
}.

Record Device := {
  device_id : Z;
  description : option string;
  baudrate : Z;
  registers : option Registers
}.

(** [config["modbus_devices"]]. *)
Definition Config := list Device.


(** [ModbusDeviceIdentification], the fields that [start_server] assigns. *)
Record ModbusDeviceIdentification := {
  VendorName : string;
  ProductCode : string;
  ModelName : string
}.

(** What [start_server] sets going: the thread that runs [update_values],
    and a serial server with its arguments. *)
Inductive started :=
  | Update_thread
  | Serial_server (context : ModbusServerContext.t)
      (identity : ModbusDeviceIdentification) (port : string) (baudrate : Z).

(** ** modbus_simulator.py *)

Module ModbusRTUSimulator.

Import BinaryPayloadBuilder.

Record t := { config : Config; context : ModbusServerContext.t }.

Record base_values := { tx : PyFloat.float; rx : PyFloat.float }.

Definition zeros : ModbusSequentialDataBlock.t :=
  {| ModbusSequentialDataBlock.address := 0%nat;
     ModbusSequentialDataBlock.values := replicate block_size 0 |}.

Definition _create_slave_context : M nat :=
  new_object
    {| ModbusSlaveContext.di := zeros; ModbusSlaveContext.co := zeros;
       ModbusSlaveContext.hr := zeros; ModbusSlaveContext.ir := zeros;
       ModbusSlaveContext.zero_mode := true |}.

(** The [registers] that [write_float] computes. *)
Definition write_float_registers (value : PyFloat.float)
    : result (list Z) :=
  (try! payload := add_32bit_float value in to_registers payload)%result.

Definition write_float (context : nat) (address : nat)
    (value : PyFloat.float) : M unit :=
  (do! registers := lift (write_float_registers value) in
   context_setValues context 3 address registers)%M.

(** The [registers] that [write_string] computes. *)
Definition write_string_registers (value : string) (length : nat)
    : result (list Z) :=
  let padded_value := ljust value length NUL in
  (try! bytes_value := encode_ascii padded_value in
   rmap struct_unpack_H (slices2 bytes_value))%result.

Definition write_string (context : nat) (address : nat) (value : string)
    (length : nat) : M unit :=
  (do! registers := lift (write_string_registers value length) in
   context_setValues context 3 address registers)%M.

(** [sfp_base_values] of [init_sfp_data]. *)
Definition init_sfp_base_values : gmap Z base_values :=
  let b := {| tx := PyFloat.decimal 30 10; rx := PyFloat.decimal 1 10 |} in
  list_to_map [(1, b); (2, b); (3, b); (4, b)].

Definition init_sfp_data (context : nat) (sfps : list Sfp) : M unit :=
  for_each sfps (fun sfp_ =>
    let sfp_id := sfp sfp_ in
    match init_sfp_base_values !! sfp_id with
    | Some base =>
        (run! write_float context
                (FloatField.address (tx_power sfp_)) (tx base) in
         run! write_float context
                (FloatField.address (rx_power sfp_)) (rx base) in
         write_float context
           (FloatField.address (temperature sfp_))
           (PyFloat.decimal 250 10))%M
    | None => ret tt
    end).

(** [sfp_base_values] of [update_sfp_values]. *)
Definition update_sfp_base_values : gmap Z base_values :=
  let b := {| tx := PyFloat.decimal 30 10; rx := PyFloat.decimal 7 100 |} in
  list_to_map [(1, b); (2, b); (3, b); (4, b)].

Definition update_sfp_values (slave_context : nat) (sfps : list Sfp)
    : M unit :=
  (run! for_each sfps (fun sfp_ =>
     let sfp_num := sfp sfp_ in
     match update_sfp_base_values !! sfp_num with
     | Some base =>
         do! d_tx := random_uniform (SFopp (PyFloat.decimal 5 100))
                       (PyFloat.decimal 5 100) in
         let tx_power_ := PyFloat.add (tx base) d_tx in
         do! d_rx := random_uniform (SFopp (PyFloat.decimal 3 100))
                       (PyFloat.decimal 3 100) in
         let rx_power_ := PyFloat.add (rx base) d_rx in
         do! d_t := random_uniform (PyFloat.of_int (-1))
                      (PyFloat.of_int 1) in
         let temperature_ := PyFloat.add (PyFloat.decimal 250 10) d_t in
         run! write_float slave_context
                (FloatField.address (tx_power sfp_)) tx_power_ in
         run! write_float slave_context
                (FloatField.address (rx_power sfp_)) rx_power_ in
         write_float slave_context
           (FloatField.address (temperature sfp_)) temperature_
     | None => ret tt
     end) in
   log_info Completed_SFP_update)%M.

Definition init_product_info (context : nat) (product_info : ProductInfo)
    : M unit :=
  (run! match product_number product_info with
        | Some f =>
            write_string context (StringField.address f) "PROD123456"
              (StringField.length f)
        | None => ret tt
        end in
   match serial_number product_info with
   | Some f =>
       write_string context (StringField.address f) "SN987654321"
         (StringField.length f)
   | None => ret tt
   end)%M.

Definition update_product_info (slave_context : nat)
    (product_info : ProductInfo) (product_number_ serial_number_ : string)
    : M unit :=
  (run! match product_number product_info with
        | Some f =>
            write_string slave_context (StringField.address f)
              product_number_ (StringField.length f)
        | None => ret tt
        end in
   run! match serial_number product_info with
        | Some f =>
            write_string slave_context (StringField.address f)
              serial_number_ (StringField.length f)
        | None => ret tt
        end in
   log_info Completed_Product_Info_update)%M.

(** One slave context is created, before the loop; every served device
    id is bound to it. *)
Definition _setup_server_context (config : Config)
    : M ModbusServerContext.t :=
  (do! slave_context := _create_slave_context in
   do! contexts :=
     for_fold config (∅ : gmap Z nat) (fun contexts device =>
       let device_id := device_id device in
       if decide (device_id ∈ [1; 2]) then
         run! match registers device with
              | Some regs =>
                  match (if device_id =? 1
                         then sfps regs else None) with
                  | Some sfps => init_sfp_data slave_context sfps
                  | None =>
                      match (if device_id =? 2
                             then product_info regs else None) with
                      | Some pi => init_product_info slave_context pi
                      | None => ret tt
                      end
                  end
              | None => ret tt
              end in
         ret (<[device_id := slave_context]> contexts)
       else ret contexts) in
   ret {| ModbusServerContext.slaves := contexts;
          ModbusServerContext.single := false |})%M.

(** [__init__], from the loaded configuration. *)
Definition __init__ (config : Config) : M t :=
  (do! context := _setup_server_context config in
   ret {| config := config; context := context |})%M.

(** The body of the [for device] loop of [update_values], at a given
    value of [counter]. *)
Definition update_values_device (self : t) (counter : Z) (device : Device)
    : M unit :=
  let device_id := device_id device in
  if decide (device_id ∈ [1; 2]) then
    (do! slave_context :=
       lift (ModbusServerContext.getitem (context self) device_id) in
     match registers device with
     | Some regs =>
         match (if device_id =? 1 then sfps regs else None) with
         | Some sfps => update_sfp_values slave_context sfps
         | None =>
             match (if (device_id =? 2) && (counter mod 10 =? 0)
                    then product_info regs else None) with
             | Some pi =>
                 update_product_info slave_context pi "PROD-12" "SN-Q10"
             | None => ret tt
             end
         end
     | None => ret tt
     end)%M
  else ret tt.

(** The body of the [while True] loop, at a given value of [counter]. *)
Definition update_values_body (self : t) (counter : Z) : M unit :=
  for_each (config self) (update_values_device self counter).

(** [n] turns of the loop, [counter] being the local's current value:
    the body, [counter += 1], [time.sleep(1)]. *)
Fixpoint update_values_loop (self : t) (n : nat) (counter : Z) : M unit :=
  match n with
  | O => ret tt
  | S n' =>
      (run! update_values_body self counter in
       let counter := counter + 1 in
       run! time_sleep 1 in
       update_values_loop self n' counter)%M
  end.

(** The first [n] turns of [update_values]: [counter = 0] at the start. *)
Definition update_values (self : t) (n : nat) : M unit :=
  let counter := 0 in
  update_values_loop self n counter.

(** The identity that [start_server] builds for a device. *)
Definition identity_of (device : Device) : ModbusDeviceIdentification :=
  let device_id := device_id device in
  {| VendorName := "Simulator";
     ProductCode := "Device" +:+ pretty device_id;
     ModelName :=
       default ("Device " +:+ pretty device_id) (description device) |}.

(** The loop of [start_server]. [StartSerialServer] serves until the
    server is shut down and returns then, if ever: [shutdowns] is the
    number of servers that will be shut down, and the server started after
    them runs on. The result is what was started, in order, and whether
    [start_server] returned. *)
Fixpoint start_server_loop (self : t) (devices : list Device)
    (shutdowns : nat) : list started * bool :=
  match devices with
  | [] => ([], true)
  | device :: devices' =>
      let device_id := device_id device in
      if decide (device_id ∈ [1; 2]) then
        let identity := identity_of device in
        let now :=
          [Update_thread;
           Serial_server (context self) identity "/dev/pts/13"
             (baudrate device)] in
        match shutdowns with
        | O => (now, false)
        | S shutdowns' =>
            let (later, returned) :=
              start_server_loop self devices' shutdowns' in
            (now ++ later, returned)
        end
      else start_server_loop self devices' shutdowns
  end.

Definition start_server (self : t) (shutdowns : nat)
    : list started * bool :=
  start_server_loop self (config self) shutdowns.

End ModbusRTUSimulator.

(** ** modbus_client.py *)

(** What [client.read_holding_registers] returns: a response for which
    [isError()] holds, or one carrying [registers]. *)
Inductive response :=
  | ErrorResponse
  | RegistersResponse (registers : list Z).

(** The transport: [read_holding_registers(address, count, slave)], for
    the requests that the client can encode, a slave id of one byte, an
    address and a count of 16 bits ([on_wire] below). With other values
    the call raises before anything is sent, which a transport does not
    show. *)
Definition Transport := nat -> nat -> Z -> response.

(** What [print] is given. *)
Inductive printed :=
  | Reading_from_Device (device_id : Z) (description : string)
  | SFP_header (sfp : Z)
  | SFP_values (rx_power tx_power temp : PyFloat.float)
  | Product_Info_header
  | Product_Number (product_number : option string)
  | Serial_Number (serial_number : option string).

(** What [run] does: a line of [read_all_values], a literal line, or
    [self.client.close()]. *)
Inductive run_event :=
  | Line (l : printed)
  | Text (s : string)
  | Close.

Module ModbusRTUClient.

Import BinaryPayloadDecoder.

Record t := { config : Config; client : Transport }.

(** [__init__], from the loaded configuration and the serial link. *)
Definition __init__ (config : Config) (link : Transport) : t :=
  {| config := config; client := link |}.

(** The client's process: the lines printed so far. *)
Definition P (A : Type) : Type := ST (list printed) A.

Definition print (l : printed) : P unit := fun out => (Ok tt, out ++ [l]).

(** What [read_float] makes of a response carrying [registers]. *)
Definition read_float_decode (registers : list Z)
    : result PyFloat.float :=
  (try! payload := fromRegisters registers in
   decode_32bit_float payload)%result.

Definition read_float (client : Transport) (device_id : Z) (address : nat)
    : result (option PyFloat.float) :=
  match client address 2%nat device_id with
  | RegistersResponse registers =>
      (try! v := read_float_decode registers in Ok (Some v))%result
  | ErrorResponse => Ok None
  end.

(** What [read_string] makes of a response carrying [registers]. *)
Definition read_string_decode (registers : list Z) : result string :=
  (try! bytes_list := rmap to_bytes_2_big registers in
   try! s := decode_ascii (concat bytes_list) in
   Ok (rstrip NUL s))%result.

Definition read_string (client : Transport) (device_id : Z)
    (address length : nat) : result (option string) :=
  let register_count := ((length + 1) / 2)%nat in
  match client address register_count device_id with
  | RegistersResponse registers =>
      (try! s := read_string_decode registers in Ok (Some s))%result
  | ErrorResponse => Ok None
  end.

(** The format specification [:.2f]: [None] does not accept it. *)
Definition format_2f (v : option PyFloat.float) : result PyFloat.float :=
  match v with
  | Some x => Ok x
  | None => Raise TypeError
  end.

Definition read_all_values (self : t) : P unit :=
  let client := client self in
  for_each (config self) (fun device =>
    let device_id := device_id device in
    (do! description :=
       lift (match description device with
             | Some d => Ok d
             | None => Raise KeyError
             end) in
     run! print (Reading_from_Device device_id description) in
     match registers device with
     | Some regs =>
         run! match sfps regs with
              | Some sfps =>
                  for_each sfps (fun sfp_ =>
                    run! print (SFP_header (sfp sfp_)) in
                    do! rx_power_ :=
                      lift (read_float client device_id
                              (FloatField.address (rx_power sfp_))) in
                    do! tx_power_ :=
                      lift (read_float client device_id
                              (FloatField.address (tx_power sfp_))) in
                    do! temp :=
                      lift (read_float client device_id
                              (FloatField.address (temperature sfp_))) in
                    do! rx_s := lift (format_2f rx_power_) in
                    do! tx_s := lift (format_2f tx_power_) in
                    do! temp_s := lift (format_2f temp) in
                    print (SFP_values rx_s tx_s temp_s))
              | None => ret tt
              end in
         match product_info regs with
         | Some product_info =>
             run! print Product_Info_header in
             run! match product_number product_info with
                  | Some f =>
                      do! product_number_ :=
                        lift (read_string client device_id
                                (StringField.address f)
                                (StringField.length f)) in
                      print (Product_Number product_number_)
                  | None => ret tt
                  end in
             match serial_number product_info with
             | Some f =>
                 do! serial_number_ :=
                   lift (read_string client device_id
                           (StringField.address f)
                           (StringField.length f)) in
                 print (Serial_Number serial_number_)
             | None => ret tt
             end
         | None => ret tt
         end
     | None => ret tt
     end)%M).

(** The process of [run]: what it has done so far. *)
Definition R (A : Type) : Type := ST (list run_event) A.

Definition emit (e : run_event) : R unit := fun out => (Ok tt, out ++ [e]).

(** [self.read_all_values()] inside [run]. *)
Definition cycle (self : t) : R unit :=
  fun out =>
    let (r, lines) := read_all_values self [] in
    (r, out ++ map Line lines).

(** The line [newline + "=" * 50]. *)
Definition separator : string :=
  String "010" (string_repeat "=" 50).

(** The [while True] loop of [run], which only an exception ends: [n] is
    the number of cycles after which [KeyboardInterrupt] arrives, in
    [time.sleep]; during cycle [k] the serial link answers as [link k]. *)
Fixpoint run_loop (self : t) (link : nat -> Transport) (k n : nat)
    : R unit :=
  match n with
  | O => ret tt
  | S n' =>
      (run! cycle {| config := config self; client := link k |} in
       run! emit (Text separator) in
       run_loop self link (S k) n')%M
  end.

(** [run]; [connect] is what [self.client.connect()] returns. An
    exception other than [KeyboardInterrupt] passes the [finally] clause
    and leaves [run]. *)
Definition run (self : t) (connect : bool) (link : nat -> Transport)
    (n : nat) : R unit :=
  if negb connect then emit (Text "Failed to connect!")
  else
    fun out =>
      match run_loop self link 0 n out with
      | (inr _, out') =>
          (Ok tt,
           out' ++ [Text (String "010" "Stopping client..."); Close])
      | (inl e, out') => (Raise e, out' ++ [Close])
      end.

End ModbusRTUClient.

(** ** The serial link

    The simulator's server answering the client's read of holding
    registers: an unknown slave, a count outside 1..125 or a range outside
    the block gives an error response. A request that the client cannot
    encode ([on_wire] fails) never reaches the server; what is stated of
    arbitrary slave ids, addresses and counts takes [on_wire] as a
    hypothesis. *)
Definition serve (w : World) (context : ModbusServerContext.t) : Transport :=
  fun address count slave =>
    match ModbusServerContext.getitem context slave with
    | inl _ => ErrorResponse
    | inr r =>
        match heap w !! r with
        | None => ErrorResponse
        | Some c =>
            if ((1 <=? count) && (count <=? 125))%nat then
              match ModbusSlaveContext.validate c 3 address count with
              | inr true =>
                  match ModbusSlaveContext.getValues c 3 address count with
                  | inr registers => RegistersResponse registers
                  | inl _ => ErrorResponse
                  end
              | _ => ErrorResponse
              end
            else ErrorResponse
        end
    end.

(** The world a process starts in. *)
Definition boot (random_outputs : nat -> PyFloat.float) : World :=
  {| heap := []; random_outputs := random_outputs; draws := 0%nat;
     log := [] |}.

(** ** Vocabulary of the statements *)

(** [s.isascii()]. *)
Fixpoint isascii (s : string) : bool :=
  match s with
  | EmptyString => true
  | String c s' => (code c <? 128) && isascii s'
  end.

(** [s[-1]] when [s] is not empty. *)
Fixpoint last_char (s : string) : option ascii :=
  match s with
  | EmptyString => None
  | String c s' =>
      match s' with
      | EmptyString => Some c
      | String _ _ => last_char s'
      end
  end.

(** The bytes of an ASCII string, and the big-endian 16-bit words of an
    even number of bytes. *)
Fixpoint codes (s : string) : bytes :=
  match s with
  | EmptyString => []
  | String c s' => code c :: codes s'
  end.

Fixpoint words (bs : bytes) : list Z :=
  match bs with
  | hi :: lo :: rest => (hi * 256 + lo) :: words rest
  | _ => []
  end.

(** The holding registers behind reference [r], and the world after the
    holding registers behind [r] were assigned [new] at [a]. *)
Definition holding (r : nat) (w : World) : list Z :=
  match heap w !! r with
  | Some c => ModbusSequentialDataBlock.values (ModbusSlaveContext.hr c)
  | None => []
  end.

Definition poke (r : nat) (w : World) (write : nat * list Z) : World :=
  match heap w !! r with
  | Some c =>
      {| heap :=
           <[r := ModbusSlaveContext.set_store c ModbusSlaveContext.H
                    (ModbusSequentialDataBlock.setValues
                       (ModbusSlaveContext.hr c) write.1 write.2)]> (heap w);
         random_outputs := random_outputs w;
         draws := draws w; log := log w |}
  | None => w
  end.

(** A slave context as [_create_slave_context] makes them: addresses are
    zero-based and the holding block starts at 0. *)
Definition live (r : nat) (w : World) : Prop :=
  exists c, heap w !! r = Some c /\
    ModbusSlaveContext.zero_mode c = true /\
    ModbusSequentialDataBlock.address (ModbusSlaveContext.hr c) = 0%nat.

(** The register writes of construction, in program order: address and
    registers of every field that [_setup_server_context] seeds. *)
Definition registers_of (x : PyFloat.float) : list Z :=
  match ModbusRTUSimulator.write_float_registers x with
  | inr registers => registers
  | inl _ => []
  end.

Definition sfp_writes (s : Sfp) : list (nat * list Z) :=
  if decide (sfp s ∈ [1; 2; 3; 4]) then
    [(FloatField.address (tx_power s), registers_of (PyFloat.decimal 30 10));
     (FloatField.address (rx_power s), registers_of (PyFloat.decimal 1 10));
     (FloatField.address (temperature s),
      registers_of (PyFloat.decimal 250 10))]
  else [].

Definition string_writes (f : option StringField.t) (value : string)
    : list (nat * list Z) :=
  match f with
  | Some f =>
      [(StringField.address f,
        words (codes (ljust value (StringField.length f) NUL)))]
  | None => []
  end.

Definition product_info_writes (pi : ProductInfo) (pn sn : string)
    : list (nat * list Z) :=
  string_writes (product_number pi) pn ++ string_writes (serial_number pi) sn.

Definition device_writes (d : Device) : list (nat * list Z) :=
  match registers d with
  | Some regs =>
      if device_id d =? 1 then
        match sfps regs with
        | Some l => flat_map sfp_writes l
        | None => []
        end
      else if device_id d =? 2 then
        match product_info regs with
        | Some pi => product_info_writes pi "PROD123456" "SN987654321"
        | None => []
        end
      else []
  | None => []
  end.

Definition seed_writes (config : Config) : list (nat * list Z) :=
  flat_map device_writes config.

(** The device ids that [_setup_server_context] binds, all to [r]. *)
Definition served (r : nat) (config : Config) : gmap Z nat :=
  fold_left (fun contexts d =>
               if decide (device_id d ∈ [1; 2])
               then <[device_id d := r]> contexts else contexts)
    config ∅.

(** A string field can be written with [value]: the padded value has an
    even number of bytes. *)
Definition writable (f : option StringField.t) (value : string) : Prop :=
  match f with
  | Some f =>
      Nat.Even (Nat.max (String.length value) (StringField.length f))
  | None => True
  end.

Definition device_seedable (d : Device) : Prop :=
  forall regs pi,
    device_id d = 2 -> registers d = Some regs ->
    product_info regs = Some pi ->
    writable (product_number pi) "PROD123456" /\
    writable (serial_number pi) "SN987654321".

(** Writes that lie inside the block and do not overlap one another. *)
Definition in_block (write : nat * list Z) : Prop :=
  (write.1 + List.length write.2 <= block_size)%nat.

Definition apart (w1 w2 : nat * list Z) : Prop :=
  (w1.1 + List.length w1.2 <= w2.1)%nat \/
  (w2.1 + List.length w2.2 <= w1.1)%nat.

Fixpoint pairwise_apart (ws : list (nat * list Z)) : Prop :=
  match ws with
  | [] => True
  | w :: ws' => Forall (apart w) ws' /\ pairwise_apart ws'
  end.

(** A draw [u] of [random.random()] for which the three drifted values of
    [update_sfp_values] fit binary32, so that [struct.pack] does not
    raise [OverflowError] on them. *)
Definition packs (x : PyFloat.float) : bool :=
  match ModbusRTUSimulator.write_float_registers x with
  | inr _ => true
  | inl _ => false
  end.

Definition packable (u : PyFloat.float) : bool :=
  packs (PyFloat.add (PyFloat.decimal 30 10)
           (uniform (SFopp (PyFloat.decimal 5 100)) (PyFloat.decimal 5 100)
              u)) &&
  packs (PyFloat.add (PyFloat.decimal 7 100)
           (uniform (SFopp (PyFloat.decimal 3 100)) (PyFloat.decimal 3 100)
              u)) &&
  packs (PyFloat.add (PyFloat.decimal 250 10)
           (uniform (PyFloat.of_int (-1)) (PyFloat.of_int 1) u)).

(** What one turn of the update loop logs at a given counter, device by
    device. *)
Definition device_log (counter : Z) (d : Device) : list log_line :=
  if decide (device_id d ∈ [1; 2]) then
    match registers d with
    | Some regs =>
        match (if device_id d =? 1 then sfps regs else None) with
        | Some _ => [Completed_SFP_update]
        | None =>
            match (if (device_id d =? 2) && (counter mod 10 =? 0)
                   then product_info regs else None) with
            | Some _ => [Completed_Product_Info_update]
            | None => []
            end
        end
    | None => []
    end
  else [].

Definition turn_log (config : Config) (counter : Z) : list log_line :=
  flat_map (device_log counter) config.

(** A device whose product info, if it is refreshed, can be written with
    the refresh values. *)
Definition device_refreshable (d : Device) : Prop :=
  forall regs pi,
    device_id d = 2 -> registers d = Some regs ->
    product_info regs = Some pi ->
    writable (product_number pi) "PROD-12" /\
    writable (serial_number pi) "SN-Q10".

(** [x] is a zero or a finite number below [2 ^ k] in magnitude. *)
Definition below (k : Z) (x : spec_float) : Prop :=
  match x with
  | S754_zero _ => True
  | S754_finite _ m e => Zpos (digits2_pos m) + e <= k
  | _ => False
  end.

(** An output of [random.random()]: a binary64 number in [[0, 1)]. *)
Definition unit_draw (u : PyFloat.float) : bool :=
  valid_binary 53 1024 u && SFleb (S754_zero false) u &&
  SFltb u (PyFloat.of_int 1).

(** A world in which the update loop can run: the slave context behind
    [r] is there, and no draw makes a drifted value overflow. *)
Definition runs (r : nat) (w : World) : Prop :=
  live r w /\ forall i, packable (random_outputs w i) = true.

(** The link to a simulator constructed from [config] whose update loop
    has made [n] turns; no link when construction raised. An exception in
    the update thread ends the thread, the server keeps answering. *)
Definition link_after (config : Config) (rand : nat -> PyFloat.float)
    (n : nat) : option Transport :=
  match ModbusRTUSimulator.__init__ config (boot rand) with
  | (inr self, w) =>
      Some (serve (snd (ModbusRTUSimulator.update_values self n w))
              (ModbusRTUSimulator.context self))
  | (inl _, _) => None
  end.

(** Configurations used as examples. *)
Module Example.

Definition float_at (a : nat) : FloatField.t :=
  {| FloatField.address := a |}.

Definition string_at (a n : nat) : StringField.t :=
  {| StringField.address := a; StringField.length := n |}.

Definition sfp_device (id channel : Z) : Device :=
  {| device_id := id; description := Some "SFP module"%string;
     baudrate := 115200;
     registers :=
       Some {| sfps := Some [ {| sfp := channel; rx_power := float_at 2;
                                 tx_power := float_at 0;
                                 temperature := float_at 4 |} ];
               product_info := None |} |}.

Definition product_device (id : Z) (n : nat) : Device :=
  {| device_id := id; description := Some "Product information"%string;
     baudrate := 115200;
     registers :=
       Some {| sfps := None;
               product_info :=
                 Some {| product_number := Some (string_at 100 n);
                         serial_number := Some (string_at 110 n) |} |} |}.

(** Device 1 with one SFP channel, device 2 with two 12-byte strings. *)
Definition config : Config := [sfp_device 1 1; product_device 2 12].

(** Two devices that both declare id 1. *)
Definition duplicate_ids : Config := [sfp_device 1 1; sfp_device 1 2].

(** An SFP channel outside 1..4, and float channels under id 3. *)
Definition unseeded : Config := [sfp_device 1 5; sfp_device 3 1].

(** A product number field of 8 bytes, shorter than its placeholder. *)
Definition short_product_number : Config :=
  [ {| device_id := 2; description := Some "Product information"%string;
       baudrate := 115200;
       registers :=
         Some {| sfps := None;
                 product_info :=
                   Some {| product_number := Some (string_at 100 8);
                           serial_number := None |} |} |} ].

(** The simulator that construction makes of [config]. *)
Definition simulator : ModbusRTUSimulator.t :=
  {| ModbusRTUSimulator.config := config;
     ModbusRTUSimulator.context :=
       {| ModbusServerContext.slaves := served 0 config;
          ModbusServerContext.single := false |} |}.

Definition no_draw : nat -> PyFloat.float := fun _ => S754_zero false.
Definition quarter : nat -> PyFloat.float := fun _ => PyFloat.decimal 1 4.

(** A link that answers every read with the registers of 3.0, except
    that the read at address [a] fails. *)
Definition failing_at (a : nat) : Transport :=
  fun address count slave =>
    if (address =? a)%nat then ErrorResponse
    else RegistersResponse [16448; 0].

End Example.

(** A register both of whose bytes are ASCII codes, and the bytes of a
    list of registers, high byte first. *)
Definition ascii_register (r : Z) : bool :=
  (r / 256 <? 128) && (r mod 256 <? 128).

Definition register_bytes (registers : list Z) : bytes :=
  flat_map (fun r => [r / 256; r mod 256]) registers.

(** A 16-bit register value. *)
Definition register16 (r : Z) : Prop := 0 <= r <= 65535.

(** A computation keeps a property of the slave contexts of the heap: it
    holds in the state that the computation leaves, returning or raising,
    whenever it held before. *)
Definition keeps {A} (P : ModbusSlaveContext.t -> Prop) (m : M A) : Prop :=
  forall w, Forall P (heap w) -> Forall P (heap (snd (m w))).

(** The stores other than the holding registers are as created. *)
Definition others_untouched (c : ModbusSlaveContext.t) : Prop :=
  ModbusSlaveContext.di c = ModbusRTUSimulator.zeros /\
  ModbusSlaveContext.co c = ModbusRTUSimulator.zeros /\
  ModbusSlaveContext.ir c = ModbusRTUSimulator.zeros.

(** Every holding register is a 16-bit value. *)
Definition holding16 (c : ModbusSlaveContext.t) : Prop :=
  Forall register16
    (ModbusSequentialDataBlock.values (ModbusSlaveContext.hr c)).

(** The devices of a configuration that [start_server] does not skip. *)
Definition served_devices (config : Config) : list Device :=
  List.filter (fun d => bool_decide (device_id d ∈ [1; 2])) config.

(** Cycle [j] of [run]: what [read_all_values] returns and prints while
    the link answers as [link j], and what the cycle adds to the events of
    [run] when it completes. *)
Definition polled (self : ModbusRTUClient.t) (link : nat -> Transport)
    (j : nat) : result unit * list printed :=
  ModbusRTUClient.read_all_values
    {| ModbusRTUClient.config := ModbusRTUClient.config self;
       ModbusRTUClient.client := link j |} [].

Definition cycle_events (self : ModbusRTUClient.t)
    (link : nat -> Transport) (j : nat) : list run_event :=
  map Line (snd (polled self link j)) ++ [Text ModbusRTUClient.separator].

(** More configurations used as examples. *)
Module Sample.

(** A product number field of 7 bytes: the 10-byte placeholder is written
    as it is, the refresh value is 7 bytes long. *)
Definition odd_refresh : Config :=
  [ Example.sfp_device 1 1;
    {| device_id := 2; description := Some "Product information"%string;
       baudrate := 115200;
       registers :=
         Some {| sfps := None;
                 product_info :=
                   Some {| product_number := Some (Example.string_at 100 7);
                           serial_number :=
                             Some (Example.string_at 110 12) |} |} |} ].

(** A device that has no description and declares its own baud rate. *)
Definition nameless : Device :=
  {| device_id := 2; description := None; baudrate := 9600;
     registers := None |}.

(** A configuration that starts with a device whose id is not served. *)
Definition stranger : Config :=
  [Example.sfp_device 3 1; Example.sfp_device 1 1].

End Sample.

(** ** The order of floats *)

(** The value of a finite float in units of [2 ^ (- K)], an integer when
    its exponent is at least [- K]; zero for a zero. *)
Definition num (K : Z) (x : spec_float) : Z :=
  match x with
  | S754_finite s m e => cond_Zopp s (Zpos m) * 2 ^ (e + K)
  | _ => 0
  end.

(** The exponent of a finite float is at least [- K]. *)
Definition scaled (K : Z) (x : spec_float) : Prop :=
  match x with
  | S754_finite _ _ e => 0 <= e + K
  | _ => True
  end.






(** The fields that a turn of the update loop writes for a device, as
    writes of the same addresses and lengths as the loop's: the float
    fields of an SFP device with the registers they were seeded with (the
    loop writes drifted values there), the string fields of a product
    device with the registers of the refresh values. *)
Definition device_updates (d : Device) : list (nat * list Z) :=
  match registers d with
  | Some regs =>
      if device_id d =? 1 then
        match sfps regs with
        | Some l => flat_map sfp_writes l
        | None => []
        end
      else if device_id d =? 2 then
        match product_info regs with
        | Some pi => product_info_writes pi "PROD-12" "SN-Q10"
        | None => []
        end
      else []
  | None => []
  end.

Definition update_writes (config : Config) : list (nat * list Z) :=
  flat_map device_updates config.

(** The slave context behind [r] is as created, its holding registers
    are a whole block or more, and they hold [write.2] at [write.1]. *)
Definition holds (r : nat) (write : nat * list Z) (w : World) : Prop :=
  live r w /\ (block_size <= List.length (holding r w))%nat /\
  take (List.length write.2) (drop write.1 (holding r w)) = write.2.

(** A computation preserves a property of the process state: it holds in
    the state that the computation leaves, returning or raising, whenever
    it held before. *)
Definition preserves {A} (Q : World -> Prop) (m : M A) : Prop :=
  forall w, Q w -> Q (snd (m w)).

(** A request that the client can encode: the slave id fits one byte,
    the address and the count fit 16 bits. *)
Definition on_wire (slave : Z) (address count : nat) : Prop :=
  0 <= slave <= 255 /\ Z.of_nat address <= 65535 /\
  Z.of_nat count <= 65535.

(** * Properties *)

Ltac pow2 :=
  change (2 ^ 31) with 2147483648 in *;
  change (2 ^ 32) with 4294967296 in *;
  change (2 ^ 24) with 16777216 in *;
  change (2 ^ 23) with 8388608 in *;
  change (2 ^ 22) with 4194304 in *;
  change (2 ^ 16) with 65536 in *;
  change (2 ^ 8) with 256 in *.

(** ** Binary32 values survive the trip through binary64 and the wire *)

Section FloatFacts.

Lemma iter_pos_nat {A} (f : A -> A) (p : positive) (x : A) :
  SpecFloat.iter_pos f p x = Nat.iter (Pos.to_nat p) f x.
Proof.
  revert x. induction p as [p IH | p IH |]; intros x;
    cbn [SpecFloat.iter_pos]; rewrite ?IH.
  - rewrite Pos2Nat.inj_xI.
    replace (S (2 * Pos.to_nat p)) with (Pos.to_nat p + (Pos.to_nat p + 1))%nat
      by lia.
    rewrite !Nat.iter_add. reflexivity.
  - rewrite Pos2Nat.inj_xO.
    replace (2 * Pos.to_nat p)%nat with (Pos.to_nat p + Pos.to_nat p)%nat
      by lia.
    rewrite Nat.iter_add. reflexivity.
  - reflexivity.
Qed.

Lemma digits2_pos_iter_xO (m : positive) (n : nat) :
  Zpos (digits2_pos (Nat.iter n xO m)) = Zpos (digits2_pos m) + Z.of_nat n.
Proof.
  induction n as [| n IH]; simpl Nat.iter.
  - lia.
  - simpl digits2_pos. rewrite Pos2Z.inj_succ, IH. lia.
Qed.

Lemma shr_1_iter_xO (m : positive) (n : nat) :
  Nat.iter n shr_1 (Build_shr_record (Zpos (Nat.iter n xO m)) false false)
  = Build_shr_record (Zpos m) false false.
Proof.
  induction n as [| n IH].
  - reflexivity.
  - rewrite Nat.iter_succ_r. simpl Nat.iter at 2. simpl shr_1. exact IH.
Qed.

(** Bounds of a mantissa with [d] binary digits. *)
Lemma digits2_pos_bounds (m : positive) :
  2 ^ (Zpos (digits2_pos m) - 1) <= Zpos m < 2 ^ Zpos (digits2_pos m).
Proof.
  induction m as [m IH | m IH |]; simpl digits2_pos.
  - rewrite Pos2Z.inj_succ.
    replace (Z.succ (Zpos (digits2_pos m)) - 1) with (Z.succ (Zpos (digits2_pos m) - 1)) by lia.
    rewrite !Z.pow_succ_r by lia. lia.
  - rewrite Pos2Z.inj_succ.
    replace (Z.succ (Zpos (digits2_pos m)) - 1) with (Z.succ (Zpos (digits2_pos m) - 1)) by lia.
    rewrite !Z.pow_succ_r by lia. lia.
  - simpl. lia.
Qed.

Lemma canonical_mantissa_eq prec emax m e :
  canonical_mantissa prec emax m e = true ->
  fexp prec emax (Zpos (digits2_pos m) + e) = e.
Proof. unfold canonical_mantissa. intros H. apply Z.eqb_eq, H. Qed.

(** Rounding a number that is already canonical changes nothing. *)
Lemma binary_round_aux_canonical prec emax s m e :
  canonical_mantissa prec emax m e = true ->
  e <= emax - prec ->
  binary_round_aux prec emax s (Zpos m) e loc_Exact = S754_finite s m e.
Proof.
  intros Hc He. apply canonical_mantissa_eq in Hc.
  unfold binary_round_aux, shr_fexp. cbn [Zdigits2 shr_record_of_loc].
  rewrite Hc, Z.sub_diag. cbn [shr shr_m loc_of_shr_record round_nearest_even Zdigits2 shr_record_of_loc].
  rewrite Hc, Z.sub_diag. cbn [shr shr_m].
  apply Z.leb_le in He. rewrite He. reflexivity.
Qed.

(** Rounding a canonical mantissa that was shifted left by [k] bits
    shifts it back, exactly. *)
Lemma binary_round_aux_shifted prec emax s m e k :
  canonical_mantissa prec emax m e = true ->
  e <= emax - prec ->
  binary_round_aux prec emax s (Zpos (Pos.iter xO m k)) (e - Zpos k)
    loc_Exact = S754_finite s m e.
Proof.
  intros Hc He. pose proof (canonical_mantissa_eq _ _ _ _ Hc) as Hf.
  unfold binary_round_aux, shr_fexp. cbn [Zdigits2 shr_record_of_loc].
  rewrite Pos2Nat.inj_iter.
  change (nat_rect (fun _ => positive) m (fun _ => xO) (Pos.to_nat k))
    with (Nat.iter (Pos.to_nat k) xO m).
  rewrite digits2_pos_iter_xO, positive_nat_Z.
  replace (Zpos (digits2_pos m) + Zpos k + (e - Zpos k))
    with (Zpos (digits2_pos m) + e) by lia.
  rewrite Hf.
  replace (e - (e - Zpos k)) with (Zpos k) by lia.
  cbn [shr]. rewrite iter_pos_nat.
  rewrite shr_1_iter_xO.
  cbn [shr_m loc_of_shr_record round_nearest_even Zdigits2
       shr_record_of_loc].
  replace (e - Zpos k + Zpos k) with e by lia.
  rewrite Hf, Z.sub_diag. cbn [shr shr_m].
  apply Z.leb_le in He. rewrite He. reflexivity.
Qed.

Lemma bounded_inv prec emax m e :
  bounded prec emax m e = true ->
  canonical_mantissa prec emax m e = true /\ e <= emax - prec.
Proof.
  unfold bounded. intros H. apply andb_prop in H as [H1 H2].
  split; [exact H1 | apply Z.leb_le, H2].
Qed.

(** A canonical binary32 number, as a binary64 number: the mantissa
    shifted left to 53 digits. *)
Lemma double_of_single_finite s m e :
  bounded 24 128 m e = true ->
  let k := Z.to_pos (53 - Zpos (digits2_pos m)) in
  binary_round 53 1024 s m e =
    S754_finite s (Pos.iter xO m k) (e - Zpos k).
Proof.
  intros Hb k. apply bounded_inv in Hb as [Hc He].
  pose proof (canonical_mantissa_eq _ _ _ _ Hc) as Hf.
  unfold fexp, emin in Hf.
  assert (Hk : Zpos k = 53 - Zpos (digits2_pos m)) by (subst k; lia).
  unfold binary_round.
  assert (Hf64 : fexp 53 1024 (Zpos (digits2_pos m) + e) = e - Zpos k)
    by (unfold fexp, emin; lia).
  rewrite Hf64. unfold shl_align.
  replace (e - Zpos k - e) with (Zneg k) by lia.
  apply binary_round_aux_canonical.
  - unfold canonical_mantissa. apply Z.eqb_eq.
    rewrite Pos2Nat.inj_iter.
    change (nat_rect (fun _ => positive) m (fun _ => xO) (Pos.to_nat k))
      with (Nat.iter (Pos.to_nat k) xO m).
    rewrite digits2_pos_iter_xO, positive_nat_Z.
    unfold fexp, emin. lia.
  - lia.
Qed.

(** Converting a canonical binary32 number to binary64 and back. *)
Lemma single_of_double_of_single y :
  PyFloat.finite_single y = true ->
  PyFloat.single_of_double (PyFloat.double_of_single y) = y.
Proof.
  unfold PyFloat.finite_single. intros H.
  apply andb_prop in H as [Hfin Hv].
  destruct y as [s | s | | s m e]; try reflexivity.
  cbn [valid_binary] in Hv. cbn [PyFloat.double_of_single].
  rewrite (double_of_single_finite s m e Hv).
  cbn [PyFloat.single_of_double].
  pose proof (bounded_inv _ _ _ _ Hv) as [Hc He].
  pose proof (canonical_mantissa_eq _ _ _ _ Hc) as Hf.
  set (k := Z.to_pos (53 - Zpos (digits2_pos m))).
  assert (Hk : Zpos k = 53 - Zpos (digits2_pos m)).
  { subst k. unfold fexp, emin in Hf. lia. }
  unfold binary_round.
  rewrite Pos2Nat.inj_iter.
  change (nat_rect (fun _ => positive) m (fun _ => xO) (Pos.to_nat k))
    with (Nat.iter (Pos.to_nat k) xO m).
  rewrite digits2_pos_iter_xO, positive_nat_Z.
  replace (Zpos (digits2_pos m) + Zpos k + (e - Zpos k))
    with (Zpos (digits2_pos m) + e) by lia.
  rewrite Hf. unfold shl_align.
  replace (e - (e - Zpos k)) with (Zpos k) by lia.
  change (Nat.iter (Pos.to_nat k) xO m)
    with (nat_rect (fun _ => positive) m (fun _ => xO) (Pos.to_nat k)).
  rewrite <- Pos2Nat.inj_iter.
  apply binary_round_aux_shifted; assumption.
Qed.


(** The fields of a canonical binary32 number fit their bit widths. *)
Lemma bounded_single_fields m e :
  bounded 24 128 m e = true ->
  Zpos m < 2 ^ 24 /\ -149 <= e <= 104 /\
  (2 ^ 23 <= Zpos m \/ e = -149).
Proof.
  intros Hb. apply bounded_inv in Hb as [Hc He].
  apply canonical_mantissa_eq in Hc. unfold fexp, emin in Hc.
  pose proof (digits2_pos_bounds m) as [Hlo Hhi].
  assert (Hd : Zpos (digits2_pos m) <= 24) by lia.
  split; [| split; [lia |]].
  - eapply Z.lt_le_trans; [exact Hhi |].
    apply Z.pow_le_mono_r; lia.
  - destruct (Z.eq_dec (Zpos (digits2_pos m)) 24) as [E | NE].
    + left. rewrite E in Hlo. exact Hlo.
    + right. lia.
Qed.

Lemma bits_of_single_range y :
  PyFloat.finite_single y = true ->
  0 <= PyFloat.bits_of_single y < 2 ^ 32.
Proof.
  unfold PyFloat.finite_single. intros H.
  apply andb_prop in H as [Hfin Hv].
  destruct y as [s | s | | s m e]; try discriminate Hfin;
    cbn [PyFloat.bits_of_single]; unfold PyFloat.join_bits32.
  - pow2. destruct s; lia.
  - cbn [valid_binary] in Hv.
    destruct (bounded_single_fields m e Hv) as (Hm & He & _).
    pow2. destruct (8388608 <=? Zpos m) eqn:E; destruct s; lia.
Qed.

(** Reading the binary32 interchange format back. *)
Lemma single_of_bits_of_single y :
  PyFloat.finite_single y = true ->
  PyFloat.single_of_bits (PyFloat.bits_of_single y) = y.
Proof.
  unfold PyFloat.finite_single. intros H.
  apply andb_prop in H as [Hfin Hv].
  destruct y as [s | s | | s m e]; try discriminate Hfin.
  - cbn [PyFloat.bits_of_single]. destruct s; reflexivity.
  - cbn [valid_binary] in Hv.
    destruct (bounded_single_fields m e Hv) as (Hm & He & Hn).
    cbn [PyFloat.bits_of_single]. unfold PyFloat.join_bits32.
    pow2. destruct (8388608 <=? Zpos m) eqn:E.
    + apply Z.leb_le in E.
      set (b := (if s then 2147483648 else 0) + (e + 150) * 8388608 +
                (Zpos m - 8388608)).
      assert (Hs : (2147483648 <=? b) = s).
      { subst b. destruct s; [apply Z.leb_le | apply Z.leb_gt]; lia. }
      assert (He' : (b / 8388608) mod 256 = e + 150).
      { subst b. destruct s; Z.div_mod_to_equations; lia. }
      assert (Hm' : b mod 8388608 = Zpos m - 8388608).
      { subst b. destruct s; Z.div_mod_to_equations; lia. }
      unfold PyFloat.single_of_bits. pow2. rewrite Hs, He', Hm'.
      destruct (e + 150 =? 0) eqn:E0; [apply Z.eqb_eq in E0; lia |].
      destruct (e + 150 =? 255) eqn:E1; [apply Z.eqb_eq in E1; lia |].
      replace (Zpos m - 8388608 + 8388608) with (Zpos m) by lia.
      f_equal. lia.
    + apply Z.leb_gt in E.
      assert (e = -149) by lia. subst e.
      set (b := (if s then 2147483648 else 0) + 0 * 8388608 + Zpos m).
      assert (Hs : (2147483648 <=? b) = s).
      { subst b. destruct s; [apply Z.leb_le | apply Z.leb_gt]; lia. }
      assert (He' : (b / 8388608) mod 256 = 0).
      { subst b. destruct s; Z.div_mod_to_equations; lia. }
      assert (Hm' : b mod 8388608 = Zpos m).
      { subst b. destruct s; Z.div_mod_to_equations; lia. }
      unfold PyFloat.single_of_bits. pow2. rewrite Hs, He', Hm'.
      reflexivity.
Qed.

(** Four bytes to two registers and back. *)
Lemma registers_of_bytes4 b :
  0 <= b < 2 ^ 32 ->
  BinaryPayloadBuilder.to_registers (be_bytes4 b) =
    Ok [b / 2 ^ 16; b mod 2 ^ 16].
Proof.
  intros Hb. unfold BinaryPayloadBuilder.to_registers,
    BinaryPayloadBuilder.build, be_bytes4. cbn.
  unfold Ok. do 3 f_equal.
  - pow2. Z.div_mod_to_equations. lia.
  - f_equal. pow2. Z.div_mod_to_equations. lia.
Qed.

Lemma bytes_of_registers2 b :
  0 <= b < 2 ^ 32 ->
  BinaryPayloadDecoder.fromRegisters [b / 2 ^ 16; b mod 2 ^ 16] =
    Ok (be_bytes4 b).
Proof.
  intros Hb. unfold BinaryPayloadDecoder.fromRegisters. cbn [rmap].
  unfold struct_pack_H.
  assert (H1 : 0 <= b / 2 ^ 16 <= 65535)
    by (pow2; Z.div_mod_to_equations; lia).
  assert (H2 : 0 <= b mod 2 ^ 16 <= 65535)
    by (pow2; Z.div_mod_to_equations; lia).
  destruct H1 as [H1a H1b], H2 as [H2a H2b].
  apply Z.leb_le in H1a, H1b, H2a, H2b.
  rewrite H1a, H1b, H2a, H2b. cbn [andb rbind Ok concat app].
  unfold Ok, be_bytes4.
  replace (b / 2 ^ 16 / 256) with (b / 2 ^ 24)
    by (pow2; Z.div_mod_to_equations; lia).
  replace (b mod 2 ^ 16 / 256) with ((b / 2 ^ 8) mod 256)
    by (pow2; Z.div_mod_to_equations; lia).
  replace ((b mod 2 ^ 16) mod 256) with (b mod 256)
    by (pow2; Z.div_mod_to_equations; lia).
  reflexivity.
Qed.

Lemma of_be_bytes4_be_bytes4 b :
  0 <= b < 2 ^ 32 ->
  struct_unpack_f (be_bytes4 b) =
    Ok (PyFloat.double_of_single (PyFloat.single_of_bits b)).
Proof.
  intros Hb. unfold be_bytes4, struct_unpack_f, of_be_bytes4.
  do 3 f_equal. pow2. Z.div_mod_to_equations. lia.
Qed.

End FloatFacts.

(** ** Magnitudes: no drifted value overflows binary32 *)

Section Magnitude.

Lemma Zdigits2_le (x k : Z) : 0 <= x < 2 ^ k -> 0 <= k -> Zdigits2 x <= k.
Proof.
  intros [Hx Hlt] Hk. destruct x as [| p | p]; cbn [Zdigits2]; [lia | | lia].
  pose proof (digits2_pos_bounds p) as [Hlo _].
  destruct (Z_le_gt_dec (Zpos (digits2_pos p)) k) as [H | H]; [exact H |].
  exfalso. assert (2 ^ k <= 2 ^ (Zpos (digits2_pos p) - 1))
    by (apply Z.pow_le_mono_r; lia).
  lia.
Qed.

Lemma Zdigits2_nonneg x : 0 <= Zdigits2 x.
Proof. destruct x; cbn; lia. Qed.

Lemma Zdigits2_lt_pow x : 0 <= x -> x < 2 ^ Zdigits2 x.
Proof.
  intros Hx. destruct x as [| p | p]; cbn [Zdigits2]; [cbn; lia | | lia].
  apply digits2_pos_bounds.
Qed.

Lemma shr_1_div2 mrs : 0 <= shr_m mrs -> shr_m (shr_1 mrs) = shr_m mrs / 2.
Proof.
  destruct mrs as [m r s]. cbn [shr_m]. intros Hm. unfold shr_1.
  destruct m as [| [p | p |] | p]; cbn [shr_m];
    try reflexivity; try (Z.div_mod_to_equations; lia).
Qed.

Lemma shr_iter_div mrs (n : nat) :
  0 <= shr_m mrs ->
  shr_m (Nat.iter n shr_1 mrs) = shr_m mrs / 2 ^ Z.of_nat n.
Proof.
  intros Hm. induction n as [| n IH].
  - cbn [Nat.iter nat_rect Z.of_nat]. rewrite Z.pow_0_r, Z.div_1_r. reflexivity.
  - rewrite Nat.iter_succ, shr_1_div2.
    + rewrite IH, Z.div_div by (try apply Z.pow_pos_nonneg; lia).
      rewrite Nat2Z.inj_succ, Z.pow_succ_r by lia.
      f_equal. lia.
    + rewrite IH. apply Z.div_pos; [exact Hm |].
      apply Z.pow_pos_nonneg; lia.
Qed.

Lemma shr_record_of_loc_m m l : shr_m (shr_record_of_loc m l) = m.
Proof. destruct l as [| []]; reflexivity. Qed.

(** What [shr_fexp] does to a mantissa that is not negative. *)
Lemma shr_fexp_spec prec emax m e l :
  0 <= m ->
  snd (shr_fexp prec emax m e l)
    = Z.max e (fexp prec emax (Zdigits2 m + e)) /\
  shr_m (fst (shr_fexp prec emax m e l))
    = m / 2 ^ (snd (shr_fexp prec emax m e l) - e).
Proof.
  intros Hm. unfold shr_fexp, shr.
  destruct (fexp prec emax (Zdigits2 m + e) - e) as [| p | p] eqn:E;
    cbn [fst snd].
  - split; [lia |]. rewrite shr_record_of_loc_m, Z.sub_diag.
    rewrite Z.pow_0_r, Z.div_1_r. reflexivity.
  - split; [lia |]. rewrite iter_pos_nat, shr_iter_div
      by (rewrite shr_record_of_loc_m; exact Hm).
    rewrite shr_record_of_loc_m, positive_nat_Z. f_equal. f_equal. lia.
  - split; [lia |]. rewrite shr_record_of_loc_m, Z.sub_diag.
    rewrite Z.pow_0_r, Z.div_1_r. reflexivity.
Qed.

Lemma round_nearest_even_bounds m l :
  m <= round_nearest_even m l <= m + 1.
Proof.
  unfold round_nearest_even. destruct l as [| []]; try lia.
  destruct (Z.even m); lia.
Qed.

Lemma div_pow2_lt m a b :
  0 <= m < 2 ^ a -> 0 <= b <= a -> m / 2 ^ b < 2 ^ (a - b).
Proof.
  intros [Hm Hlt] Hb. apply Z.div_lt_upper_bound.
  - apply Z.pow_pos_nonneg; lia.
  - rewrite <- Z.pow_add_r by lia. replace (b + (a - b)) with a by lia.
    exact Hlt.
Qed.

(** Rounding a positive mantissa below [2 ^ K]: no overflow when [K] is
    an exponent of the format, and the result is below [2 ^ (K + 1)]. *)
Lemma binary_round_aux_below prec emax s m e l K :
  0 < prec -> 0 < m ->
  Zdigits2 m + e <= K ->
  3 - emax - prec <= K -> K <= emax - prec ->
  below (K + 1) (binary_round_aux prec emax s m e l).
Proof.
  intros Hprec Hm HK Hemin Hemax. unfold binary_round_aux.
  pose proof (shr_fexp_spec prec emax m e l ltac:(lia)) as [He1 Hm1].
  destruct (shr_fexp prec emax m e l) as [mrs1 e1]. cbn [fst snd] in *.
  pose proof (Zdigits2_lt_pow m ltac:(lia)) as Hmlt.
  pose proof (Zdigits2_nonneg m) as Hd0.
  assert (Hd1 : 1 <= Zdigits2 m).
  { destruct m; cbn [Zdigits2]; lia. }
  unfold fexp, emin in He1.
  assert (He1K : e <= e1 <= K) by lia.
  assert (Hm1lt : 0 <= shr_m mrs1 < 2 ^ (K - e1)).
  { rewrite Hm1. split.
    - apply Z.div_pos; [lia | apply Z.pow_pos_nonneg; lia].
    - replace (K - e1) with ((K - e) - (e1 - e)) by lia.
      apply div_pow2_lt; [| lia]. split; [lia |].
      eapply Z.lt_le_trans; [exact Hmlt |]. apply Z.pow_le_mono_r; lia. }
  set (m2 := round_nearest_even (shr_m mrs1) (loc_of_shr_record mrs1)).
  pose proof (round_nearest_even_bounds (shr_m mrs1)
                (loc_of_shr_record mrs1)) as Hm2. fold m2 in Hm2.
  assert (Hm2lt : 0 <= m2 < 2 ^ (K + 1 - e1)).
  { split; [lia |]. replace (K + 1 - e1) with (Z.succ (K - e1)) by lia.
    rewrite Z.pow_succ_r by lia. lia. }
  pose proof (Zdigits2_le m2 (K + 1 - e1) Hm2lt ltac:(lia)) as Hd2.
  pose proof (Zdigits2_nonneg m2) as Hd2'.
  pose proof (shr_fexp_spec prec emax m2 e1 loc_Exact ltac:(lia))
    as [He2 Hm3].
  destruct (shr_fexp prec emax m2 e1 loc_Exact) as [mrs2 e2].
  cbn [fst snd] in *. unfold fexp, emin in He2.
  assert (He2K : e1 <= e2 <= K) by lia.
  assert (Hm3lt : 0 <= shr_m mrs2 < 2 ^ (K + 1 - e2)).
  { rewrite Hm3. split.
    - apply Z.div_pos; [lia | apply Z.pow_pos_nonneg; lia].
    - replace (K + 1 - e2) with ((K + 1 - e1) - (e2 - e1)) by lia.
      apply div_pow2_lt; lia. }
  destruct (shr_m mrs2) as [| m3 | m3] eqn:E3; [exact I | | lia].
  assert (Hle : (e2 <=? emax - prec) = true) by (apply Z.leb_le; lia).
  rewrite Hle. cbn [below].
  pose proof (Zdigits2_le (Zpos m3) (K + 1 - e2) Hm3lt ltac:(lia)) as Hd3.
  cbn [Zdigits2] in Hd3. lia.
Qed.

Lemma below_mono k k' x : below k x -> k <= k' -> below k' x.
Proof. destruct x; cbn [below]; intros; lia || assumption. Qed.

Lemma digits2_pos_shl (m d : positive) :
  Zpos (digits2_pos (Pos.iter xO m d)) = Zpos (digits2_pos m) + Zpos d.
Proof.
  rewrite Pos2Nat.inj_iter.
  change (nat_rect (fun _ => positive) m (fun _ => xO) (Pos.to_nat d))
    with (Nat.iter (Pos.to_nat d) xO m).
  rewrite digits2_pos_iter_xO, positive_nat_Z. reflexivity.
Qed.

(** [shl_align] keeps the magnitude and does not raise the exponent. *)
Lemma shl_align_spec m e e' :
  Zpos (digits2_pos (fst (shl_align m e e'))) + snd (shl_align m e e')
    = Zpos (digits2_pos m) + e /\
  snd (shl_align m e e') = Z.min e e'.
Proof.
  unfold shl_align. destruct (e' - e) as [| p | p] eqn:E; cbn [fst snd].
  - lia.
  - lia.
  - rewrite digits2_pos_shl. lia.
Qed.

Lemma binary_round_below prec emax s m e K :
  0 < prec ->
  Zpos (digits2_pos m) + e <= K ->
  3 - emax - prec <= K -> K <= emax - prec ->
  below (K + 1) (binary_round prec emax s m e).
Proof.
  intros Hprec HK Hemin Hemax. unfold binary_round.
  pose proof (shl_align_spec m e
                (fexp prec emax (Zpos (digits2_pos m) + e))) as [Hmag _].
  destruct (shl_align m e (fexp prec emax (Zpos (digits2_pos m) + e)))
    as [mz ez]. cbn [fst snd] in Hmag.
  apply binary_round_aux_below; try assumption; [lia |].
  cbn [Zdigits2]. lia.
Qed.

Lemma binary_normalize_below prec emax m e szero K :
  0 < prec ->
  Zdigits2 m + e <= K ->
  3 - emax - prec <= K -> K <= emax - prec ->
  below (K + 1) (binary_normalize prec emax m e szero).
Proof.
  intros Hprec HK Hemin Hemax. unfold binary_normalize.
  destruct m as [| p | p]; [exact I | |];
    apply binary_round_below; assumption.
Qed.

Lemma Zdigits2_le_abs (x k : Z) :
  Z.abs x < 2 ^ k -> 0 <= k -> Zdigits2 x <= k.
Proof.
  intros Hx Hk. destruct x as [| p | p].
  - cbn. lia.
  - apply Zdigits2_le; lia.
  - change (Zdigits2 (Zneg p)) with (Zdigits2 (Zpos p)).
    apply Zdigits2_le; lia.
Qed.

Lemma pos_lt_pow_below m e K :
  Zpos (digits2_pos m) + e <= K -> Zpos m < 2 ^ (K - e).
Proof.
  intros H. pose proof (digits2_pos_bounds m) as [_ Hlt].
  eapply Z.lt_le_trans; [exact Hlt |]. apply Z.pow_le_mono_r; lia.
Qed.

(** A product of numbers below [2 ^ kx] and [2 ^ ky]. *)
Lemma SFmul_below prec emax x y kx ky K :
  0 < prec ->
  below kx x -> below ky y ->
  kx + ky <= K -> 3 - emax - prec <= K -> K <= emax - prec ->
  below (K + 1) (SFmul prec emax x y).
Proof.
  intros Hprec Hx Hy HK Hemin Hemax.
  destruct x as [sx | sx | | sx mx ex]; cbn [below] in Hx;
    try contradiction;
    destruct y as [sy | sy | | sy my ey]; cbn [below] in Hy;
    try contradiction; cbn [SFmul]; try exact I.
  apply binary_round_aux_below; try assumption; [lia |].
  pose proof (pos_lt_pow_below mx ex kx Hx) as Hmx.
  pose proof (pos_lt_pow_below my ey ky Hy) as Hmy.
  pose proof (Pos2Z.is_pos (digits2_pos mx)).
  pose proof (Pos2Z.is_pos (digits2_pos my)).
  assert (Hd : Zdigits2 (Zpos (mx * my)) <= (kx - ex) + (ky - ey)).
  { apply Zdigits2_le; [| lia]. split; [lia |].
    rewrite Pos2Z.inj_mul, Z.pow_add_r by lia.
    apply Z.mul_lt_mono_nonneg; lia. }
  lia.
Qed.

(** A sum of numbers below [2 ^ k]. *)
Lemma SFadd_below prec emax x y k K :
  0 < prec ->
  below k x -> below k y ->
  k + 1 <= K -> 3 - emax - prec <= K -> K <= emax - prec ->
  below (K + 1) (SFadd prec emax x y).
Proof.
  intros Hprec Hx Hy HK Hemin Hemax.
  destruct x as [sx | sx | | sx mx ex]; cbn [below] in Hx;
    try contradiction;
    destruct y as [sy | sy | | sy my ey]; cbn [below] in Hy;
    try contradiction; cbn [SFadd].
  - destruct sx, sy; exact I.
  - cbn [below]. lia.
  - cbn [below]. lia.
  - set (ez := Z.min ex ey).
    pose proof (shl_align_spec mx ex ez) as [Hxm Hxe].
    pose proof (shl_align_spec my ey ez) as [Hym Hye].
    destruct (shl_align mx ex ez) as [mx' ex'].
    destruct (shl_align my ey ez) as [my' ey']. cbn [fst snd] in *.
    assert (Hex : ex' = ez) by (subst ez; lia).
    assert (Hey : ey' = ez) by (subst ez; lia).
    pose proof (pos_lt_pow_below mx' ez k ltac:(lia)) as Hmx.
    pose proof (pos_lt_pow_below my' ez k ltac:(lia)) as Hmy.
    pose proof (Pos2Z.is_pos (digits2_pos mx')).
    apply binary_normalize_below; try assumption.
    assert (Hd : Zdigits2 (cond_Zopp sx (Zpos mx') + cond_Zopp sy (Zpos my'))
                 <= k + 1 - ez).
    { apply Zdigits2_le_abs; [| lia].
      replace (k + 1 - ez) with (Z.succ (k - ez)) by lia.
      rewrite Z.pow_succ_r by lia.
      destruct sx, sy; cbn [cond_Zopp]; lia. }
    lia.
Qed.

Lemma of_int_1 : PyFloat.of_int 1 = S754_finite false 4503599627370496 (-52).
Proof. vm_compute. reflexivity. Qed.

Lemma unit_draw_below u : unit_draw u = true -> below 0 u.
Proof.
  unfold unit_draw. rewrite of_int_1. intros H.
  apply andb_prop in H as [H Hlt]. apply andb_prop in H as [Hv Hge].
  destruct u as [s | s | | s m e]; cbn [below].
  - exact I.
  - destruct s; [discriminate Hge | discriminate Hlt].
  - discriminate Hge.
  - destruct s; [discriminate Hge |].
    cbn [valid_binary] in Hv. apply bounded_inv in Hv as [Hc _].
    apply canonical_mantissa_eq in Hc. unfold fexp, emin in Hc.
    unfold SFltb, SFcompare in Hlt.
    destruct (Z.compare_spec e (-52)) as [E | E | E]; try discriminate Hlt.
    + subst e. rewrite Pos.compare_cont_spec in Hlt.
      cbn [Pos.switch_Eq] in Hlt.
      destruct (Pos.compare_spec m 4503599627370496) as [E | E | E];
        try discriminate Hlt.
      assert (Hb : Zpos m < 2 ^ 52).
      { apply Pos2Z.pos_lt_pos in E.
        eapply Z.lt_le_trans; [exact E |]. vm_compute. discriminate. }
      pose proof (Zdigits2_le (Zpos m) 52
                    (conj (Pos2Z.is_nonneg m) Hb) ltac:(discriminate)) as Hd.
      cbn [Zdigits2] in Hd. clear - Hd. lia.
    + clear - Hc E. lia.
Qed.

(** A number below [2 ^ 104] fits binary32: [write_float] computes its
    registers without [OverflowError]. *)
Lemma packs_below x K : below K x -> -149 <= K <= 104 -> packs x = true.
Proof.
  intros Hx HK. unfold packs, ModbusRTUSimulator.write_float_registers,
    BinaryPayloadBuilder.add_32bit_float, struct_pack_f.
  assert (Hinf : PyFloat.is_inf (PyFloat.single_of_double x) = false).
  { destruct x as [s | s | | s m e]; cbn [below] in Hx; try contradiction;
      cbn [PyFloat.single_of_double]; [reflexivity |].
    pose proof (binary_round_below 24 128 s m e K ltac:(lia) Hx
                  ltac:(lia) ltac:(lia)) as H.
    destruct (binary_round 24 128 s m e); cbn [below] in H;
      try contradiction; reflexivity. }
  rewrite Hinf. cbn [andb rbind Ok].
  unfold BinaryPayloadBuilder.to_registers, BinaryPayloadBuilder.build,
    be_bytes4. cbn. reflexivity.
Qed.

Lemma drift_packs base a b u :
  below 5 base -> below 5 a -> below 5 (PyFloat.sub b a) -> below 0 u ->
  packs (PyFloat.add base (uniform a b u)) = true.
Proof.
  intros Hbase Ha Hc Hu. unfold uniform, PyFloat.add, PyFloat.mul.
  apply (packs_below _ 10); [| lia].
  apply (SFadd_below 53 1024 _ _ 8 9); try lia.
  - apply (below_mono 5); [exact Hbase | lia].
  - apply (SFadd_below 53 1024 _ _ 6 7); try lia.
    + apply (below_mono 5); [exact Ha | lia].
    + apply (SFmul_below 53 1024 _ _ 5 0 5); try lia; assumption.
Qed.

(** No draw of [random.random()] makes a drifted value overflow. *)
Lemma unit_draw_packable u : unit_draw u = true -> packable u = true.
Proof.
  intros H. apply unit_draw_below in H. unfold packable.
  rewrite !drift_packs; try exact H; try reflexivity;
    vm_compute; discriminate.
Qed.

End Magnitude.

(** C1. For every finite 32-bit float [y], held by Python as the float [x]:
    [write_float] encodes [x] as the two registers of [y]'s bit pattern,
    most significant word first, and the decode path of [read_float]
    returns [x] itself from those two registers. *)
Theorem C1_float_round_trip (y : spec_float) :
  PyFloat.finite_single y = true ->
  let x := PyFloat.double_of_single y in
  let b := PyFloat.bits_of_single y in
  ModbusRTUSimulator.write_float_registers x
    = Ok [b / 2 ^ 16; b mod 2 ^ 16] /\
  ModbusRTUClient.read_float_decode [b / 2 ^ 16; b mod 2 ^ 16] = Ok x.
Proof.
  intros Hy x b.
  pose proof (bits_of_single_range y Hy) as Hb. fold b in Hb.
  assert (Hinf : PyFloat.is_inf y = false).
  { unfold PyFloat.finite_single in Hy. apply andb_prop in Hy as [Hfin _].
    destruct y; try discriminate Hfin; reflexivity. }
  split.
  - unfold ModbusRTUSimulator.write_float_registers,
      BinaryPayloadBuilder.add_32bit_float, struct_pack_f.
    subst x. rewrite (single_of_double_of_single y Hy), Hinf.
    cbn [andb rbind Raise Ok]. apply registers_of_bytes4, Hb.
  - unfold ModbusRTUClient.read_float_decode.
    rewrite (bytes_of_registers2 b Hb). cbn [rbind Ok].
    unfold BinaryPayloadDecoder.decode_32bit_float.
    change (firstn 4 (be_bytes4 b)) with (be_bytes4 b).
    rewrite (of_be_bytes4_be_bytes4 b Hb). subst b x.
    rewrite (single_of_bits_of_single y Hy). reflexivity.
Qed.

(** The binary32 value nearest to 0.1, bit pattern 0x3DCCCCCD. *)
Lemma C1_float_round_trip_witness :
  let y := S754_finite false 13421773 (-27) in
  PyFloat.finite_single y = true /\
  ModbusRTUSimulator.write_float_registers (PyFloat.double_of_single y)
    = Ok [15820; 52429] /\
  ModbusRTUClient.read_float_decode [15820; 52429]
    = Ok (PyFloat.double_of_single y).
Proof.
  split; [reflexivity |].
  exact (C1_float_round_trip (S754_finite false 13421773 (-27)) eq_refl).
Defined.

(** ** Strings, bytes and registers *)

Section StringFacts.

Lemma list_pair_ind {A} (P : list A -> Prop) :
  P [] -> (forall a, P [a]) ->
  (forall a b l, P l -> P (a :: b :: l)) ->
  forall l, P l.
Proof.
  intros H0 H1 H2.
  assert (H : forall l, P l /\ forall a, P (a :: l)).
  { induction l as [| b l [IH1 IH2]]; split; auto. }
  intros l. apply H.
Qed.

Lemma code_range c : 0 <= code c < 256.
Proof.
  unfold code. pose proof (N_ascii_bounded c). lia.
Qed.

Lemma isascii_codes s :
  isascii s = true -> Forall (fun b => 0 <= b < 128) (codes s).
Proof.
  induction s as [| c s IH]; cbn [isascii codes]; intros H.
  - constructor.
  - apply andb_prop in H as [Hc Hs]. apply Z.ltb_lt in Hc.
    constructor; [pose proof (code_range c); lia | auto].
Qed.

Lemma encode_ascii_codes s :
  isascii s = true -> encode_ascii s = Ok (codes s).
Proof.
  induction s as [| c s IH]; cbn [isascii encode_ascii codes]; intros H.
  - reflexivity.
  - apply andb_prop in H as [Hc Hs]. rewrite Hc, (IH Hs). reflexivity.
Qed.

Lemma decode_ascii_codes s :
  isascii s = true -> decode_ascii (codes s) = Ok s.
Proof.
  induction s as [| c s IH]; cbn [isascii decode_ascii codes]; intros H.
  - reflexivity.
  - apply andb_prop in H as [Hc Hs]. rewrite Hc, (IH Hs).
    pose proof (code_range c) as [Hlo _]. apply Z.leb_le in Hlo.
    rewrite Hlo. cbn [andb rbind Ok]. unfold code.
    rewrite N2Z.id, ascii_N_embedding. reflexivity.
Qed.

Lemma append_cons c s t : (String c s ++ t)%string = String c (s ++ t).
Proof. reflexivity. Qed.

Lemma append_empty t : (EmptyString ++ t)%string = t.
Proof. reflexivity. Qed.

Lemma codes_length s : List.length (codes s) = String.length s.
Proof. induction s; cbn; auto. Qed.

Lemma codes_app s t : codes (s ++ t) = codes s ++ codes t.
Proof.
  induction s as [| c s IH]; rewrite ?append_cons, ?append_empty;
    cbn [codes app]; [| rewrite IH]; reflexivity.
Qed.

Lemma isascii_app s t : isascii (s ++ t) = isascii s && isascii t.
Proof.
  induction s as [| c s IH]; rewrite ?append_cons, ?append_empty;
    cbn [isascii]; [reflexivity |].
  rewrite IH, andb_assoc. reflexivity.
Qed.

Lemma isascii_repeat_NUL n : isascii (string_repeat NUL n) = true.
Proof. induction n; cbn [isascii string_repeat]; auto. Qed.

Lemma codes_repeat_NUL n : codes (string_repeat NUL n) = repeat 0 n.
Proof. induction n as [| n IH]; cbn; [| rewrite IH]; reflexivity. Qed.

Lemma string_repeat_length c n : String.length (string_repeat c n) = n.
Proof. induction n; cbn; auto. Qed.

Lemma append_length s t :
  String.length (s ++ t) = (String.length s + String.length t)%nat.
Proof.
  induction s as [| c s IH]; rewrite ?append_cons, ?append_empty;
    cbn [String.length]; [reflexivity | rewrite IH; reflexivity].
Qed.

Lemma ljust_length s n c :
  String.length (ljust s n c) = Nat.max (String.length s) n.
Proof. unfold ljust. rewrite append_length, string_repeat_length. lia. Qed.

Lemma ljust_long s n c : (n <= String.length s)%nat -> ljust s n c = s.
Proof.
  intros H. unfold ljust. replace (n - String.length s)%nat with 0%nat by lia.
  cbn [string_repeat]. clear H.
  induction s as [| a s IH]; rewrite ?append_cons, ?append_empty;
    [reflexivity | rewrite IH; reflexivity].
Qed.

(** Slicing by two and unpacking: one word per pair of bytes when the
    number of bytes is even, [struct.error] on the last slice when odd. *)
Lemma unpack_slices_even bs :
  Nat.Even (List.length bs) ->
  rmap struct_unpack_H (slices2 bs) = Ok (words bs).
Proof.
  induction bs as [| a | a b bs IH] using list_pair_ind; intros H.
  - reflexivity.
  - destruct H as [k Hk]. cbn in Hk. lia.
  - cbn [slices2 rmap struct_unpack_H words Ok]. rewrite IH; [reflexivity |].
    destruct H as [k Hk]. cbn in Hk. exists (k - 1)%nat. lia.
Qed.

Lemma unpack_slices_odd bs :
  Nat.Odd (List.length bs) ->
  rmap struct_unpack_H (slices2 bs) = Raise StructError.
Proof.
  induction bs as [| a | a b bs IH] using list_pair_ind; intros H.
  - destruct H as [k Hk]. cbn in Hk. lia.
  - reflexivity.
  - cbn [slices2 rmap struct_unpack_H words Ok]. rewrite IH; [reflexivity |].
    destruct H as [k Hk]. cbn in Hk. exists (k - 1)%nat. lia.
Qed.

Lemma words_length bs : List.length (words bs) = (List.length bs / 2)%nat.
Proof.
  induction bs as [| a | a b bs IH] using list_pair_ind.
  - reflexivity.
  - reflexivity.
  - cbn [words List.length]. rewrite IH.
    change (S (S (List.length bs))) with (1 * 2 + List.length bs)%nat.
    rewrite Nat.div_add_l by lia. lia.
Qed.

(** The client unpacks the words to the bytes they were packed from. *)
Lemma to_bytes_words bs :
  Nat.Even (List.length bs) ->
  Forall (fun b => 0 <= b < 256) bs ->
  rbind (rmap to_bytes_2_big (words bs)) (fun l => Ok (concat l)) = Ok bs.
Proof.
  induction bs as [| a | a b bs IH] using list_pair_ind; intros He H.
  - reflexivity.
  - destruct He as [k Hk]. cbn in Hk. lia.
  - inversion H as [| ? ? Ha H']; subst. inversion H' as [| ? ? Hb H'']; subst.
    assert (He' : Nat.Even (List.length bs)).
    { destruct He as [k Hk]. cbn in Hk. exists (k - 1)%nat. lia. }
    specialize (IH He' H'').
    cbn [words rmap]. unfold to_bytes_2_big at 1.
    assert (H1 : (0 <=? a * 256 + b) = true) by (apply Z.leb_le; lia).
    assert (H2 : (a * 256 + b <=? 65535) = true) by (apply Z.leb_le; lia).
    rewrite H1, H2. cbn [andb Ok].
    destruct (rmap to_bytes_2_big (words bs)) as [e | l]; cbn in IH |- *;
      [discriminate IH |].
    unfold Ok in *. inversion IH as [IH']. rewrite IH'.
    replace ((a * 256 + b) / 256) with a by (Z.div_mod_to_equations; lia).
    replace ((a * 256 + b) mod 256) with b by (Z.div_mod_to_equations; lia).
    reflexivity.
Qed.

(** Stripping the padding. *)
Lemma rstrip_repeat c n : rstrip c (string_repeat c n) = EmptyString.
Proof.
  induction n as [| n IH]; cbn [string_repeat rstrip]; [reflexivity |].
  rewrite IH, Ascii.eqb_refl. reflexivity.
Qed.

Lemma rstrip_app_repeat c s n :
  last_char s <> Some c -> rstrip c (s ++ string_repeat c n) = s.
Proof.
  induction s as [| a s IH]; rewrite ?append_cons, ?append_empty;
    cbn [last_char]; intros H.
  - apply rstrip_repeat.
  - cbn [rstrip]. destruct s as [| a' s'].
    + rewrite append_empty, rstrip_repeat.
      destruct (Ascii.eqb a c) eqn:E; [| reflexivity].
      apply Ascii.eqb_eq in E. congruence.
    + rewrite (IH H). reflexivity.
Qed.

End StringFacts.

(** What [write_string] computes for an ASCII value: the words of the
    padded bytes when their number is even, [struct.error] when it is odd. *)
Lemma write_string_registers_even (value : string) (length : nat) :
  isascii value = true ->
  Nat.Even (Nat.max (String.length value) length) ->
  ModbusRTUSimulator.write_string_registers value length
    = Ok (words (codes (ljust value length NUL))).
Proof.
  intros Ha He. unfold ModbusRTUSimulator.write_string_registers.
  rewrite encode_ascii_codes.
  - cbn [rbind Ok]. apply unpack_slices_even.
    rewrite codes_length, ljust_length. exact He.
  - unfold ljust. rewrite isascii_app, Ha, isascii_repeat_NUL. reflexivity.
Qed.

Lemma write_string_registers_odd (value : string) (length : nat) :
  isascii value = true ->
  Nat.Odd (Nat.max (String.length value) length) ->
  ModbusRTUSimulator.write_string_registers value length = Raise StructError.
Proof.
  intros Ha Ho. unfold ModbusRTUSimulator.write_string_registers.
  rewrite encode_ascii_codes.
  - cbn [rbind Ok]. apply unpack_slices_odd.
    rewrite codes_length, ljust_length. exact Ho.
  - unfold ljust. rewrite isascii_app, Ha, isascii_repeat_NUL. reflexivity.
Qed.

(** What [read_string] decodes from the words of padded ASCII bytes. *)
Lemma read_string_decode_words (s : string) (k : nat) :
  isascii s = true ->
  last_char s <> Some NUL ->
  Nat.Even (String.length s + k) ->
  ModbusRTUClient.read_string_decode
    (words (codes (s ++ string_repeat NUL k)%string)) = Ok s.
Proof.
  intros Ha Hl He. unfold ModbusRTUClient.read_string_decode.
  set (p := (s ++ string_repeat NUL k)%string).
  assert (Hp : isascii p = true).
  { subst p. rewrite isascii_app, Ha, isascii_repeat_NUL. reflexivity. }
  assert (Hlen : Nat.Even (List.length (codes p))).
  { subst p. rewrite codes_length, append_length, string_repeat_length.
    exact He. }
  assert (Hr : Forall (fun b => 0 <= b < 256) (codes p)).
  { eapply Forall_impl; [apply isascii_codes, Hp |]. cbn. intros; lia. }
  pose proof (to_bytes_words (codes p) Hlen Hr) as Hb.
  destruct (rmap to_bytes_2_big (words (codes p))) as [e | l];
    cbn [rbind Ok] in Hb |- *; [discriminate Hb |].
  unfold Ok in Hb. inversion Hb as [Hb']. rewrite Hb'.
  rewrite (decode_ascii_codes p Hp). cbn [rbind Ok].
  subst p. rewrite (rstrip_app_repeat NUL s k Hl). reflexivity.
Qed.

(** C2, as amended. For every ASCII string [s] that does not end in a null
    character and every even declared length [n] with [len(s) <= n]:
    [write_string] computes as many registers as [read_string] asks for,
    and [read_string] decodes them to [s]. *)
Theorem C2_ascii_round_trip_even (s : string) (n : nat) :
  isascii s = true ->
  last_char s <> Some NUL ->
  (String.length s <= n)%nat ->
  Nat.Even n ->
  exists registers,
    ModbusRTUSimulator.write_string_registers s n = Ok registers /\
    List.length registers = ((n + 1) / 2)%nat /\
    ModbusRTUClient.read_string_decode registers = Ok s.
Proof.
  intros Ha Hl Hn He.
  exists (words (codes (ljust s n NUL))). split; [| split].
  - apply write_string_registers_even; [exact Ha |].
    rewrite Nat.max_r by exact Hn. exact He.
  - rewrite words_length, codes_length, ljust_length, Nat.max_r by exact Hn.
    destruct He as [k ->].
    replace (2 * k + 1)%nat with (1 + k * 2)%nat by lia.
    rewrite Nat.div_add by lia.
    replace (2 * k)%nat with (0 + k * 2)%nat by lia.
    rewrite Nat.div_add by lia. reflexivity.
  - unfold ljust. apply read_string_decode_words; [exact Ha | exact Hl |].
    replace (String.length s + (n - String.length s))%nat with n by lia.
    exact He.
Qed.

Lemma C2_ascii_round_trip_even_witness :
  exists registers,
    ModbusRTUSimulator.write_string_registers "PROD123" 12 = Ok registers /\
    List.length registers = ((12 + 1) / 2)%nat /\
    ModbusRTUClient.read_string_decode registers = Ok "PROD123"%string.
Proof.
  apply (C2_ascii_round_trip_even "PROD123" 12).
  - reflexivity.
  - discriminate.
  - cbn. lia.
  - exists 6%nat. reflexivity.
Defined.

(** C2 as stated fails twice: a string that ends in a null character
    loses it to [rstrip], and for an odd declared length the encoder
    raises on the last, one-byte slice. *)
Lemma C2_counterexample :
  let s := String "A" (String NUL EmptyString) in
  (isascii s = true /\ (String.length s <= 2)%nat /\
   ModbusRTUSimulator.write_string_registers s 2 = Ok [16640] /\
   ModbusRTUClient.read_string_decode [16640] = Ok "A"%string /\
   "A"%string <> s) /\
  (isascii "PROD123" = true /\ (String.length "PROD123" <= 11)%nat /\
   ModbusRTUSimulator.write_string_registers "PROD123" 11
     = Raise StructError).
Proof.
  cbn zeta. repeat split; try reflexivity; try (cbn; lia). discriminate.
Qed.

(** C3. For every ASCII string [s] and every odd declared length [n] with
    [len(s) <= n], [write_string] raises [struct.error] on the last slice
    of the padded bytes, which holds one byte, and writes nothing: no
    register sequence of [ceil(n/2)] words is produced. *)
Theorem C3_odd_length_raises (context address : nat) (s : string) (n : nat)
    (w : World) :
  isascii s = true ->
  (String.length s <= n)%nat ->
  Nat.Odd n ->
  ModbusRTUSimulator.write_string_registers s n = Raise StructError /\
  ModbusRTUSimulator.write_string context address s n w
    = (Raise StructError, w).
Proof.
  intros Ha Hn Ho.
  assert (H : ModbusRTUSimulator.write_string_registers s n
              = Raise StructError).
  { apply write_string_registers_odd; [exact Ha |].
    rewrite Nat.max_r by exact Hn. exact Ho. }
  split; [exact H |].
  unfold ModbusRTUSimulator.write_string, bind, lift. rewrite H. reflexivity.
Qed.

Lemma C3_odd_length_raises_witness :
  ModbusRTUSimulator.write_string_registers "PROD123" 11 = Raise StructError /\
  ModbusRTUSimulator.write_string 0 100 "PROD123" 11 (boot (fun _ => S754_zero false))
    = (Raise StructError, boot (fun _ => S754_zero false)).
Proof.
  apply (C3_odd_length_raises 0 100 "PROD123" 11).
  - reflexivity.
  - cbn. lia.
  - exists 5%nat. reflexivity.
Defined.

(** C4, as amended. [write_string] has no length check. For every ASCII
    value whose byte length is even and exceeds the declared length, no
    padding is added, every byte of the value is packed, and the
    [len(value)/2] registers, no fewer than [ceil(length/2)], are written
    at [address]. *)
Theorem C4_too_long_even_is_written (context address : nat) (value : string)
    (length : nat) (w : World) (c : ModbusSlaveContext.t) :
  isascii value = true ->
  (length < String.length value)%nat ->
  Nat.Even (String.length value) ->
  heap w !! context = Some c ->
  let registers := words (codes value) in
  ModbusRTUSimulator.write_string_registers value length = Ok registers /\
  List.length registers = (String.length value / 2)%nat /\
  ((length + 1) / 2 <= String.length value / 2)%nat /\
  exists c',
    ModbusSlaveContext.setValues c 3 address registers = Ok c' /\
    ModbusRTUSimulator.write_string context address value length w
      = (Ok tt, {| heap := <[context := c']> (heap w);
                   random_outputs := random_outputs w;
                   draws := draws w; log := log w |}).
Proof.
  intros Ha Hlen He Hc registers.
  assert (Hr : ModbusRTUSimulator.write_string_registers value length
               = Ok registers).
  { rewrite write_string_registers_even.
    - rewrite ljust_long by lia. reflexivity.
    - exact Ha.
    - rewrite Nat.max_l by lia. exact He. }
  split; [exact Hr |]. split; [| split].
  - subst registers. rewrite words_length, codes_length. reflexivity.
  - apply Nat.Div0.div_le_mono. lia.
  - eexists. split; [reflexivity |].
    unfold ModbusRTUSimulator.write_string, bind, lift. rewrite Hr.
    unfold context_setValues. rewrite Hc. reflexivity.
Qed.

Lemma C4_too_long_even_is_written_witness :
  let w := snd (ModbusRTUSimulator._create_slave_context
                  (boot (fun _ => S754_zero false))) in
  exists c,
    heap w !! 0%nat = Some c /\
    ModbusRTUSimulator.write_string_registers "PROD123456" 8
      = Ok [20562; 20292; 12594; 13108; 13622] /\
    exists c',
      ModbusSlaveContext.setValues c 3 100
        [20562; 20292; 12594; 13108; 13622] = Ok c' /\
      ModbusRTUSimulator.write_string 0 100 "PROD123456" 8 w
        = (Ok tt, {| heap := <[0%nat := c']> (heap w);
                     random_outputs := random_outputs w;
                     draws := draws w; log := log w |}).
Proof.
  intros w. eexists. split; [reflexivity |].
  destruct (C4_too_long_even_is_written 0 100 "PROD123456" 8 w _
              eq_refl ltac:(cbn; lia) ltac:(exists 5%nat; reflexivity)
              eq_refl) as (H1 & _ & _ & H2).
  split; [exact H1 | exact H2].
Defined.

(** C4 as stated fails: a 10-byte value with declared length 8 is encoded
    without any error, in 5 registers where [ceil(8/2)] is 4. *)
Lemma C4_counterexample :
  (8 < String.length "PROD123456")%nat /\
  ModbusRTUSimulator.write_string_registers "PROD123456" 8
    = Ok [20562; 20292; 12594; 13108; 13622].
Proof. split; [cbn; lia | reflexivity]. Qed.

(** ** Writes to the holding registers *)

Section MemoryFacts.

Implicit Types (vals new : list Z) (a i n : nat).

Lemma slice_assign_lookup vals a new i :
  (a + List.length new <= List.length vals)%nat ->
  slice_assign vals a new !! i =
    if decide (a <= i < a + List.length new)%nat
    then new !! (i - a)%nat else vals !! i.
Proof.
  intros H. unfold slice_assign.
  destruct (decide (i < a)%nat) as [Hlt | Hge].
  - rewrite lookup_app_l by (rewrite length_take; lia).
    rewrite lookup_take_lt by lia.
    case_decide; [lia | reflexivity].
  - rewrite lookup_app_r by (rewrite length_take; lia).
    rewrite length_take, Nat.min_l by lia.
    case_decide as Hin.
    + rewrite lookup_app_l by lia. reflexivity.
    + rewrite lookup_app_r by lia. rewrite lookup_drop. f_equal. lia.
Qed.

Lemma slice_assign_length vals a new :
  (a + List.length new <= List.length vals)%nat ->
  List.length (slice_assign vals a new) = List.length vals.
Proof.
  intros H. unfold slice_assign.
  rewrite !length_app, length_take, length_drop. lia.
Qed.

(** Reading back what was assigned. *)
Lemma slice_assign_read vals a new :
  (a + List.length new <= List.length vals)%nat ->
  take (List.length new) (drop a (slice_assign vals a new)) = new.
Proof.
  intros H. apply list_eq. intros i.
  destruct (decide (i < List.length new)%nat) as [Hi | Hi].
  - rewrite lookup_take_lt, lookup_drop, slice_assign_lookup by lia.
    case_decide; [f_equal; lia | lia].
  - rewrite lookup_take_ge by lia. symmetry. apply lookup_ge_None. lia.
Qed.

(** Reading elsewhere. *)
Lemma slice_assign_frame vals a new a' n :
  (a + List.length new <= List.length vals)%nat ->
  (a' + n <= a \/ a + List.length new <= a')%nat ->
  take n (drop a' (slice_assign vals a new)) = take n (drop a' vals).
Proof.
  intros H Hd. apply list_eq. intros i.
  destruct (decide (i < n)%nat) as [Hi | Hi].
  - rewrite !lookup_take_lt, !lookup_drop, slice_assign_lookup by lia.
    case_decide; [lia | reflexivity].
  - rewrite !lookup_take_ge by lia. reflexivity.
Qed.

Lemma decode_3 : ModbusSlaveContext.decode 3 = Ok ModbusSlaveContext.H.
Proof. reflexivity. Qed.

Lemma context_setValues_poke r a new w :
  live r w ->
  context_setValues r 3 a new w = (Ok tt, poke r w (a, new)).
Proof.
  intros (c & Hc & Hz & Ha). unfold context_setValues, poke.
  rewrite Hc. unfold ModbusSlaveContext.setValues. rewrite decode_3.
  cbn [rbind Ok ModbusSlaveContext.get_store]. unfold ModbusSlaveContext.shift. rewrite Hz.
  reflexivity.
Qed.

Lemma live_poke r w write : live r w -> live r (poke r w write).
Proof.
  intros (c & Hc & Hz & Ha). unfold live, poke. rewrite Hc. cbn [heap].
  eexists. split; [| split].
  - apply list_lookup_insert_eq. eapply lookup_lt_Some, Hc.
  - exact Hz.
  - exact Ha.
Qed.

Lemma holding_poke r w write :
  live r w ->
  holding r (poke r w write) = slice_assign (holding r w) write.1 write.2.
Proof.
  intros (c & Hc & Hz & Ha). unfold holding, poke. rewrite Hc. cbn [heap].
  rewrite list_lookup_insert_eq by (eapply lookup_lt_Some, Hc).
  cbn. rewrite Ha, Nat.sub_0_r. reflexivity.
Qed.

Lemma poke_log r w write : log (poke r w write) = log w.
Proof. unfold poke. destruct (heap w !! r); reflexivity. Qed.

Lemma live_pokes r ws w : live r w -> live r (fold_left (poke r) ws w).
Proof.
  revert w. induction ws as [| wr ws IH]; intros w H; cbn [fold_left].
  - exact H.
  - apply IH, live_poke, H.
Qed.

Lemma holding_pokes r ws w :
  live r w ->
  holding r (fold_left (poke r) ws w) =
    fold_left (fun vals wr => slice_assign vals wr.1 wr.2) ws (holding r w).
Proof.
  revert w. induction ws as [| wr ws IH]; intros w H; cbn [fold_left].
  - reflexivity.
  - rewrite IH by (apply live_poke, H). rewrite holding_poke by exact H.
    reflexivity.
Qed.


Lemma bind_ok {S A B} (m : ST S A) (k : A -> ST S B) w x w' :
  m w = (Ok x, w') -> bind m k w = k x w'.
Proof. intros H. unfold bind. rewrite H. reflexivity. Qed.

Lemma write_float_poke r a x w registers :
  live r w ->
  ModbusRTUSimulator.write_float_registers x = Ok registers ->
  ModbusRTUSimulator.write_float r a x w = (Ok tt, poke r w (a, registers)).
Proof.
  intros Hl Hr. unfold ModbusRTUSimulator.write_float.
  erewrite bind_ok by (unfold lift; rewrite Hr; reflexivity).
  apply context_setValues_poke, Hl.
Qed.

Lemma write_string_poke r a value length w :
  live r w ->
  isascii value = true ->
  Nat.Even (Nat.max (String.length value) length) ->
  ModbusRTUSimulator.write_string r a value length w =
    (Ok tt, poke r w (a, words (codes (ljust value length NUL)))).
Proof.
  intros Hl Ha He. unfold ModbusRTUSimulator.write_string.
  erewrite bind_ok
    by (unfold lift; rewrite write_string_registers_even by assumption;
        reflexivity).
  apply context_setValues_poke, Hl.
Qed.

Lemma base_values_lookup (b : ModbusRTUSimulator.base_values) (k : Z) :
  (list_to_map [(1, b); (2, b); (3, b); (4, b)] : gmap Z _) !! k =
    if decide (k ∈ [1; 2; 3; 4]) then Some b else None.
Proof.
  cbn [list_to_map foldr fst snd].
  destruct (decide (k ∈ [1; 2; 3; 4])) as [Hin | Hout].
  - rewrite !elem_of_cons, elem_of_nil in Hin.
    destruct Hin as [-> | [-> | [-> | [-> | []]]]]; reflexivity.
  - rewrite !not_elem_of_cons in Hout.
    destruct Hout as (H1 & H2 & H3 & H4 & _).
    rewrite !lookup_insert_ne by congruence. apply lookup_empty.
Qed.

Lemma init_sfp_data_pokes r sfps w :
  live r w ->
  ModbusRTUSimulator.init_sfp_data r sfps w =
    (Ok tt, fold_left (poke r) (flat_map sfp_writes sfps) w).
Proof.
  revert w. unfold ModbusRTUSimulator.init_sfp_data.
  induction sfps as [| s sfps IH]; intros w Hl.
  - reflexivity.
  - cbn [for_each flat_map]. rewrite fold_left_app.
    unfold ModbusRTUSimulator.init_sfp_base_values at 1.
    cbv zeta. rewrite base_values_lookup. unfold sfp_writes at 2.
    destruct (decide (sfp s ∈ [1; 2; 3; 4])) as [Hin | Hout].
    + cbn [ModbusRTUSimulator.tx ModbusRTUSimulator.rx].
      erewrite bind_ok; cycle 1.
      { erewrite bind_ok
          by (apply write_float_poke; [exact Hl | reflexivity]).
        erewrite bind_ok
          by (apply write_float_poke;
              [apply live_poke, Hl | reflexivity]).
        apply write_float_poke; [do 2 apply live_poke; exact Hl |].
        reflexivity. }
      cbn [fold_left]. apply IH. do 3 apply live_poke. exact Hl.
    + erewrite bind_ok by reflexivity. cbn [fold_left]. apply IH, Hl.
Qed.


Lemma string_write_poke r (f : option StringField.t) value w :
  live r w ->
  isascii value = true ->
  writable f value ->
  match f with
  | Some f =>
      ModbusRTUSimulator.write_string r (StringField.address f) value
        (StringField.length f)
  | None => ret tt
  end w = (Ok tt, fold_left (poke r) (string_writes f value) w).
Proof.
  intros Hl Ha Hw. destruct f as [f |]; cbn [string_writes fold_left].
  - apply write_string_poke; assumption.
  - reflexivity.
Qed.

Lemma init_product_info_pokes r pi w :
  live r w ->
  writable (product_number pi) "PROD123456" ->
  writable (serial_number pi) "SN987654321" ->
  ModbusRTUSimulator.init_product_info r pi w =
    (Ok tt,
     fold_left (poke r)
       (product_info_writes pi "PROD123456" "SN987654321") w).
Proof.
  intros Hl Hp Hs. unfold ModbusRTUSimulator.init_product_info,
    product_info_writes.
  rewrite fold_left_app.
  erewrite bind_ok
    by (apply (string_write_poke r (product_number pi) "PROD123456");
        [exact Hl | reflexivity | exact Hp]).
  apply (string_write_poke r (serial_number pi) "SN987654321");
    [apply live_pokes, Hl | reflexivity | exact Hs].
Qed.

(** The loop of [_setup_server_context]: every seedable device is
    processed, its id bound to the one slave context. *)
Lemma setup_loop r config (contexts : gmap Z nat) w :
  live r w ->
  Forall device_seedable config ->
  for_fold config contexts (fun contexts device =>
    let device_id := device_id device in
    if decide (device_id ∈ [1; 2]) then
      (run! match registers device with
            | Some regs =>
                match (if device_id =? 1 then sfps regs else None) with
                | Some sfps => ModbusRTUSimulator.init_sfp_data r sfps
                | None =>
                    match (if device_id =? 2
                           then product_info regs else None) with
                    | Some pi => ModbusRTUSimulator.init_product_info r pi
                    | None => ret tt
                    end
                end
            | None => ret tt
            end in
       ret (<[device_id := r]> contexts))%M
    else ret contexts) w =
  (Ok (fold_left (fun contexts d =>
                    if decide (device_id d ∈ [1; 2])
                    then <[device_id d := r]> contexts else contexts)
         config contexts),
   fold_left (poke r) (seed_writes config) w).
Proof.
  intros Hl Hs. revert contexts w Hl.
  induction Hs as [| d config Hd Hs IH]; intros contexts w Hl.
  - reflexivity.
  - cbn [for_fold fold_left]. unfold seed_writes. cbn [flat_map].
    rewrite fold_left_app. fold (seed_writes config).
    cbv zeta.
    assert (Hnot : device_id d ∉ [1; 2] -> device_writes d = []).
    { intros Hn. unfold device_writes.
      destruct (registers d); [| reflexivity].
      destruct (device_id d =? 1) eqn:E1;
        [apply Z.eqb_eq in E1; exfalso; apply Hn; rewrite E1; set_solver |].
      destruct (device_id d =? 2) eqn:E2;
        [apply Z.eqb_eq in E2; exfalso; apply Hn; rewrite E2; set_solver |].
      reflexivity. }
    destruct (decide (device_id d ∈ [1; 2])) as [Hin | Hout].
    + assert (Hstep :
        match registers d with
        | Some regs =>
            match (if device_id d =? 1 then sfps regs else None) with
            | Some sfps => ModbusRTUSimulator.init_sfp_data r sfps
            | None =>
                match (if device_id d =? 2
                       then product_info regs else None) with
                | Some pi => ModbusRTUSimulator.init_product_info r pi
                | None => ret tt
                end
            end
        | None => ret tt
        end w = (Ok tt, fold_left (poke r) (device_writes d) w)).
      { unfold device_writes. destruct (registers d) as [regs |] eqn:Er;
          [| reflexivity].
        destruct (device_id d =? 1) eqn:E1.
        - destruct (sfps regs) as [l |].
          + apply init_sfp_data_pokes, Hl.
          + apply Z.eqb_eq in E1. rewrite E1. reflexivity.
        - destruct (device_id d =? 2) eqn:E2; [| reflexivity].
          destruct (product_info regs) as [pi |] eqn:Ep; [| reflexivity].
          apply Z.eqb_eq in E2.
          destruct (Hd regs pi E2 Er Ep) as [Hp Hsn].
          apply init_product_info_pokes; assumption. }
      erewrite bind_ok by (erewrite bind_ok by exact Hstep; reflexivity).
      apply IH, live_pokes, Hl.
    + rewrite (Hnot Hout). cbn [fold_left].
      erewrite bind_ok by reflexivity. apply IH, Hl.
Qed.

End MemoryFacts.

(** ** Construction of the simulator *)

Section ConstructionFacts.

Lemma assigns_length ws vals :
  List.length vals = block_size ->
  Forall in_block ws ->
  List.length (fold_left (fun vals wr => slice_assign vals wr.1 wr.2) ws vals) = block_size.
Proof.
  intros Hlen Hb. revert vals Hlen.
  induction Hb as [| wr ws Hwr Hb IH]; intros vals Hlen; cbn [fold_left].
  - exact Hlen.
  - apply IH. rewrite slice_assign_length; [exact Hlen |].
    unfold in_block in Hwr. lia.
Qed.

(** Later writes that lie apart from a range leave it as it was. *)
Lemma assigns_frame ws vals wr :
  List.length vals = block_size ->
  Forall in_block ws ->
  Forall (apart wr) ws ->
  take (List.length wr.2)
    (drop wr.1 (fold_left (fun vals wr => slice_assign vals wr.1 wr.2) ws vals))
  = take (List.length wr.2) (drop wr.1 vals).
Proof.
  intros Hlen Hb Ha. revert vals Hlen Ha.
  induction Hb as [| wr' ws Hwr Hb IH]; intros vals Hlen Ha;
    cbn [fold_left].
  - reflexivity.
  - inversion Ha as [| ? ? Hap Ha']; subst.
    unfold in_block in Hwr.
    rewrite IH; [| rewrite slice_assign_length; [exact Hlen | lia]
                 | exact Ha'].
    apply slice_assign_frame; [lia |]. unfold apart in Hap. lia.
Qed.

(** Every write of a sequence of writes that lie apart can be read back
    at the end. *)
Lemma assigns_read ws vals wr :
  List.length vals = block_size ->
  Forall in_block ws ->
  pairwise_apart ws ->
  In wr ws ->
  take (List.length wr.2)
    (drop wr.1 (fold_left (fun vals wr => slice_assign vals wr.1 wr.2) ws vals))
  = wr.2.
Proof.
  intros Hlen Hb. revert vals Hlen.
  induction Hb as [| wr' ws Hwr Hb IH]; intros vals Hlen Hp Hin.
  - destruct Hin.
  - cbn [fold_left]. destruct Hp as [Hap Hp]. unfold in_block in Hwr.
    destruct Hin as [-> | Hin].
    + rewrite assigns_frame;
        [| rewrite slice_assign_length; [exact Hlen | lia]
         | exact Hb | exact Hap].
      apply slice_assign_read. lia.
    + apply IH; [| exact Hp | exact Hin].
      rewrite slice_assign_length; [exact Hlen | lia].
Qed.

(** The world right after [_create_slave_context]. *)
Lemma create_slave_context_live w :
  let r := List.length (heap w) in
  let w' := snd (ModbusRTUSimulator._create_slave_context w) in
  ModbusRTUSimulator._create_slave_context w = (Ok r, w') /\
  live r w' /\ holding r w' = replicate block_size 0.
Proof.
  cbn zeta. unfold ModbusRTUSimulator._create_slave_context, new_object.
  cbn [snd]. split; [reflexivity |]. split.
  - unfold live. cbn [heap]. eexists. split; [| split].
    + rewrite lookup_app_r by lia. rewrite Nat.sub_diag. reflexivity.
    + reflexivity.
    + reflexivity.
  - unfold holding. cbn [heap].
    rewrite lookup_app_r by lia. rewrite Nat.sub_diag. reflexivity.
Qed.

(** Construction, for a configuration whose string fields can be
    written. *)
Lemma setup_server_context_effect config w :
  Forall device_seedable config ->
  let r := List.length (heap w) in
  ModbusRTUSimulator._setup_server_context config w =
    (Ok {| ModbusServerContext.slaves := served r config;
           ModbusServerContext.single := false |},
     fold_left (poke r) (seed_writes config)
       (snd (ModbusRTUSimulator._create_slave_context w))).
Proof.
  intros Hs r. unfold ModbusRTUSimulator._setup_server_context.
  destruct (create_slave_context_live w) as (Hc & Hl & _).
  erewrite bind_ok by exact Hc.
  erewrite bind_ok by (apply setup_loop; [exact Hl | exact Hs]).
  reflexivity.
Qed.

Lemma served_alias r config (contexts : gmap Z nat) id r' :
  (forall id r', contexts !! id = Some r' -> r' = r) ->
  fold_left (fun contexts d =>
               if decide (device_id d ∈ [1; 2])
               then <[device_id d := r]> contexts else contexts)
    config contexts !! id = Some r' ->
  r' = r.
Proof.
  revert contexts. induction config as [| d config IH];
    intros contexts Hall; cbn [fold_left].
  - apply Hall.
  - apply IH. case_decide; [| exact Hall].
    intros id0 r0. rewrite lookup_insert. case_decide.
    + congruence.
    + apply Hall.
Qed.

Lemma served_lookup r config (contexts : gmap Z nat) id :
  fold_left (fun contexts d =>
               if decide (device_id d ∈ [1; 2])
               then <[device_id d := r]> contexts else contexts)
    config contexts !! id =
  if decide (id ∈ [1; 2] /\ id ∈ map device_id config)
  then Some r else contexts !! id.
Proof.
  revert contexts. induction config as [| d config IH];
    intros contexts; cbn [fold_left map].
  - case_decide as H; [destruct H as [_ H]; inversion H | reflexivity].
  - rewrite IH. destruct (decide (device_id d ∈ [1; 2])) as [Hd | Hd].
    + rewrite lookup_insert.
      repeat case_decide; try reflexivity; exfalso; set_solver.
    + repeat case_decide; try reflexivity; exfalso; set_solver.
Qed.


(** What the server answers about a slave whose context is [r]. *)
Lemma serve_live w context slave r address count :
  ModbusServerContext.single context = false ->
  ModbusServerContext.slaves context !! slave = Some r ->
  live r w ->
  List.length (holding r w) = block_size ->
  (1 <= count <= 125)%nat ->
  (address + count <= block_size)%nat ->
  serve w context address count slave =
    RegistersResponse (take count (drop address (holding r w))).
Proof.
  intros Hsingle Hslave (c & Hc & Hz & Ha) Hlen Hcount Hrange.
  unfold serve, ModbusServerContext.getitem. rewrite Hsingle, Hslave.
  unfold Ok. cbv beta iota. rewrite Hc.
  unfold holding in *. rewrite Hc in *.
  assert (H1 : (1 <=? count)%nat = true) by (apply Nat.leb_le; lia).
  assert (H2 : (count <=? 125)%nat = true) by (apply Nat.leb_le; lia).
  rewrite H1, H2. cbn [andb].
  unfold ModbusSlaveContext.validate, ModbusSlaveContext.getValues.
  rewrite decode_3. cbn [rbind Ok ModbusSlaveContext.get_store].
  unfold ModbusSlaveContext.shift. rewrite Hz.
  unfold ModbusSequentialDataBlock.validate,
    ModbusSequentialDataBlock.getValues.
  rewrite Ha, Hlen. cbn [Nat.leb andb].
  assert (H3 : (address + count <=? 0 + block_size)%nat = true)
    by (apply Nat.leb_le; lia).
  rewrite H3, Nat.sub_0_r. reflexivity.
Qed.

(** Construction succeeds whenever every string field can be written,
    and leaves the seeded writes in the one slave context. *)
Lemma init_effect config rand :
  Forall device_seedable config ->
  ModbusRTUSimulator.__init__ config (boot rand) =
    (Ok {| ModbusRTUSimulator.config := config;
           ModbusRTUSimulator.context :=
             {| ModbusServerContext.slaves := served 0 config;
                ModbusServerContext.single := false |} |},
     fold_left (poke 0%nat) (seed_writes config)
       (snd (ModbusRTUSimulator._create_slave_context (boot rand)))).
Proof.
  intros Hs. unfold ModbusRTUSimulator.__init__.
  erewrite bind_ok by (apply setup_server_context_effect, Hs).
  reflexivity.
Qed.

(** After construction, every seeded write that lies apart from the
    others is what the server answers at its address. *)
Lemma serve_seeded config rand self w slave wr :
  Forall device_seedable config ->
  Forall in_block (seed_writes config) ->
  pairwise_apart (seed_writes config) ->
  ModbusRTUSimulator.__init__ config (boot rand) = (Ok self, w) ->
  In wr (seed_writes config) ->
  slave ∈ [1; 2] -> slave ∈ map device_id config ->
  (1 <= List.length wr.2 <= 125)%nat ->
  serve w (ModbusRTUSimulator.context self) wr.1 (List.length wr.2) slave
    = RegistersResponse wr.2.
Proof.
  intros Hs Hb Hp Hinit Hin Hs1 Hs2 Hcount.
  rewrite (init_effect config rand Hs) in Hinit.
  unfold Ok in Hinit. inversion Hinit as [[Hself Hw]]. clear Hinit.
  destruct (create_slave_context_live (boot rand)) as (_ & Hl & Hh).
  set (w0 := snd (ModbusRTUSimulator._create_slave_context (boot rand)))
    in *.
  change (live 0 w0) in Hl.
  change (holding 0 w0 = replicate block_size 0) in Hh.
  assert (Hlen0 : List.length (holding 0 w0) = block_size)
    by (rewrite Hh; apply length_replicate).
  cbn [ModbusRTUSimulator.context].
  assert (Hlen : List.length
                   (holding 0 (fold_left (poke 0%nat) (seed_writes config)
                                 w0)) = block_size).
  { rewrite holding_pokes by exact Hl.
    apply assigns_length; [exact Hlen0 | exact Hb]. }
  erewrite serve_live;
    [| reflexivity | | apply live_pokes, Hl | exact Hlen | exact Hcount |].
  - f_equal. rewrite holding_pokes by exact Hl.
    apply assigns_read; [exact Hlen0 | exact Hb | exact Hp | exact Hin].
  - cbn [ModbusServerContext.slaves]. unfold served.
    rewrite served_lookup. rewrite decide_True by (split; assumption).
    reflexivity.
  - rewrite Forall_forall in Hb. apply (Hb wr), list_elem_of_In, Hin.
Qed.

End ConstructionFacts.

(** ** A write followed by a read through the link *)

Lemma even_half n : Nat.Even n -> ((n + 1) / 2 = n / 2)%nat.
Proof.
  intros [k ->].
  replace (2 * k + 1)%nat with (1 + k * 2)%nat by lia.
  rewrite Nat.div_add by lia.
  replace (2 * k)%nat with (0 + k * 2)%nat by lia.
  rewrite Nat.div_add by lia. reflexivity.
Qed.

Lemma serve_after_write w context slave r a registers :
  ModbusServerContext.single context = false ->
  ModbusServerContext.slaves context !! slave = Some r ->
  live r w ->
  List.length (holding r w) = block_size ->
  (1 <= List.length registers <= 125)%nat ->
  (a + List.length registers <= block_size)%nat ->
  serve (poke r w (a, registers)) context a (List.length registers) slave
    = RegistersResponse registers.
Proof.
  intros Hsingle Hslave Hl Hlen Hcount Hrange.
  rewrite (serve_live _ context slave r); try assumption.
  - rewrite holding_poke by exact Hl. cbn [fst snd].
    rewrite slice_assign_read by lia. reflexivity.
  - apply live_poke, Hl.
  - rewrite holding_poke by exact Hl. cbn [fst snd].
    rewrite slice_assign_length by lia. exact Hlen.
Qed.

(** [write_float] at an address of the block, then [read_float] at that
    address: the float that the registers decode to. *)
Lemma write_float_then_read_float w context slave r a x registers x' :
  ModbusServerContext.single context = false ->
  ModbusServerContext.slaves context !! slave = Some r ->
  live r w ->
  List.length (holding r w) = block_size ->
  (a + 2 <= block_size)%nat ->
  ModbusRTUSimulator.write_float_registers x = Ok registers ->
  List.length registers = 2%nat ->
  ModbusRTUClient.read_float_decode registers = Ok x' ->
  exists w',
    ModbusRTUSimulator.write_float r a x w = (Ok tt, w') /\
    ModbusRTUClient.read_float (serve w' context) slave a = Ok (Some x').
Proof.
  intros Hsingle Hslave Hl Hlen Hrange Hregs Hcount Hdec.
  exists (poke r w (a, registers)). split.
  - apply write_float_poke; assumption.
  - unfold ModbusRTUClient.read_float. rewrite <- Hcount.
    rewrite serve_after_write by (try assumption; lia).
    rewrite Hdec. reflexivity.
Qed.

(** [write_string] of an ASCII value that fits an even declared length,
    then [read_string] at that address and length. *)
Lemma write_string_then_read_string w context slave r a value length :
  ModbusServerContext.single context = false ->
  ModbusServerContext.slaves context !! slave = Some r ->
  live r w ->
  List.length (holding r w) = block_size ->
  isascii value = true -> last_char value <> Some NUL ->
  (String.length value <= length)%nat -> Nat.Even length ->
  (2 <= length <= 250)%nat ->
  (a + length / 2 <= block_size)%nat ->
  exists w',
    ModbusRTUSimulator.write_string r a value length w = (Ok tt, w') /\
    ModbusRTUClient.read_string (serve w' context) slave a length
      = Ok (Some value).
Proof.
  intros Hsingle Hslave Hl Hlen Ha Hlast Hle He Hr Hrange.
  set (registers := words (codes (ljust value length NUL))).
  assert (Hcount : List.length registers = (length / 2)%nat).
  { subst registers.
    rewrite words_length, codes_length, ljust_length, Nat.max_r by exact Hle.
    reflexivity. }
  assert (Hhalf : (1 <= length / 2 <= 125)%nat).
  { destruct He as [k Hk]. rewrite Hk in *.
    replace (2 * k)%nat with (0 + k * 2)%nat by lia.
    rewrite Nat.div_add by lia. cbn. lia. }
  exists (poke r w (a, registers)). split.
  - apply write_string_poke; [exact Hl | exact Ha |].
    rewrite Nat.max_r by exact Hle. exact He.
  - unfold ModbusRTUClient.read_string. cbv zeta.
    rewrite (even_half length He), <- Hcount.
    rewrite serve_after_write by (try assumption; lia).
    subst registers. unfold ljust.
    rewrite read_string_decode_words; [reflexivity | exact Ha | exact Hlast |].
    replace (String.length value + (length - String.length value))%nat
      with length by lia.
    exact He.
Qed.

(** ** Reading the seeded fields back *)

Lemma sfp_writes_in config d regs l s wr :
  In d config -> device_id d = 1 -> registers d = Some regs ->
  sfps regs = Some l -> In s l -> sfp s ∈ [1; 2; 3; 4] ->
  In wr [(FloatField.address (tx_power s), registers_of (PyFloat.decimal 30 10));
         (FloatField.address (rx_power s), registers_of (PyFloat.decimal 1 10));
         (FloatField.address (temperature s),
          registers_of (PyFloat.decimal 250 10))] ->
  In wr (seed_writes config).
Proof.
  intros Hd Hid Hr Hl Hs Hk Hwr. unfold seed_writes.
  apply in_flat_map. exists d. split; [exact Hd |].
  unfold device_writes. rewrite Hr, Hid, Hl. cbn [Z.eqb Pos.eqb].
  apply in_flat_map. exists s. split; [exact Hs |].
  unfold sfp_writes. rewrite decide_True by exact Hk. exact Hwr.
Qed.

Lemma string_writes_in config d regs pi wr :
  In d config -> device_id d = 2 -> registers d = Some regs ->
  product_info regs = Some pi ->
  In wr (product_info_writes pi "PROD123456" "SN987654321") ->
  In wr (seed_writes config).
Proof.
  intros Hd Hid Hr Hp Hwr. unfold seed_writes.
  apply in_flat_map. exists d. split; [exact Hd |].
  unfold device_writes. rewrite Hr, Hid, Hp. exact Hwr.
Qed.

Lemma device_id_in config d : In d config -> device_id d ∈ map device_id config.
Proof. intros H. apply list_elem_of_In, in_map, H. Qed.

(** Reading a seeded float field back through the link. *)
Lemma read_float_seeded config rand self w d a x y :
  Forall device_seedable config ->
  Forall in_block (seed_writes config) ->
  pairwise_apart (seed_writes config) ->
  ModbusRTUSimulator.__init__ config (boot rand) = (Ok self, w) ->
  In d config -> device_id d = 1 ->
  In (a, registers_of x) (seed_writes config) ->
  List.length (registers_of x) = 2%nat ->
  ModbusRTUClient.read_float_decode (registers_of x) = Ok y ->
  ModbusRTUClient.read_float (serve w (ModbusRTUSimulator.context self)) 1 a
    = Ok (Some y).
Proof.
  intros Hs Hb Hp Hinit Hd Hid Hin Hlen Hdec.
  unfold ModbusRTUClient.read_float.
  pose proof (serve_seeded config rand self w 1 (a, registers_of x)
                Hs Hb Hp Hinit Hin) as H.
  cbn [fst snd] in H. rewrite Hlen in H. rewrite H.
  - rewrite Hdec. reflexivity.
  - set_solver.
  - rewrite <- Hid. apply device_id_in, Hd.
  - lia.
Qed.

(** Reading a seeded string field back through the link. *)
Lemma read_string_seeded config rand self w d (f : StringField.t) value :
  Forall device_seedable config ->
  Forall in_block (seed_writes config) ->
  pairwise_apart (seed_writes config) ->
  ModbusRTUSimulator.__init__ config (boot rand) = (Ok self, w) ->
  In d config -> device_id d = 2 ->
  In (StringField.address f,
      words (codes (ljust value (StringField.length f) NUL)))
    (seed_writes config) ->
  isascii value = true -> last_char value <> Some NUL ->
  Nat.Even (StringField.length f) ->
  (String.length value <= StringField.length f)%nat ->
  (2 <= StringField.length f <= 250)%nat ->
  ModbusRTUClient.read_string (serve w (ModbusRTUSimulator.context self)) 2
    (StringField.address f) (StringField.length f) = Ok (Some value).
Proof.
  intros Hs Hb Hp Hinit Hd Hid Hin Ha Hl He Hle Hr.
  unfold ModbusRTUClient.read_string. cbv zeta.
  pose proof (serve_seeded config rand self w 2 _ Hs Hb Hp Hinit Hin) as H.
  cbn [fst snd] in H.
  assert (Hlen : List.length
            (words (codes (ljust value (StringField.length f) NUL)))
          = ((StringField.length f + 1) / 2)%nat).
  { rewrite words_length, codes_length, ljust_length, Nat.max_r by exact Hle.
    symmetry. apply even_half, He. }
  rewrite Hlen in H. rewrite H.
  - unfold ljust. rewrite read_string_decode_words; [reflexivity | exact Ha | exact Hl |].
    replace (String.length value + (StringField.length f - String.length value))%nat
      with (StringField.length f) by lia.
    exact He.
  - set_solver.
  - rewrite <- Hid. apply device_id_in, Hd.
  - rewrite even_half by exact He. destruct He as [k Hk]. rewrite Hk in *.
    replace (2 * k)%nat with (0 + k * 2)%nat by lia.
    rewrite Nat.div_add by lia. cbn. lia.
Qed.

(** C7, as amended. At construction, before any turn of the update loop:
    under device id 1 every SFP channel with index 1 to 4 has tx, rx and
    temperature written with the binary32 encodings of 3.0, 0.1 and 25.0,
    and under device id 2 the product and serial number fields are written
    with their placeholders. When the seeded fields lie inside the block
    and apart from one another, and each string field is even in length
    and at least as long as its placeholder (at most 250 bytes), reading
    each seeded field through the link decodes to the seeded value; rx
    decodes to the binary32 value nearest to 0.1. *)
Theorem C7_seeded_fields_decode (config : Config)
    (rand : nat -> PyFloat.float) :
  Forall device_seedable config ->
  Forall in_block (seed_writes config) ->
  pairwise_apart (seed_writes config) ->
  exists self w,
    ModbusRTUSimulator.__init__ config (boot rand) = (Ok self, w) /\
    let link := serve w (ModbusRTUSimulator.context self) in
    (forall d regs l s,
       In d config -> device_id d = 1 -> registers d = Some regs ->
       sfps regs = Some l -> In s l -> sfp s ∈ [1; 2; 3; 4] ->
       ModbusRTUClient.read_float link 1 (FloatField.address (tx_power s))
         = Ok (Some (PyFloat.decimal 30 10)) /\
       ModbusRTUClient.read_float link 1 (FloatField.address (rx_power s))
         = Ok (Some (PyFloat.double_of_single
                       (PyFloat.single_of_double (PyFloat.decimal 1 10)))) /\
       ModbusRTUClient.read_float link 1 (FloatField.address (temperature s))
         = Ok (Some (PyFloat.decimal 250 10))) /\
    (forall d regs pi f,
       In d config -> device_id d = 2 -> registers d = Some regs ->
       product_info regs = Some pi ->
       (product_number pi = Some f ->
        (10 <= StringField.length f <= 250)%nat ->
        ModbusRTUClient.read_string link 2 (StringField.address f)
          (StringField.length f) = Ok (Some "PROD123456"%string)) /\
       (serial_number pi = Some f ->
        (11 <= StringField.length f <= 250)%nat ->
        ModbusRTUClient.read_string link 2 (StringField.address f)
          (StringField.length f) = Ok (Some "SN987654321"%string))).
Proof.
  intros Hs Hb Hp.
  eexists. eexists. split; [apply init_effect, Hs |].
  pose proof (init_effect config rand Hs) as Hinit.
  cbv zeta. split.
  - intros d regs l s Hd Hid Hr Hl Hin Hk.
    pose proof (sfp_writes_in config d regs l s) as Hw.
    repeat split.
    + eapply (read_float_seeded config rand _ _ d _ (PyFloat.decimal 30 10));
        try eassumption; try reflexivity.
      eapply Hw; try eassumption. cbn [In]. auto.
    + eapply (read_float_seeded config rand _ _ d _ (PyFloat.decimal 1 10));
        try eassumption; try reflexivity.
      eapply Hw; try eassumption. cbn [In]. auto.
    + eapply (read_float_seeded config rand _ _ d _ (PyFloat.decimal 250 10));
        try eassumption; try reflexivity.
      eapply Hw; try eassumption. cbn [In]. auto.
  - intros d regs pi f Hd Hid Hr Hpi.
    assert (Hseed : device_seedable d).
    { rewrite Forall_forall in Hs. apply Hs, list_elem_of_In, Hd. }
    destruct (Hseed regs pi Hid Hr Hpi) as [Hwp Hws].
    split; intros Hf Hlen.
    + rewrite Hf in Hwp. cbn [writable] in Hwp.
      change (String.length "PROD123456") with 10%nat in Hwp.
      rewrite Nat.max_r in Hwp by lia.
      eapply (read_string_seeded config rand _ _ d f "PROD123456");
        try eassumption; try reflexivity; try discriminate;
        try (cbn [String.length]; lia).
      eapply string_writes_in; try eassumption.
      unfold product_info_writes. rewrite Hf. cbn [string_writes].
      apply in_or_app. left. cbn [In]. auto.
    + rewrite Hf in Hws. cbn [writable] in Hws.
      change (String.length "SN987654321") with 11%nat in Hws.
      rewrite Nat.max_r in Hws by lia.
      eapply (read_string_seeded config rand _ _ d f "SN987654321");
        try eassumption; try reflexivity; try discriminate;
        try (cbn [String.length]; lia).
      eapply string_writes_in; try eassumption.
      unfold product_info_writes. rewrite Hf. cbn [string_writes].
      apply in_or_app. right. cbn [In]. auto.
Qed.

Lemma example_seedable : Forall device_seedable Example.config.
Proof.
  constructor; [| constructor; [| constructor]].
  - intros regs pi Hid. discriminate Hid.
  - intros regs pi _ Hr Hp. cbn in Hr. injection Hr as <-.
    cbn in Hp. injection Hp as <-. cbn.
    split; exists 6%nat; reflexivity.
Qed.

Lemma example_seed_writes :
  seed_writes Example.config =
    [(0%nat, [16448; 0]); (2%nat, [15820; 52429]); (4%nat, [16840; 0]);
     (100%nat, [20562; 20292; 12594; 13108; 13622; 0]);
     (110%nat, [21326; 14648; 14134; 13620; 13106; 12544])].
Proof. vm_compute. reflexivity. Qed.

Lemma example_in_block : Forall in_block (seed_writes Example.config).
Proof.
  rewrite example_seed_writes. rewrite !Forall_cons, Forall_nil.
  unfold in_block, block_size. cbn [fst snd List.length]. lia.
Qed.

Lemma example_apart : pairwise_apart (seed_writes Example.config).
Proof.
  rewrite example_seed_writes. cbn [pairwise_apart].
  rewrite !Forall_cons, !Forall_nil.
  unfold apart. cbn [fst snd List.length]. lia.
Qed.

Lemma C7_seeded_fields_decode_witness :
  exists self w,
    ModbusRTUSimulator.__init__ Example.config (boot Example.no_draw)
      = (Ok self, w) /\
    let link := serve w (ModbusRTUSimulator.context self) in
    ModbusRTUClient.read_float link 1 0 = Ok (Some (PyFloat.decimal 30 10)) /\
    ModbusRTUClient.read_string link 2 100 12
      = Ok (Some "PROD123456"%string) /\
    ModbusRTUClient.read_string link 2 110 12
      = Ok (Some "SN987654321"%string).
Proof.
  destruct (C7_seeded_fields_decode Example.config Example.no_draw
              example_seedable example_in_block example_apart)
    as (self & w & Hinit & Hfloat & Hstring).
  exists self, w. split; [exact Hinit |]. cbv zeta.
  pose (s := {| sfp := 1; rx_power := Example.float_at 2;
                tx_power := Example.float_at 0;
                temperature := Example.float_at 4 |}).
  destruct (Hfloat (Example.sfp_device 1 1)
              {| sfps := Some [s]; product_info := None |} [s] s)
    as (Htx & _ & _);
    [left; reflexivity | reflexivity | reflexivity | reflexivity
    | left; reflexivity | set_solver |].
  pose (pi := {| product_number := Some (Example.string_at 100 12);
                 serial_number := Some (Example.string_at 110 12) |}).
  destruct (Hstring (Example.product_device 2 12)
              {| sfps := None; product_info := Some pi |} pi
              (Example.string_at 100 12))
    as (Hpn & _);
    [right; left; reflexivity | reflexivity | reflexivity | reflexivity |].
  destruct (Hstring (Example.product_device 2 12)
              {| sfps := None; product_info := Some pi |} pi
              (Example.string_at 110 12))
    as (_ & Hsn);
    [right; left; reflexivity | reflexivity | reflexivity | reflexivity |].
  split; [exact Htx | split].
  - apply Hpn; [reflexivity | cbn; lia].
  - apply Hsn; [reflexivity | cbn; lia].
Defined.

(** C7 as stated fails: the fields of an SFP channel with index 5 are
    configured under device id 1 but not written, and read back as 0.0;
    float channels configured under device id 3 are not served at all;
    a product number field of 8 bytes reads back as the first 8 bytes of
    the 10-byte placeholder. *)
Lemma C7_counterexample :
  match link_after Example.unseeded Example.no_draw 0 with
  | Some link =>
      ModbusRTUClient.read_float link 1 0 = Ok (Some (S754_zero false)) /\
      ModbusRTUClient.read_float link 3 0 = Ok None
  | None => False
  end /\
  match link_after Example.short_product_number Example.no_draw 0 with
  | Some link =>
      ModbusRTUClient.read_string link 2 100 8 = Ok (Some "PROD1234"%string)
  | None => False
  end.
Proof. vm_compute. repeat split; reflexivity. Qed.

(** ** Device ids and slave contexts *)

(** Every id that construction serves names the one slave context. *)
Lemma served_ids_share_context (config : Config)
    (rand : nat -> PyFloat.float) self w (id1 id2 : Z) (r1 r2 : nat) :
  Forall device_seedable config ->
  ModbusRTUSimulator.__init__ config (boot rand) = (Ok self, w) ->
  ModbusServerContext.getitem (ModbusRTUSimulator.context self) id1 = Ok r1 ->
  ModbusServerContext.getitem (ModbusRTUSimulator.context self) id2 = Ok r2 ->
  r1 = r2.
Proof.
  intros Hs Hinit. rewrite (init_effect config rand Hs) in Hinit.
  unfold Ok in Hinit. inversion Hinit as [[Hself Hw]]. clear Hinit.
  unfold ModbusServerContext.getitem.
  cbn [ModbusRTUSimulator.context ModbusServerContext.single
       ModbusServerContext.slaves].
  unfold served.
  assert (H : forall id r,
            match fold_left
                    (fun contexts d =>
                       if decide (device_id d ∈ [1; 2])
                       then <[device_id d := 0%nat]> contexts else contexts)
                    config (∅ : gmap Z nat) !! id with
            | Some r' => Ok r'
            | None => Raise NoSuchSlaveException
            end = Ok r -> r = 0%nat).
  { intros id r.
    destruct (fold_left _ config ∅ !! id) as [r' |] eqn:E;
      [| discriminate].
    intros Hr. unfold Ok in Hr. injection Hr as <-.
    eapply served_alias; [| exact E].
    intros id0 r0. rewrite lookup_empty. discriminate. }
  intros H1 H2. rewrite (H id1 r1 H1), (H id2 r2 H2). reflexivity.
Qed.

(** C8, as amended. Neither constructor validates device ids. For every
    configuration whose string fields can be written, whether or not two
    devices declare the same id, construction of the simulator succeeds:
    it keeps the configuration as loaded and binds each id among 1 and 2
    that occurs in it, once or more, to the slave context; the client's
    constructor keeps the configuration as loaded. For every
    configuration, construction either raises and returns no simulator,
    or returns one that keeps the whole configuration. *)
Theorem C8_construction_has_no_id_check (config : Config)
    (rand : nat -> PyFloat.float) (link : Transport) :
  Forall device_seedable config ->
  (exists self w,
     ModbusRTUSimulator.__init__ config (boot rand) = (Ok self, w) /\
     ModbusRTUSimulator.config self = config /\
     (forall id,
        ModbusServerContext.getitem (ModbusRTUSimulator.context self) id =
          if decide (id ∈ [1; 2] /\ id ∈ map device_id config)
          then Ok 0%nat else Raise NoSuchSlaveException) /\
     ModbusRTUClient.config (ModbusRTUClient.__init__ config link)
       = config) /\
  (forall (any : Config) (w : World),
     (exists e w', ModbusRTUSimulator.__init__ any w = (Raise e, w')) \/
     (exists self w',
        ModbusRTUSimulator.__init__ any w = (Ok self, w') /\
        ModbusRTUSimulator.config self = any)).
Proof.
  intros Hs. split.
  - eexists. eexists. split; [apply init_effect, Hs |].
    split; [reflexivity |]. split; [| reflexivity].
    intros id. unfold ModbusServerContext.getitem.
    cbn [ModbusRTUSimulator.context ModbusServerContext.single
         ModbusServerContext.slaves].
    unfold served. rewrite served_lookup, lookup_empty.
    case_decide; reflexivity.
  - intros any w. unfold ModbusRTUSimulator.__init__, bind.
    destruct (ModbusRTUSimulator._setup_server_context any w)
      as [[e | context] w'].
    + left. exists e, w'. reflexivity.
    + right. eexists. exists w'. split; reflexivity.
Qed.

Lemma duplicate_ids_seedable : Forall device_seedable Example.duplicate_ids.
Proof.
  constructor; [| constructor; [| constructor]];
    intros regs pi Hid; discriminate Hid.
Qed.

Lemma C8_construction_has_no_id_check_witness :
  exists self w,
    ModbusRTUSimulator.__init__ Example.duplicate_ids (boot Example.no_draw)
      = (Ok self, w) /\
    ModbusRTUSimulator.config self = Example.duplicate_ids /\
    ModbusServerContext.getitem (ModbusRTUSimulator.context self) 1
      = Ok 0%nat.
Proof.
  destruct (C8_construction_has_no_id_check Example.duplicate_ids
              Example.no_draw (fun _ _ _ => ErrorResponse)
              duplicate_ids_seedable)
    as ((self & w & Hinit & Hconfig & Hget & _) & _).
  exists self, w. split; [exact Hinit |]. split; [exact Hconfig |].
  rewrite Hget. reflexivity.
Defined.

(** C8 as stated fails: with two devices that both declare id 1,
    construction returns a simulator. *)
Lemma C8_counterexample :
  map device_id Example.duplicate_ids = [1; 1] /\
  match ModbusRTUSimulator.__init__ Example.duplicate_ids
          (boot Example.no_draw) with
  | (inr self, _) =>
      ModbusRTUSimulator.config self = Example.duplicate_ids /\
      ModbusServerContext.getitem (ModbusRTUSimulator.context self) 1
        = Ok 0%nat
  | (inl _, _) => False
  end.
Proof. split; [reflexivity |]. vm_compute. split; reflexivity. Qed.


(** C9 as stated fails. In the example configuration device 1 has its
    tx power at address 0 and device 2 has nothing there. Right after
    construction slave 2 answers at address 0 with the registers of
    device 1's 3.0, and after one turn of the update loop, whose only
    write at address 0 is device 1's drifted tx (2.975 for a draw of
    0.25), slave 2 answers with those registers: the write for device 1
    has changed the registers of device 2. *)
Lemma C9_counterexample :
  match link_after Example.config Example.quarter 0,
        link_after Example.config Example.quarter 1 with
  | Some before, Some after =>
      before 0%nat 2%nat 1 = RegistersResponse [16448; 0] /\
      before 0%nat 2%nat 2 = RegistersResponse [16448; 0] /\
      after 0%nat 2%nat 1 = RegistersResponse [16446; 26214] /\
      after 0%nat 2%nat 2 = RegistersResponse [16446; 26214]
  | _, _ => False
  end.
Proof. vm_compute. repeat split; reflexivity. Qed.

(** ** A polling cycle *)

(** C5. When the configuration starts with a device that has an SFP
    channel, and the read of one of that channel's three float fields
    fails ([read_float] returns [None]), [read_all_values] raises
    [TypeError] while formatting the values: after the two header lines
    nothing more is printed, neither the other fields of the device nor
    any other device. *)
Theorem C5_unreadable_float_aborts_cycle (self : ModbusRTUClient.t)
    (d : Device) (rest : Config) (desc : string) (regs : Registers)
    (s : Sfp) (l : list Sfp) (rx tx temp : option PyFloat.float)
    (out : list printed) :
  ModbusRTUClient.config self = d :: rest ->
  description d = Some desc ->
  registers d = Some regs ->
  sfps regs = Some (s :: l) ->
  ModbusRTUClient.read_float (ModbusRTUClient.client self) (device_id d)
    (FloatField.address (rx_power s)) = Ok rx ->
  ModbusRTUClient.read_float (ModbusRTUClient.client self) (device_id d)
    (FloatField.address (tx_power s)) = Ok tx ->
  ModbusRTUClient.read_float (ModbusRTUClient.client self) (device_id d)
    (FloatField.address (temperature s)) = Ok temp ->
  rx = None \/ tx = None \/ temp = None ->
  ModbusRTUClient.read_all_values self out =
    (Raise TypeError,
     out ++ [Reading_from_Device (device_id d) desc; SFP_header (sfp s)]).
Proof.
  intros Hc Hdesc Hregs Hsfps Hrx Htx Htemp Hnone.
  unfold ModbusRTUClient.read_all_values. rewrite Hc. cbn [for_each].
  cbv zeta. rewrite Hdesc, Hregs, Hsfps. cbn [for_each].
  rewrite Hrx, Htx, Htemp.
  unfold bind, lift, ModbusRTUClient.print, Ok, Raise.
  cbv beta iota. rewrite <- app_assoc. cbn [app].
  destruct Hnone as [-> | [-> | ->]].
  - reflexivity.
  - destruct rx; reflexivity.
  - destruct rx; destruct tx; reflexivity.
Qed.

Lemma C5_unreadable_float_aborts_cycle_witness :
  ModbusRTUClient.read_all_values
    (ModbusRTUClient.__init__ Example.config (Example.failing_at 2)) [] =
  (Raise TypeError, [Reading_from_Device 1 "SFP module"; SFP_header 1]).
Proof.
  apply (C5_unreadable_float_aborts_cycle
           (ModbusRTUClient.__init__ Example.config (Example.failing_at 2))
           (Example.sfp_device 1 1) [Example.product_device 2 12]
           "SFP module"
           {| sfps := Some [ {| sfp := 1; rx_power := Example.float_at 2;
                                tx_power := Example.float_at 0;
                                temperature := Example.float_at 4 |} ];
              product_info := None |}
           {| sfp := 1; rx_power := Example.float_at 2;
              tx_power := Example.float_at 0;
              temperature := Example.float_at 4 |}
           [] None
           (Some (PyFloat.decimal 30 10)) (Some (PyFloat.decimal 30 10)) []);
    try reflexivity.
  left. reflexivity.
Defined.

(** The string path survives the same failure: [None] is printed and the
    cycle goes on. *)
Lemma unreadable_string_is_printed_as_None :
  ModbusRTUClient.read_all_values
    (ModbusRTUClient.__init__ [Example.product_device 2 12]
       (Example.failing_at 100)) [] =
  (Ok tt,
   [Reading_from_Device 2 "Product information"; Product_Info_header;
    Product_Number None; Serial_Number (Some "@@"%string)]).
Proof. vm_compute. reflexivity. Qed.

(** ** The update loop *)

Section UpdateLoop.

Import ModbusRTUSimulator.

(** Turn [n] of the loop, counted from 0, runs the body with
    [counter = c + n] when the loop started with [counter = c], and
    sleeps one second after it. *)
Lemma update_values_loop_last self n c w :
  update_values_loop self (S n) c w =
    bind (update_values_loop self n c)
      (fun _ => bind (update_values_body self (c + Z.of_nat n))
                  (fun _ => time_sleep 1)) w.
Proof.
  revert c w. induction n as [| n IH]; intros c w.
  - cbn [update_values_loop]. cbv zeta. unfold bind, ret.
    replace (c + Z.of_nat 0) with c by lia.
    destruct (update_values_body self c w) as [[e | []] w']; reflexivity.
  - change (update_values_loop self (S (S n)) c w)
      with (bind (update_values_body self c)
              (fun _ => bind (time_sleep 1)
                 (fun _ => update_values_loop self (S n) (c + 1))) w).
    change (update_values_loop self (S n) c)
      with (bind (update_values_body self c)
              (fun _ => bind (time_sleep 1)
                 (fun _ => update_values_loop self n (c + 1)))).
    unfold bind at 1 3 4.
    destruct (update_values_body self c w) as [[e | []] w'];
      [reflexivity |].
    unfold bind at 1 3. cbn [time_sleep]. cbv beta iota.
    rewrite IH. unfold bind.
    replace (c + 1 + Z.of_nat n) with (c + Z.of_nat (S n)) by lia.
    reflexivity.
Qed.

Lemma update_product_info_effect r pi pn sn w :
  live r w ->
  isascii pn = true -> isascii sn = true ->
  writable (product_number pi) pn ->
  writable (serial_number pi) sn ->
  update_product_info r pi pn sn w =
    log_info Completed_Product_Info_update
      (fold_left (poke r) (product_info_writes pi pn sn) w).
Proof.
  intros Hl Hap Has Hp Hs. unfold update_product_info, product_info_writes.
  rewrite fold_left_app.
  erewrite bind_ok
    by (apply (string_write_poke r (product_number pi) pn);
        [exact Hl | exact Hap | exact Hp]).
  erewrite bind_ok
    by (apply (string_write_poke r (serial_number pi) sn);
        [apply live_pokes, Hl | exact Has | exact Hs]).
  reflexivity.
Qed.

(** The step of the body for a device with id 2 and product info. *)
Lemma update_values_device_product_info self counter d regs pi r w :
  device_id d = 2 -> registers d = Some regs ->
  product_info regs = Some pi ->
  ModbusServerContext.getitem (context self) 2 = Ok r ->
  update_values_device self counter d w =
    if counter mod 10 =? 0
    then update_product_info r pi "PROD-12" "SN-Q10" w
    else (Ok tt, w).
Proof.
  intros Hid Hr Hp Hg. unfold update_values_device. cbv zeta.
  rewrite Hid, Hr. rewrite decide_True by set_solver.
  erewrite bind_ok by (unfold lift; rewrite Hg; reflexivity).
  cbn [Z.eqb Pos.eqb andb].
  destruct (counter mod 10 =? 0); [rewrite Hp |]; reflexivity.
Qed.

Lemma mod_10_multiple counter :
  counter mod 10 = 0 <-> exists k, counter = 10 * k.
Proof.
  split.
  - intros H. exists (counter / 10). Z.div_mod_to_equations. lia.
  - intros [k ->]. Z.div_mod_to_equations. lia.
Qed.

End UpdateLoop.

(** ** The update loop runs to the end of every turn *)

Section LoopRuns.

Import ModbusRTUSimulator.

Lemma poke_random_outputs r w write :
  random_outputs (poke r w write) = random_outputs w.
Proof. unfold poke. destruct (heap w !! r); reflexivity. Qed.

Lemma runs_poke r w write : runs r w -> runs r (poke r w write).
Proof.
  intros [Hl Hp]. split; [apply live_poke, Hl |].
  intros i. rewrite poke_random_outputs. apply Hp.
Qed.

Lemma packs_registers x :
  packs x = true -> exists registers, write_float_registers x = Ok registers.
Proof.
  unfold packs. destruct (write_float_registers x) as [e | registers];
    [discriminate | eauto].
Qed.

Lemma write_float_runs r a x w :
  runs r w -> packs x = true ->
  exists w', write_float r a x w = (Ok tt, w') /\ runs r w' /\
             log w' = log w.
Proof.
  intros Hr Hx. destruct (packs_registers x Hx) as [registers Hregs].
  exists (poke r w (a, registers)). split; [| split].
  - apply write_float_poke; [apply Hr | exact Hregs].
  - apply runs_poke, Hr.
  - apply poke_log.
Qed.

Lemma random_uniform_draw a b w :
  random_uniform a b w =
    (Ok (uniform a b (random_outputs w (draws w))),
     {| heap := heap w; random_outputs := random_outputs w;
        draws := S (draws w); log := log w |}).
Proof. reflexivity. Qed.

Lemma runs_draw r w :
  runs r w ->
  runs r {| heap := heap w; random_outputs := random_outputs w;
            draws := S (draws w); log := log w |}.
Proof.
  intros [(c & Hc & Hz & Ha) Hp]. split; [| exact Hp].
  exists c. split; [exact Hc | split; [exact Hz | exact Ha]].
Qed.

Lemma runs_sleep r seconds w :
  runs r w -> runs r (snd (time_sleep seconds w)).
Proof.
  intros [(c & Hc & Hz & Ha) Hp]. split; [| exact Hp].
  exists c. split; [exact Hc | split; [exact Hz | exact Ha]].
Qed.

(** The three draws and the three writes for one SFP channel. *)
Lemma update_sfp_step_runs r (s : Sfp) w :
  runs r w ->
  exists w',
    match update_sfp_base_values !! sfp s with
    | Some base =>
        (do! d_tx := random_uniform (SFopp (PyFloat.decimal 5 100))
                       (PyFloat.decimal 5 100) in
         let tx_power_ := PyFloat.add (tx base) d_tx in
         do! d_rx := random_uniform (SFopp (PyFloat.decimal 3 100))
                       (PyFloat.decimal 3 100) in
         let rx_power_ := PyFloat.add (rx base) d_rx in
         do! d_t := random_uniform (PyFloat.of_int (-1))
                      (PyFloat.of_int 1) in
         let temperature_ := PyFloat.add (PyFloat.decimal 250 10) d_t in
         run! write_float r (FloatField.address (tx_power s)) tx_power_ in
         run! write_float r (FloatField.address (rx_power s)) rx_power_ in
         write_float r (FloatField.address (temperature s)) temperature_)%M
    | None => ret tt
    end w = (Ok tt, w') /\ runs r w' /\ log w' = log w.
Proof.
  intros Hr. unfold update_sfp_base_values. cbv zeta.
  rewrite base_values_lookup.
  destruct (decide (sfp s ∈ [1; 2; 3; 4])) as [Hin | Hout];
    [| exists w; split; [reflexivity | split; [exact Hr | reflexivity]]].
  cbn [tx rx].
  set (w1 := {| heap := heap w; random_outputs := random_outputs w;
                draws := S (draws w); log := log w |}).
  set (w2 := {| heap := heap w1; random_outputs := random_outputs w1;
                draws := S (draws w1); log := log w1 |}).
  set (w3 := {| heap := heap w2; random_outputs := random_outputs w2;
                draws := S (draws w2); log := log w2 |}).
  assert (Hr3 : runs r w3) by (do 3 apply runs_draw; exact Hr).
  destruct Hr as [_ Hp].
  pose proof (Hp (draws w)) as H1.
  pose proof (Hp (draws w1)) as H2.
  pose proof (Hp (draws w2)) as H3.
  unfold packable in H1, H2, H3.
  apply andb_prop in H1 as [H1 _]. apply andb_prop in H1 as [H1 _].
  apply andb_prop in H2 as [H2 _]. apply andb_prop in H2 as [_ H2].
  apply andb_prop in H3 as [_ H3].
  destruct (write_float_runs r (FloatField.address (tx_power s)) _ w3
              Hr3 H1) as (w4 & E4 & Hr4 & L4).
  destruct (write_float_runs r (FloatField.address (rx_power s)) _ w4
              Hr4 H2) as (w5 & E5 & Hr5 & L5).
  destruct (write_float_runs r (FloatField.address (temperature s)) _ w5
              Hr5 H3) as (w6 & E6 & Hr6 & L6).
  exists w6. split; [| split; [exact Hr6 |]].
  - erewrite bind_ok by apply random_uniform_draw.
    erewrite bind_ok by apply random_uniform_draw.
    erewrite bind_ok by apply random_uniform_draw.
    erewrite bind_ok by exact E4. erewrite bind_ok by exact E5. exact E6.
  - rewrite L6, L5, L4. reflexivity.
Qed.

Lemma update_sfp_values_runs r sfps w :
  runs r w ->
  exists w',
    update_sfp_values r sfps w = (Ok tt, w') /\ runs r w' /\
    log w' = log w ++ [Completed_SFP_update].
Proof.
  intros Hr. unfold update_sfp_values.
  assert (Hloop : exists w1,
            for_each sfps (fun sfp_ =>
              match update_sfp_base_values !! sfp sfp_ with
              | Some base =>
                  (do! d_tx := random_uniform (SFopp (PyFloat.decimal 5 100))
                                 (PyFloat.decimal 5 100) in
                   let tx_power_ := PyFloat.add (tx base) d_tx in
                   do! d_rx := random_uniform (SFopp (PyFloat.decimal 3 100))
                                 (PyFloat.decimal 3 100) in
                   let rx_power_ := PyFloat.add (rx base) d_rx in
                   do! d_t := random_uniform (PyFloat.of_int (-1))
                                (PyFloat.of_int 1) in
                   let temperature_ :=
                     PyFloat.add (PyFloat.decimal 250 10) d_t in
                   run! write_float r (FloatField.address (tx_power sfp_))
                          tx_power_ in
                   run! write_float r (FloatField.address (rx_power sfp_))
                          rx_power_ in
                   write_float r (FloatField.address (temperature sfp_))
                     temperature_)%M
              | None => ret tt
              end) w = (Ok tt, w1) /\ runs r w1 /\ log w1 = log w).
  { revert w Hr. induction sfps as [| s sfps IH]; intros w Hr.
    - exists w. split; [reflexivity | split; [exact Hr | reflexivity]].
    - destruct (update_sfp_step_runs r s w Hr) as (w1 & E1 & Hr1 & L1).
      destruct (IH w1 Hr1) as (w2 & E2 & Hr2 & L2).
      exists w2. split; [| split; [exact Hr2 | congruence]].
      cbn [for_each]. erewrite bind_ok by exact E1. exact E2. }
  destruct Hloop as (w1 & E1 & [Hl1 Hp1] & L1).
  eexists. split; [| split].
  - erewrite bind_ok by exact E1. reflexivity.
  - split; [| exact Hp1].
    destruct Hl1 as (c & Hc & Hz & Ha). exists c. auto.
  - cbn [log]. rewrite L1. reflexivity.
Qed.

Lemma runs_pokes r ws w : runs r w -> runs r (fold_left (poke r) ws w).
Proof.
  revert w. induction ws as [| wr ws IH]; intros w H; cbn [fold_left].
  - exact H.
  - apply IH, runs_poke, H.
Qed.

Lemma log_pokes r ws w : log (fold_left (poke r) ws w) = log w.
Proof.
  revert w. induction ws as [| wr ws IH]; intros w; cbn [fold_left].
  - reflexivity.
  - rewrite IH. apply poke_log.
Qed.

(** The step of the body for one device. *)
Lemma update_values_device_runs self counter d r w :
  runs r w ->
  device_refreshable d ->
  (device_id d ∈ [1; 2] ->
   ModbusServerContext.getitem (context self) (device_id d) = Ok r) ->
  exists w',
    update_values_device self counter d w = (Ok tt, w') /\ runs r w' /\
    log w' = log w ++ device_log counter d.
Proof.
  intros Hr Hd Hg. unfold update_values_device, device_log. cbv zeta.
  destruct (decide (device_id d ∈ [1; 2])) as [Hin | Hout];
    [| exists w; rewrite app_nil_r; auto].
  erewrite bind_ok by (unfold lift; rewrite (Hg Hin); reflexivity).
  destruct (registers d) as [regs |] eqn:Eregs;
    [| exists w; rewrite app_nil_r; auto].
  destruct (if device_id d =? 1 then sfps regs else None) as [l |].
  { apply update_sfp_values_runs, Hr. }
  destruct (device_id d =? 2) eqn:E2; cbn [andb];
    [| exists w; rewrite app_nil_r; auto].
  destruct (counter mod 10 =? 0);
    [| exists w; rewrite app_nil_r; auto].
  destruct (product_info regs) as [pi |] eqn:Epi;
    [| exists w; rewrite app_nil_r; auto].
  apply Z.eqb_eq in E2. destruct (Hd regs pi E2 Eregs Epi) as [Hp Hs].
  rewrite update_product_info_effect;
    [| apply Hr | reflexivity | reflexivity | exact Hp | exact Hs].
  eexists. split; [reflexivity |]. split.
  - pose proof (runs_pokes r (product_info_writes pi "PROD-12" "SN-Q10")
                  w Hr) as [(c & Hc & Hz & Ha) Hdraws].
    split; [exists c; auto | exact Hdraws].
  - cbn [log]. rewrite log_pokes. reflexivity.
Qed.

Lemma update_values_devices_runs self counter (l : list Device) r w :
  runs r w ->
  Forall device_refreshable l ->
  (forall d, In d l -> device_id d ∈ [1; 2] ->
     ModbusServerContext.getitem (context self) (device_id d) = Ok r) ->
  exists w',
    for_each l (update_values_device self counter) w = (Ok tt, w') /\
    runs r w' /\ log w' = log w ++ turn_log l counter.
Proof.
  intros Hr Hl. revert w Hr. induction Hl as [| d l Hd Hl IH];
    intros w Hr Hg.
  - exists w. unfold turn_log. cbn [flat_map]. rewrite app_nil_r. auto.
  - destruct (update_values_device_runs self counter d r w Hr Hd
                (Hg d (or_introl eq_refl))) as (w1 & E1 & Hr1 & L1).
    destruct (IH w1 Hr1 (fun d' H => Hg d' (or_intror H)))
      as (w2 & E2 & Hr2 & L2).
    exists w2. split; [| split; [exact Hr2 |]].
    + cbn [for_each]. erewrite bind_ok by exact E1. exact E2.
    + rewrite L2, L1. unfold turn_log. cbn [flat_map].
      rewrite app_assoc. reflexivity.
Qed.

Lemma flat_map_map {A B C} (f : B -> list C) (g : A -> B) (l : list A) :
  flat_map f (map g l) = flat_map (fun x => f (g x)) l.
Proof.
  induction l as [| x l IH]; cbn [map flat_map]; [| rewrite IH];
    reflexivity.
Qed.

(** [n] turns of the loop from a given counter: they all complete, and
    leave behind what their counters say, each followed by its sleep. *)
Lemma update_values_loop_runs self n counter r w :
  runs r w ->
  Forall device_refreshable (config self) ->
  (forall d, In d (config self) -> device_id d ∈ [1; 2] ->
     ModbusServerContext.getitem (context self) (device_id d) = Ok r) ->
  exists w',
    update_values_loop self n counter w = (Ok tt, w') /\ runs r w' /\
    log w' =
      log w ++
      flat_map (fun k => turn_log (config self) (counter + Z.of_nat k)
                         ++ [Slept 1])
        (seq 0 n).
Proof.
  intros Hr Hl Hg. revert counter w Hr.
  induction n as [| n IH]; intros counter w Hr.
  - exists w. cbn [seq flat_map]. rewrite app_nil_r. auto.
  - destruct (update_values_devices_runs self counter (config self) r w
                Hr Hl Hg) as (w1 & E1 & Hr1 & L1).
    destruct (IH (counter + 1) _ (runs_sleep r 1 w1 Hr1))
      as (w2 & E2 & Hr2 & L2).
    exists w2. split; [| split; [exact Hr2 |]].
    + cbn [update_values_loop]. cbv zeta. unfold update_values_body.
      erewrite bind_ok by exact E1.
      erewrite bind_ok by reflexivity. exact E2.
    + rewrite L2. cbn [time_sleep snd log]. rewrite L1. cbn [seq flat_map].
      replace (counter + Z.of_nat 0) with counter by lia.
      rewrite <- !app_assoc. do 3 f_equal.
      rewrite <- seq_shift, flat_map_map.
      apply flat_map_ext. intros k. do 2 f_equal. lia.
Qed.

(** The product info update is in the log of a turn exactly when 10
    divides the counter and a device asks for it. *)
Lemma refresh_in_turn_log config counter :
  In Completed_Product_Info_update (turn_log config counter) <->
  counter mod 10 = 0 /\
  exists d regs pi,
    In d config /\ device_id d = 2 /\ registers d = Some regs /\
    product_info regs = Some pi.
Proof.
  unfold turn_log. rewrite in_flat_map. split.
  - intros (d & Hd & Hin). unfold device_log in Hin.
    destruct (decide (device_id d ∈ [1; 2])); [| destruct Hin].
    destruct (registers d) as [regs |] eqn:Er; [| destruct Hin].
    destruct (if device_id d =? 1 then sfps regs else None);
      [destruct Hin as [H | []]; discriminate H |].
    destruct (device_id d =? 2) eqn:E2; cbn [andb] in Hin;
      [| destruct Hin].
    destruct (counter mod 10 =? 0) eqn:E10; [| destruct Hin].
    destruct (product_info regs) as [pi |] eqn:Ep; [| destruct Hin].
    apply Z.eqb_eq in E2, E10. split; [exact E10 |].
    exists d, regs, pi. auto.
  - intros (H10 & d & regs & pi & Hd & Hid & Hr & Hp).
    exists d. split; [exact Hd |]. unfold device_log.
    rewrite Hid, Hr. rewrite decide_True by set_solver.
    cbn [Z.eqb Pos.eqb andb]. rewrite H10, Hp. cbn [Z.eqb]. left. reflexivity.
Qed.

End LoopRuns.

(** C6. Both tables are named [sfp_base_values]; the one of
    [init_sfp_data] has rx 0.1, the one of [update_sfp_values] has rx 0.07.
    After construction and one turn of the update loop in which
    [random.random()] returns 0.25, the rx power read back (about 0.055) is
    below 0.1 - 0.03, outside the seeded baseline plus or minus 0.03. *)
Theorem C6_rx_drifts_around_another_baseline :
  ModbusRTUSimulator.rx <$> ModbusRTUSimulator.init_sfp_base_values !! 1
    = Some (PyFloat.decimal 1 10) /\
  ModbusRTUSimulator.rx <$> ModbusRTUSimulator.update_sfp_base_values !! 1
    = Some (PyFloat.decimal 7 100) /\
  match link_after Example.config Example.quarter 1 with
  | Some link =>
      match ModbusRTUClient.read_float link 1 2 with
      | inr (Some rx) =>
          rx = S754_finite false 7926335301222400 (-57) /\
          PyFloat.ltb rx
            (PyFloat.sub (PyFloat.decimal 1 10) (PyFloat.decimal 3 100))
          = true
      | _ => False
      end
  | None => False
  end.
Proof. vm_compute. repeat split; reflexivity. Qed.

(** The first [n] turns of [update_values], for draws in [[0, 1)]: every
    turn completes, and turn [k] logs what its counter [k] says. *)
Lemma update_values_runs self (n r : nat) w :
  live r w ->
  (forall i, unit_draw (random_outputs w i) = true) ->
  Forall device_refreshable (ModbusRTUSimulator.config self) ->
  (forall d, In d (ModbusRTUSimulator.config self) ->
     device_id d ∈ [1; 2] ->
     ModbusServerContext.getitem (ModbusRTUSimulator.context self)
       (device_id d) = Ok r) ->
  exists w',
    ModbusRTUSimulator.update_values self n w = (Ok tt, w') /\
    log w' =
      log w ++
      flat_map (fun k => turn_log (ModbusRTUSimulator.config self)
                           (Z.of_nat k) ++ [Slept 1])
        (seq 0 n).
Proof.
  intros Hl Hu Hd Hg.
  destruct (update_values_loop_runs self n 0 r w) as (w' & E & _ & L);
    try assumption.
  - split; [exact Hl |]. intros i. apply unit_draw_packable, Hu.
  - exists w'. split; [exact E | exact L].
Qed.

Lemma example_strings_before_and_after_first_turn :
  match link_after Example.config Example.quarter 0,
        link_after Example.config Example.quarter 1 with
  | Some before, Some after =>
      ModbusRTUClient.read_string before 2 100 12
        = Ok (Some "PROD123456"%string) /\
      ModbusRTUClient.read_string before 2 110 12
        = Ok (Some "SN987654321"%string) /\
      ModbusRTUClient.read_string after 2 100 12
        = Ok (Some "PROD-12"%string) /\
      ModbusRTUClient.read_string after 2 110 12
        = Ok (Some "SN-Q10"%string)
  | _, _ => False
  end.
Proof. vm_compute. repeat split; reflexivity. Qed.

(** * More of the register codec *)

(** ** Strings: every outcome of the encoder and of the decoder *)

Section StringOutcomes.

Lemma encode_ascii_bad s :
  isascii s = false -> encode_ascii s = Raise UnicodeEncodeError.
Proof.
  induction s as [| c s IH]; cbn [isascii encode_ascii]; intros H.
  - discriminate H.
  - destruct (code c <? 128); [| reflexivity].
    cbn [andb] in H. rewrite (IH H). reflexivity.
Qed.

Lemma rmap_to_bytes registers :
  Forall register16 registers ->
  rmap to_bytes_2_big registers =
    Ok (map (fun r => [r / 256; r mod 256]) registers).
Proof.
  induction 1 as [| r l Hr Hl IH]; [reflexivity |].
  cbn [rmap map]. unfold to_bytes_2_big at 1. unfold register16 in Hr.
  assert (H1 : (0 <=? r) = true) by (apply Z.leb_le; lia).
  assert (H2 : (r <=? 65535) = true) by (apply Z.leb_le; lia).
  rewrite H1, H2, IH. reflexivity.
Qed.

Lemma rmap_to_bytes_inv registers l :
  rmap to_bytes_2_big registers = Ok l -> Forall register16 registers.
Proof.
  revert l. induction registers as [| r rs IH]; intros l H; [constructor |].
  cbn [rmap] in H. unfold to_bytes_2_big at 1 in H.
  destruct ((0 <=? r) && (r <=? 65535)) eqn:E; [| discriminate H].
  apply andb_prop in E as [E1 E2]. apply Z.leb_le in E1, E2.
  destruct (rmap to_bytes_2_big rs) as [e | l'] eqn:E'; [discriminate H |].
  constructor; [unfold register16; lia | eapply IH; reflexivity].
Qed.

Lemma concat_register_bytes registers :
  concat (map (fun r => [r / 256; r mod 256]) registers)
  = register_bytes registers.
Proof.
  unfold register_bytes.
  induction registers as [| r l IH]; cbn; [| rewrite IH]; reflexivity.
Qed.

Lemma decode_ascii_inv bs s :
  decode_ascii bs = Ok s -> bs = codes s /\ isascii s = true.
Proof.
  revert s. induction bs as [| b bs IH]; intros s H.
  - cbn in H. injection H as <-. split; reflexivity.
  - cbn [decode_ascii] in H.
    destruct ((0 <=? b) && (b <? 128)) eqn:E; [| discriminate H].
    apply andb_prop in E as [E1 E2]. apply Z.leb_le in E1. apply Z.ltb_lt in E2.
    destruct (decode_ascii bs) as [e | s'] eqn:E'; [discriminate H |].
    cbn [rbind Ok] in H. injection H as <-.
    destruct (IH s' eq_refl) as [-> Ha].
    assert (Hc : code (ascii_of_N (Z.to_N b)) = b).
    { unfold code. rewrite N_ascii_embedding by lia. lia. }
    cbn [codes isascii]. rewrite Hc, Ha. split; [reflexivity |].
    apply andb_true_intro. split; [apply Z.ltb_lt; lia | reflexivity].
Qed.

Lemma decode_ascii_bad bs :
  Forall (fun b => 0 <= b < 256) bs ->
  forallb (fun b => b <? 128) bs = false ->
  decode_ascii bs = Raise UnicodeDecodeError.
Proof.
  induction 1 as [| b bs Hb Hbs IH]; cbn [forallb decode_ascii]; intros H.
  - discriminate H.
  - destruct (b <? 128) eqn:E.
    + cbn [andb] in H. rewrite (IH H).
      destruct ((0 <=? b) && true); reflexivity.
    + rewrite andb_false_r. reflexivity.
Qed.

Lemma decode_ascii_good bs :
  Forall (fun b => 0 <= b < 256) bs ->
  forallb (fun b => b <? 128) bs = true ->
  exists s, decode_ascii bs = Ok s.
Proof.
  induction 1 as [| b bs Hb Hbs IH]; cbn [forallb decode_ascii]; intros H.
  - eauto.
  - apply andb_prop in H as [E H]. destruct (IH H) as [s Hs].
    rewrite E, Hs. assert (H0 : (0 <=? b) = true) by (apply Z.leb_le; lia).
    rewrite H0. cbn. eauto.
Qed.

Lemma register_bytes_range registers :
  Forall register16 registers ->
  Forall (fun b => 0 <= b < 256) (register_bytes registers).
Proof.
  induction 1 as [| r l Hr Hl IH]; cbn; [constructor |].
  unfold register16 in Hr.
  constructor; [| constructor; [| exact IH]];
    Z.div_mod_to_equations; lia.
Qed.

Lemma register_bytes_ascii registers :
  forallb (fun b => b <? 128) (register_bytes registers)
  = forallb ascii_register registers.
Proof.
  induction registers as [| r l IH]; [reflexivity |].
  cbn [register_bytes flat_map forallb app]. fold (register_bytes l).
  rewrite IH. unfold ascii_register. rewrite andb_assoc. reflexivity.
Qed.

Lemma register_bytes_length registers :
  List.length (register_bytes registers) = (2 * List.length registers)%nat.
Proof.
  induction registers as [| r l IH]; cbn [register_bytes flat_map];
    [reflexivity |].
  fold (register_bytes l). cbn [app List.length]. rewrite IH. lia.
Qed.

Lemma words_register_bytes registers :
  Forall register16 registers ->
  words (register_bytes registers) = registers.
Proof.
  induction 1 as [| r l Hr Hl IH]; [reflexivity |].
  cbn [register_bytes flat_map app words]. fold (register_bytes l).
  rewrite IH. f_equal. Z.div_mod_to_equations. lia.
Qed.

(** What [rstrip] removes is a run of the stripped character, and what it
    leaves does not end in it. *)
Lemma rstrip_padding c s :
  exists k, s = (rstrip c s ++ string_repeat c k)%string /\
            (String.length (rstrip c s) + k = String.length s)%nat.
Proof.
  induction s as [| a s (k & IH & Hk)].
  - exists 0%nat. split; reflexivity.
  - cbn [rstrip]. destruct (rstrip c s) as [| a' r'] eqn:E.
    + destruct (Ascii.eqb a c) eqn:Ea.
      * apply Ascii.eqb_eq in Ea. subst a. exists (S k).
        rewrite append_empty in IH |- *. cbn [string_repeat String.length].
        split; [rewrite <- IH; reflexivity |].
        cbn [String.length] in Hk. lia.
      * exists k. rewrite append_cons, append_empty.
        rewrite append_empty in IH. cbn [String.length] in *.
        split; [rewrite <- IH; reflexivity | lia].
    + exists k. rewrite append_cons. cbn [String.length] in *.
      split; [rewrite <- IH; reflexivity | lia].
Qed.

Lemma rstrip_last c s : last_char (rstrip c s) <> Some c.
Proof.
  induction s as [| a s IH]; [discriminate |].
  cbn [rstrip]. destruct (rstrip c s) as [| a' r'] eqn:E.
  - destruct (Ascii.eqb a c) eqn:Ea; [discriminate |].
    cbn [last_char]. intros H. injection H as ->.
    rewrite Ascii.eqb_refl in Ea. discriminate Ea.
  - exact IH.
Qed.

Lemma even_or_odd n : Nat.even n = true /\ Nat.Even n \/
                      Nat.even n = false /\ Nat.Odd n.
Proof.
  destruct (Nat.even n) eqn:E.
  - left. split; [reflexivity | apply Nat.even_spec, E].
  - right. split; [reflexivity |].
    apply Nat.odd_spec. unfold Nat.odd. rewrite E. reflexivity.
Qed.

End StringOutcomes.

(** X1. [write_string] has three outcomes, whatever the context and the
    address: a value with a non-ASCII character raises
    [UnicodeEncodeError], also when its padded length is odd; an ASCII
    value whose padded length [max(len(value), length)] is odd raises
    [struct.error]; in both cases no register is written. Otherwise the
    words of the padded bytes are handed to [context.setValues]. *)
Theorem write_string_outcomes (context address : nat) (value : string)
    (length : nat) (w : World) :
  ModbusRTUSimulator.write_string context address value length w =
    if isascii value then
      if Nat.even (Nat.max (String.length value) length) then
        context_setValues context 3 address
          (words (codes (ljust value length NUL))) w
      else (Raise StructError, w)
    else (Raise UnicodeEncodeError, w).
Proof.
  unfold ModbusRTUSimulator.write_string, bind, lift.
  destruct (isascii value) eqn:Ha.
  - destruct (even_or_odd (Nat.max (String.length value) length))
      as [[E He] | [E Ho]]; rewrite E.
    + rewrite write_string_registers_even by assumption. reflexivity.
    + rewrite write_string_registers_odd by assumption. reflexivity.
  - unfold ModbusRTUSimulator.write_string_registers.
    rewrite encode_ascii_bad; [reflexivity |].
    unfold ljust. rewrite isascii_app, Ha. reflexivity.
Qed.

(** X2. The decode path of [read_string], on the 16-bit registers of a
    response: it returns a string exactly when both bytes of every
    register are below 128, and raises [UnicodeDecodeError] as soon as one
    byte is not; it does not return [None] then. *)
Theorem read_string_decode_outcome (registers : list Z) :
  Forall register16 registers ->
  if forallb ascii_register registers
  then exists s, ModbusRTUClient.read_string_decode registers = Ok s
  else ModbusRTUClient.read_string_decode registers
         = Raise UnicodeDecodeError.
Proof.
  intros Hr. unfold ModbusRTUClient.read_string_decode.
  rewrite (rmap_to_bytes registers Hr). cbn [rbind Ok].
  rewrite concat_register_bytes.
  pose proof (register_bytes_range registers Hr) as Hb.
  rewrite <- register_bytes_ascii.
  destruct (forallb (fun b => b <? 128) (register_bytes registers)) eqn:E.
  - destruct (decode_ascii_good _ Hb E) as [s Hs]. rewrite Hs.
    cbn [rbind Ok]. eauto.
  - rewrite (decode_ascii_bad _ Hb E). reflexivity.
Qed.

(** The registers of "PROD" decode; the registers of 25.0, whose first
    byte is 0x41 and second 0xC8, do not. *)
Lemma read_string_decode_outcome_witness :
  (exists s, ModbusRTUClient.read_string_decode [20562; 20292] = Ok s) /\
  ModbusRTUClient.read_string_decode [16840; 0] = Raise UnicodeDecodeError.
Proof.
  split.
  - apply (read_string_decode_outcome [20562; 20292]).
    repeat constructor; unfold register16; lia.
  - apply (read_string_decode_outcome [16840; 0]).
    repeat constructor; unfold register16; lia.
Defined.

(** X3. Decoding then encoding. Whenever the decode path of [read_string]
    returns a string [s] for a list of registers, [s] is ASCII, does not
    end in a null character and is at most two characters per register
    long, and [write_string] at length [2 * len(registers)] computes those
    very registers from [s]: the strip of the reader and the padding of
    the writer undo each other. *)
Theorem read_string_then_write_string (registers : list Z) (s : string) :
  ModbusRTUClient.read_string_decode registers = Ok s ->
  isascii s = true /\ last_char s <> Some NUL /\
  (String.length s <= 2 * List.length registers)%nat /\
  ModbusRTUSimulator.write_string_registers s (2 * List.length registers)
    = Ok registers.
Proof.
  intros H. unfold ModbusRTUClient.read_string_decode in H.
  destruct (rmap to_bytes_2_big registers) as [e | bl] eqn:Eb;
    [discriminate H |].
  pose proof (rmap_to_bytes_inv registers bl Eb) as Hr.
  rewrite (rmap_to_bytes registers Hr) in Eb. injection Eb as <-.
  cbn [rbind Ok] in H. rewrite concat_register_bytes in H.
  destruct (decode_ascii (register_bytes registers)) as [e | s0] eqn:Ed;
    [discriminate H |].
  cbn [rbind Ok] in H. injection H as <-.
  destruct (decode_ascii_inv _ _ Ed) as [Hcodes Ha0].
  destruct (rstrip_padding NUL s0) as (k & Hpad & Hk).
  assert (Hlen : String.length s0 = (2 * List.length registers)%nat).
  { rewrite <- codes_length, <- Hcodes. apply register_bytes_length. }
  assert (Ha : isascii (rstrip NUL s0) = true).
  { rewrite Hpad, isascii_app in Ha0. apply andb_prop in Ha0 as [Ha0 _].
    exact Ha0. }
  split; [exact Ha |]. split; [apply rstrip_last |]. split; [lia |].
  rewrite write_string_registers_even.
  - unfold ljust.
    replace (2 * List.length registers - String.length (rstrip NUL s0))%nat
      with k by lia.
    rewrite <- Hpad, <- Hcodes. f_equal. apply words_register_bytes, Hr.
  - exact Ha.
  - rewrite Nat.max_r by lia. exists (List.length registers). reflexivity.
Qed.

(** The six registers of a seeded product number. *)
Lemma read_string_then_write_string_witness :
  ModbusRTUClient.read_string_decode
    [20562; 20292; 12594; 13108; 13622; 0] = Ok "PROD123456"%string /\
  ModbusRTUSimulator.write_string_registers "PROD123456" 12
    = Ok [20562; 20292; 12594; 13108; 13622; 0].
Proof.
  split; [reflexivity |].
  apply (read_string_then_write_string
           [20562; 20292; 12594; 13108; 13622; 0] "PROD123456" eq_refl).
Defined.

(** ** Floats: rounding stays in the format *)

Section Validity.

Lemma Zdigits2_pos_lb x : 0 < x -> 2 ^ (Zdigits2 x - 1) <= x.
Proof.
  destruct x as [| p | p]; try lia. intros _. cbn [Zdigits2].
  apply digits2_pos_bounds.
Qed.

Lemma Zdigits2_ge (x k : Z) : 2 ^ (k - 1) <= x -> 0 < k -> k <= Zdigits2 x.
Proof.
  intros Hx Hk.
  assert (H0 : 0 < 2 ^ (k - 1)) by (apply Z.pow_pos_nonneg; lia).
  pose proof (Zdigits2_lt_pow x ltac:(lia)) as Hu.
  destruct (Z_lt_le_dec (Zdigits2 x) k) as [Hlt | Hge]; [| exact Hge].
  exfalso.
  assert (2 ^ Zdigits2 x <= 2 ^ (k - 1)).
  { apply Z.pow_le_mono_r; [lia |]. lia. }
  lia.
Qed.

Lemma Zdigits2_mono x y : 0 <= x <= y -> Zdigits2 x <= Zdigits2 y.
Proof.
  intros [Hx Hxy].
  destruct (Z.eq_dec x 0) as [-> | Hne].
  - apply Zdigits2_nonneg.
  - apply Zdigits2_ge.
    + pose proof (Zdigits2_pos_lb x ltac:(lia)). lia.
    + destruct x as [| p | p]; cbn; lia.
Qed.

Lemma Zdigits2_div_pow2_ge x k :
  0 <= x -> 0 <= k -> Zdigits2 x - k <= Zdigits2 (x / 2 ^ k).
Proof.
  intros Hx Hk.
  destruct (Z_le_gt_dec (Zdigits2 x) k) as [Hle | Hgt].
  - pose proof (Zdigits2_nonneg (x / 2 ^ k)). lia.
  - assert (Hxpos : 0 < x) by (destruct x; cbn in *; lia).
    apply Zdigits2_ge; [| lia].
    pose proof (Zdigits2_pos_lb x Hxpos) as Hlb.
    replace (Zdigits2 x - 1) with ((Zdigits2 x - k - 1) + k) in Hlb by lia.
    rewrite Z.pow_add_r in Hlb by lia.
    apply Z.div_le_lower_bound; [apply Z.pow_pos_nonneg; lia |]. lia.
Qed.

Lemma Zdigits2_div_pow2 x k :
  0 <= x -> 0 <= k -> 0 < x / 2 ^ k ->
  Zdigits2 (x / 2 ^ k) = Zdigits2 x - k.
Proof.
  intros Hx Hk Hq.
  pose proof (Zdigits2_div_pow2_ge x k Hx Hk) as Hge.
  assert (Hle : Zdigits2 (x / 2 ^ k) <= Zdigits2 x - k); [| lia].
  assert (Hd : k < Zdigits2 x).
  { destruct (Z_lt_le_dec k (Zdigits2 x)) as [H | H]; [exact H |].
    exfalso. pose proof (Zdigits2_lt_pow x Hx) as Hu.
    assert (2 ^ Zdigits2 x <= 2 ^ k)
      by (apply Z.pow_le_mono_r; [lia | lia]).
    rewrite Z.div_small in Hq by lia. lia. }
  apply Zdigits2_le; [| lia]. split; [lia |].
  apply div_pow2_lt; [| lia]. split; [exact Hx |].
  apply Zdigits2_lt_pow, Hx.
Qed.

Lemma fexp_mono prec emax x y :
  x <= y -> fexp prec emax x <= fexp prec emax y.
Proof. unfold fexp. lia. Qed.

(** Rounding gives a number of the format, whatever the location bits:
    the input of [binary_round_aux] need only be aligned. *)
Lemma binary_round_aux_valid prec emax s m e l :
  0 < prec -> 0 <= m ->
  e <= fexp prec emax (Zdigits2 m + e) ->
  valid_binary prec emax (binary_round_aux prec emax s m e l) = true.
Proof.
  intros Hprec Hm He. unfold binary_round_aux.
  pose proof (shr_fexp_spec prec emax m e l Hm) as [He1 Hm1].
  destruct (shr_fexp prec emax m e l) as [mrs1 e1].
  cbn [fst snd] in He1, Hm1.
  set (m2 := round_nearest_even (shr_m mrs1) (loc_of_shr_record mrs1)).
  pose proof (round_nearest_even_bounds (shr_m mrs1)
                (loc_of_shr_record mrs1)) as Hm2. fold m2 in Hm2.
  assert (Hm1pos : 0 <= shr_m mrs1).
  { rewrite Hm1. apply Z.div_pos; [exact Hm | apply Z.pow_pos_nonneg; lia]. }
  assert (Hm2pos : 0 <= m2) by lia.
  pose proof (shr_fexp_spec prec emax m2 e1 loc_Exact Hm2pos) as [He2 Hm3].
  destruct (shr_fexp prec emax m2 e1 loc_Exact) as [mrs2 e2].
  cbn [fst snd] in He2, Hm3.
  destruct (shr_m mrs2) as [| m3 | m3] eqn:E3; [reflexivity | | reflexivity].
  destruct (e2 <=? emax - prec) eqn:Eov; [| reflexivity].
  cbn [valid_binary]. unfold bounded. rewrite Eov, andb_true_r.
  unfold canonical_mantissa. apply Z.eqb_eq.
  assert (He1' : e1 = fexp prec emax (Zdigits2 m + e)) by lia.
  assert (Hd1 : Zdigits2 m - (e1 - e) <= Zdigits2 (shr_m mrs1)).
  { rewrite Hm1. apply Zdigits2_div_pow2_ge; lia. }
  assert (Hd2 : Zdigits2 (shr_m mrs1) <= Zdigits2 m2)
    by (apply Zdigits2_mono; lia).
  assert (Hf : e1 <= fexp prec emax (Zdigits2 m2 + e1)).
  { rewrite He1' at 1. apply fexp_mono. lia. }
  assert (He2' : e2 = fexp prec emax (Zdigits2 m2 + e1)) by lia.
  assert (Hd3 : Zdigits2 (Zpos m3) = Zdigits2 m2 - (e2 - e1)).
  { rewrite Hm3. apply Zdigits2_div_pow2; [exact Hm2pos | lia |].
    rewrite <- Hm3. lia. }
  cbn [Zdigits2] in Hd3. rewrite Hd3.
  replace (Zdigits2 m2 - (e2 - e1) + e2) with (Zdigits2 m2 + e1) by lia.
  symmetry. exact He2'.
Qed.

Lemma binary_round_valid prec emax s m e :
  0 < prec ->
  valid_binary prec emax (binary_round prec emax s m e) = true.
Proof.
  intros Hprec. unfold binary_round.
  pose proof (shl_align_spec m e (fexp prec emax (Zpos (digits2_pos m) + e)))
    as [Hd Hez].
  destruct (shl_align m e (fexp prec emax (Zpos (digits2_pos m) + e)))
    as [mz ez].
  cbn [fst snd] in Hd, Hez.
  apply binary_round_aux_valid; [exact Hprec | lia |].
  cbn [Zdigits2]. rewrite Hd. lia.
Qed.

(** Rounding a number of magnitude [2 ^ emax] or more gives an infinity. *)
Lemma binary_round_overflow prec emax s m e :
  0 < prec -> 3 - emax - prec <= emax - prec ->
  emax < Zpos (digits2_pos m) + e ->
  binary_round prec emax s m e = S754_infinity s.
Proof.
  intros Hprec Hemax Hbig. unfold binary_round.
  pose proof (shl_align_spec m e (fexp prec emax (Zpos (digits2_pos m) + e)))
    as [Hd Hez].
  destruct (shl_align m e (fexp prec emax (Zpos (digits2_pos m) + e)))
    as [mz ez].
  cbn [fst snd] in Hd, Hez.
  unfold binary_round_aux.
  pose proof (shr_fexp_spec prec emax (Zpos mz) ez loc_Exact ltac:(lia))
    as [He1 Hm1].
  destruct (shr_fexp prec emax (Zpos mz) ez loc_Exact) as [mrs1 e1].
  cbn [fst snd] in He1, Hm1.
  set (m2 := round_nearest_even (shr_m mrs1) (loc_of_shr_record mrs1)).
  pose proof (round_nearest_even_bounds (shr_m mrs1)
                (loc_of_shr_record mrs1)) as Hm2. fold m2 in Hm2.
  cbn [Zdigits2] in He1. rewrite Hd in He1.
  set (D := Zpos (digits2_pos m) + e) in *.
  assert (Hf : fexp prec emax D = D - prec) by (unfold fexp, emin; lia).
  assert (He1' : e1 = D - prec) by lia.
  assert (Hd1 : prec <= Zdigits2 (shr_m mrs1)).
  { pose proof (Zdigits2_div_pow2_ge (Zpos mz) (e1 - ez) ltac:(lia)
                  ltac:(lia)) as H.
    rewrite <- Hm1 in H. cbn [Zdigits2] in H. lia. }
  assert (Hm1pos : 0 <= shr_m mrs1).
  { rewrite Hm1. apply Z.div_pos; [lia | apply Z.pow_pos_nonneg; lia]. }
  assert (Hd2 : prec <= Zdigits2 m2).
  { pose proof (Zdigits2_mono (shr_m mrs1) m2 ltac:(lia)). lia. }
  pose proof (shr_fexp_spec prec emax m2 e1 loc_Exact ltac:(lia))
    as [He2 Hm3].
  destruct (shr_fexp prec emax m2 e1 loc_Exact) as [mrs2 e2].
  cbn [fst snd] in He2, Hm3.
  assert (Hf2 : fexp prec emax (Zdigits2 m2 + e1) = Zdigits2 m2 + e1 - prec)
    by (unfold fexp, emin; lia).
  assert (He2' : e2 = Zdigits2 m2 + e1 - prec) by lia.
  assert (Hm3pos : 0 < shr_m mrs2).
  { rewrite Hm3.
    pose proof (Zdigits2_div_pow2_ge m2 (e2 - e1) ltac:(lia) ltac:(lia)) as H.
    destruct (m2 / 2 ^ (e2 - e1)) as [| p | p] eqn:E; cbn [Zdigits2] in H;
      [lia | lia |].
    assert (0 <= m2 / 2 ^ (e2 - e1))
      by (apply Z.div_pos; [lia | apply Z.pow_pos_nonneg; lia]).
    lia. }
  destruct (shr_m mrs2) as [| m3 | m3]; [lia | | lia].
  assert (Eov : (e2 <=? emax - prec) = false) by (apply Z.leb_gt; lia).
  rewrite Eov. reflexivity.
Qed.

(** The bit pattern of a binary32 value, finite or not. *)
Lemma single_bits y :
  valid_binary 24 128 y = true ->
  0 <= PyFloat.bits_of_single y < 2 ^ 32 /\
  PyFloat.single_of_bits (PyFloat.bits_of_single y) = y /\
  PyFloat.single_of_double (PyFloat.double_of_single y) = y.
Proof.
  intros Hv.
  destruct (PyFloat.is_finite y) eqn:Hfin.
  - assert (Hy : PyFloat.finite_single y = true)
      by (unfold PyFloat.finite_single; rewrite Hfin, Hv; reflexivity).
    split; [apply bits_of_single_range, Hy |].
    split; [apply single_of_bits_of_single, Hy
           | apply single_of_double_of_single, Hy].
  - destruct y as [s | s | | s m e]; try discriminate Hfin.
    + destruct s; repeat split; vm_compute; congruence.
    + repeat split; vm_compute; congruence.
Qed.

Lemma single_of_double_valid x :
  valid_binary 24 128 (PyFloat.single_of_double x) = true.
Proof.
  destruct x as [s | s | | s m e]; try reflexivity.
  cbn [PyFloat.single_of_double]. apply binary_round_valid. lia.
Qed.

Lemma word_range b : 0 <= b < 2 ^ 32 ->
  Forall register16 [b / 2 ^ 16; b mod 2 ^ 16].
Proof.
  intros Hb. pow2. unfold register16.
  constructor; [| constructor; [| constructor]];
    Z.div_mod_to_equations; lia.
Qed.

(** The registers of [write_float], for any float that packs. *)
Lemma write_float_registers_bits x registers :
  ModbusRTUSimulator.write_float_registers x = Ok registers ->
  let b := PyFloat.bits_of_single (PyFloat.single_of_double x) in
  0 <= b < 2 ^ 32 /\ registers = [b / 2 ^ 16; b mod 2 ^ 16].
Proof.
  intros Hw b.
  destruct (single_bits _ (single_of_double_valid x)) as (Hb & _ & _).
  fold b in Hb. split; [exact Hb |].
  unfold ModbusRTUSimulator.write_float_registers,
    BinaryPayloadBuilder.add_32bit_float, struct_pack_f in Hw.
  destruct (PyFloat.is_inf _ && negb _); [discriminate Hw |].
  cbn [rbind Ok] in Hw. fold b in Hw.
  rewrite (registers_of_bytes4 b Hb) in Hw. injection Hw as <-.
  reflexivity.
Qed.

(** What [read_float] decodes from 16-bit registers. *)
Lemma read_float_decode_registers (registers : list Z) :
  Forall register16 registers ->
  ModbusRTUClient.read_float_decode registers =
    match registers with
    | hi :: lo :: _ =>
        Ok (PyFloat.double_of_single
              (PyFloat.single_of_bits (hi * 2 ^ 16 + lo)))
    | _ => Raise StructError
    end.
Proof.
  intros Hr. unfold ModbusRTUClient.read_float_decode,
    BinaryPayloadDecoder.fromRegisters.
  assert (Hpack : forall l, Forall register16 l ->
            rmap struct_pack_H l
            = Ok (map (fun r => [r / 256; r mod 256]) l)).
  { induction 1 as [| r l Hr' Hl IH]; [reflexivity |].
    cbn [rmap map]. unfold struct_pack_H at 1. unfold register16 in Hr'.
    assert (H1 : (0 <=? r) = true) by (apply Z.leb_le; lia).
    assert (H2 : (r <=? 65535) = true) by (apply Z.leb_le; lia).
    rewrite H1, H2, IH. reflexivity. }
  rewrite (Hpack registers Hr). cbn [rbind Ok].
  destruct registers as [| hi [| lo rest]]; [reflexivity | reflexivity |].
  cbn [map concat app]. unfold BinaryPayloadDecoder.decode_32bit_float.
  cbn [firstn struct_unpack_f]. do 3 f_equal.
  inversion Hr as [| ? ? Hhi Hr']; subst.
  inversion Hr' as [| ? ? Hlo _]; subst.
  unfold register16 in Hhi, Hlo.
  unfold of_be_bytes4. pow2. Z.div_mod_to_equations. lia.
Qed.

End Validity.

(** X4. The round trip of any number. Whenever [write_float] can encode
    a Python float [x] that is not a NaN (a finite number, representable
    in 32 bits or not, or an infinity), it computes the two 16-bit
    registers of the bit pattern of [x] rounded to binary32, most
    significant word first; the decode path of [read_float] returns from
    them [x] rounded to binary32; and writing that value again computes
    the same two registers. *)
Theorem float_registers_round_trip (x : PyFloat.float) (registers : list Z) :
  x <> S754_nan ->
  ModbusRTUSimulator.write_float_registers x = Ok registers ->
  let y := PyFloat.single_of_double x in
  let b := PyFloat.bits_of_single y in
  registers = [b / 2 ^ 16; b mod 2 ^ 16] /\
  Forall register16 registers /\
  ModbusRTUClient.read_float_decode registers
    = Ok (PyFloat.double_of_single y) /\
  ModbusRTUSimulator.write_float_registers (PyFloat.double_of_single y)
    = Ok registers.
Proof.
  intros _ Hw y b.
  destruct (single_bits y (single_of_double_valid x)) as (Hb & Hbits & Hback).
  fold b in Hb, Hbits.
  destruct (write_float_registers_bits x registers Hw) as [_ Hregs].
  fold y b in Hregs.
  split; [exact Hregs |]. subst registers.
  split; [apply word_range, Hb |]. split.
  - unfold ModbusRTUClient.read_float_decode.
    rewrite (bytes_of_registers2 b Hb). cbn [rbind Ok].
    unfold BinaryPayloadDecoder.decode_32bit_float.
    change (firstn 4 (be_bytes4 b)) with (be_bytes4 b).
    rewrite (of_be_bytes4_be_bytes4 b Hb), Hbits. reflexivity.
  - unfold ModbusRTUSimulator.write_float_registers,
      BinaryPayloadBuilder.add_32bit_float, struct_pack_f.
    rewrite Hback.
    assert (Hinf : PyFloat.is_inf y
                   && negb (PyFloat.is_inf (PyFloat.double_of_single y))
                   = false).
    { destruct y as [s | s | | s m e]; try reflexivity. }
    rewrite Hinf. cbn [rbind Ok]. fold b. apply registers_of_bytes4, Hb.
Qed.

(** The Python float 0.1, which binary32 does not hold exactly. *)
Lemma float_registers_round_trip_witness :
  let x := PyFloat.decimal 1 10 in
  let y := PyFloat.single_of_double x in
  ModbusRTUSimulator.write_float_registers x = Ok [15820; 52429] /\
  ModbusRTUClient.read_float_decode [15820; 52429]
    = Ok (PyFloat.double_of_single y) /\
  ModbusRTUSimulator.write_float_registers (PyFloat.double_of_single y)
    = Ok [15820; 52429].
Proof.
  intros x y. split; [reflexivity |].
  destruct (float_registers_round_trip (PyFloat.decimal 1 10)
              [15820; 52429] ltac:(discriminate) eq_refl)
    as (_ & _ & Hread & Hagain).
  split; [exact Hread | exact Hagain].
Defined.

(** X5. A finite float of magnitude [2 ^ 128] or more does not fit
    binary32: [struct.pack] raises [OverflowError] inside [write_float],
    which writes no register. *)
Theorem write_float_overflow (context address : nat) (s : bool)
    (m : positive) (e : Z) (w : World) :
  128 < Zpos (digits2_pos m) + e ->
  ModbusRTUSimulator.write_float_registers (S754_finite s m e)
    = Raise OverflowError /\
  ModbusRTUSimulator.write_float context address (S754_finite s m e) w
    = (Raise OverflowError, w).
Proof.
  intros Hbig.
  assert (H : ModbusRTUSimulator.write_float_registers (S754_finite s m e)
              = Raise OverflowError).
  { unfold ModbusRTUSimulator.write_float_registers,
      BinaryPayloadBuilder.add_32bit_float, struct_pack_f.
    cbn [PyFloat.single_of_double].
    rewrite binary_round_overflow by lia. reflexivity. }
  split; [exact H |].
  unfold ModbusRTUSimulator.write_float, bind, lift. rewrite H. reflexivity.
Qed.

(** The float [2.0 ** 128]. *)
Lemma write_float_overflow_witness :
  ModbusRTUSimulator.write_float_registers
    (S754_finite false 4503599627370496 76) = Raise OverflowError /\
  ModbusRTUSimulator.write_float 0 0 (S754_finite false 4503599627370496 76)
    (boot Example.no_draw)
    = (Raise OverflowError, boot Example.no_draw).
Proof.
  apply (write_float_overflow 0 0 false 4503599627370496 76). cbn. lia.
Defined.

(** X6. The decode path of [read_float], on the 16-bit registers of a
    response: two registers or more decode to the float whose binary32
    bit pattern is the first two (a NaN or an infinity when the pattern is
    one), and nothing is raised; fewer than two raise [struct.error]. *)
Theorem read_float_decode_outcome (registers : list Z) :
  Forall register16 registers ->
  ModbusRTUClient.read_float_decode registers =
    match registers with
    | hi :: lo :: _ =>
        Ok (PyFloat.double_of_single
              (PyFloat.single_of_bits (hi * 2 ^ 16 + lo)))
    | _ => Raise StructError
    end.
Proof. exact (read_float_decode_registers registers). Qed.

(** The registers 0x7F80 0x0000 are the pattern of plus infinity; one
    register alone cannot be decoded. *)
Lemma read_float_decode_outcome_witness :
  ModbusRTUClient.read_float_decode [32640; 0] = Ok (S754_infinity false) /\
  ModbusRTUClient.read_float_decode [16448] = Raise StructError.
Proof.
  split.
  - apply (read_float_decode_outcome [32640; 0]).
    repeat constructor; unfold register16; lia.
  - apply (read_float_decode_outcome [16448]).
    repeat constructor; unfold register16; lia.
Defined.

(** * More of the simulator *)

(** ** What every write keeps *)

Section Keeps.

Variable P : ModbusSlaveContext.t -> Prop.

Hypothesis P_created :
  P {| ModbusSlaveContext.di := ModbusRTUSimulator.zeros;
       ModbusSlaveContext.co := ModbusRTUSimulator.zeros;
       ModbusSlaveContext.hr := ModbusRTUSimulator.zeros;
       ModbusSlaveContext.ir := ModbusRTUSimulator.zeros;
       ModbusSlaveContext.zero_mode := true |}.

Hypothesis P_written :
  forall c a new c',
    P c -> Forall register16 new ->
    ModbusSlaveContext.setValues c 3 a new = Ok c' -> P c'.

Lemma keeps_ret {A} (a : A) : keeps P (ret a).
Proof. intros w H. exact H. Qed.

Lemma keeps_lift {A} (r : result A) : keeps P (lift r).
Proof. intros w H. exact H. Qed.

Lemma keeps_bind {A B} (m : M A) (k : A -> M B) :
  keeps P m -> (forall a, keeps P (k a)) -> keeps P (bind m k).
Proof.
  intros Hm Hk w H. unfold bind. specialize (Hm w H).
  destruct (m w) as [[e | a] w']; cbn [snd] in *; [exact Hm |].
  apply Hk, Hm.
Qed.

Lemma keeps_for_each {A} (xs : list A) (body : A -> M unit) :
  (forall x, keeps P (body x)) -> keeps P (for_each xs body).
Proof.
  intros Hb. induction xs as [| x xs IH]; cbn [for_each].
  - apply keeps_ret.
  - apply keeps_bind; [apply Hb | intros _; exact IH].
Qed.

Lemma keeps_for_fold {A B} (xs : list A) (acc : B) (body : B -> A -> M B) :
  (forall acc x, keeps P (body acc x)) -> keeps P (for_fold xs acc body).
Proof.
  intros Hb. revert acc. induction xs as [| x xs IH]; intros acc;
    cbn [for_fold].
  - apply keeps_ret.
  - apply keeps_bind; [apply Hb | intros acc'; apply IH].
Qed.

Lemma keeps_log_info l : keeps P (log_info l).
Proof. intros w H. exact H. Qed.

Lemma keeps_random_uniform a b : keeps P (random_uniform a b).
Proof. intros w H. exact H. Qed.

Lemma keeps_time_sleep seconds : keeps P (time_sleep seconds).
Proof. intros w H. exact H. Qed.

Lemma keeps_context_setValues r a new :
  Forall register16 new -> keeps P (context_setValues r 3 a new).
Proof.
  intros Hnew w H. unfold context_setValues.
  destruct (heap w !! r) as [c |] eqn:Ec; [| exact H].
  destruct (ModbusSlaveContext.setValues c 3 a new) as [e | c'] eqn:Es;
    [exact H |].
  cbn [snd heap]. apply Forall_insert; [exact H |].
  apply (P_written c a new c'); [| exact Hnew | exact Es].
  rewrite Forall_lookup in H. apply (H r c Ec).
Qed.

Lemma words_range bs :
  Forall (fun b => 0 <= b < 256) bs -> Forall register16 (words bs).
Proof.
  induction bs as [| a | a b bs IH] using list_pair_ind; intros H;
    cbn [words]; [constructor | constructor |].
  inversion H as [| ? ? Ha' H']; subst.
  inversion H' as [| ? ? Hb' H'']; subst.
  constructor; [unfold register16; lia | apply IH, H''].
Qed.

Lemma encode_ascii_range s bs :
  encode_ascii s = Ok bs -> Forall (fun b => 0 <= b < 256) bs.
Proof.
  revert bs. induction s as [| c s IH]; intros bs H; cbn [encode_ascii] in H.
  - injection H as <-. constructor.
  - destruct (code c <? 128); [| discriminate H].
    destruct (encode_ascii s) as [e | bs'] eqn:E; [discriminate H |].
    cbn [rbind Ok] in H. injection H as <-.
    constructor; [apply code_range | apply IH; reflexivity].
Qed.

Lemma write_string_registers_range value length registers :
  ModbusRTUSimulator.write_string_registers value length = Ok registers ->
  Forall register16 registers.
Proof.
  unfold ModbusRTUSimulator.write_string_registers. intros H.
  destruct (encode_ascii (ljust value length NUL)) as [e | bs] eqn:E;
    [discriminate H |].
  cbn [rbind Ok] in H. pose proof (encode_ascii_range _ _ E) as Hb.
  destruct (Nat.Even_or_Odd (List.length bs)) as [He | Ho].
  - rewrite (unpack_slices_even bs He) in H. injection H as <-.
    apply words_range, Hb.
  - rewrite (unpack_slices_odd bs Ho) in H. discriminate H.
Qed.

Lemma keeps_write_float r a x : keeps P (ModbusRTUSimulator.write_float r a x).
Proof.
  unfold ModbusRTUSimulator.write_float.
  destruct (ModbusRTUSimulator.write_float_registers x) as [e | regs] eqn:E.
  - intros w H. exact H.
  - intros w H. unfold bind, lift.
    apply keeps_context_setValues; [| exact H].
    destruct (write_float_registers_bits x regs E) as [Hb ->].
    apply word_range, Hb.
Qed.

Lemma keeps_write_string r a value length :
  keeps P (ModbusRTUSimulator.write_string r a value length).
Proof.
  unfold ModbusRTUSimulator.write_string.
  destruct (ModbusRTUSimulator.write_string_registers value length)
    as [e | regs] eqn:E.
  - intros w H. exact H.
  - intros w H. unfold bind, lift.
    apply keeps_context_setValues; [| exact H].
    eapply write_string_registers_range, E.
Qed.

Ltac keep :=
  repeat first
    [ apply keeps_ret | apply keeps_lift | apply keeps_log_info
    | apply keeps_random_uniform | apply keeps_write_float
    | apply keeps_write_string
    | apply keeps_bind; [| intro]
    | apply keeps_for_each; intro
    | apply keeps_for_fold; intros
    | match goal with
      | |- keeps _ (match ?x with _ => _ end) => destruct x
      end ].

Lemma keeps_init_sfp_data r sfps :
  keeps P (ModbusRTUSimulator.init_sfp_data r sfps).
Proof. unfold ModbusRTUSimulator.init_sfp_data. keep. Qed.

Lemma keeps_init_product_info r pi :
  keeps P (ModbusRTUSimulator.init_product_info r pi).
Proof. unfold ModbusRTUSimulator.init_product_info. keep. Qed.

Lemma keeps_update_sfp_values r sfps :
  keeps P (ModbusRTUSimulator.update_sfp_values r sfps).
Proof. unfold ModbusRTUSimulator.update_sfp_values. keep. Qed.

Lemma keeps_update_product_info r pi pn sn :
  keeps P (ModbusRTUSimulator.update_product_info r pi pn sn).
Proof. unfold ModbusRTUSimulator.update_product_info. keep. Qed.

Lemma keeps_create_slave_context :
  keeps P ModbusRTUSimulator._create_slave_context.
Proof.
  intros w H. unfold ModbusRTUSimulator._create_slave_context, new_object.
  cbn [snd heap]. apply Forall_app. split; [exact H |].
  constructor; [exact P_created | constructor].
Qed.

Lemma keeps_init config : keeps P (ModbusRTUSimulator.__init__ config).
Proof.
  unfold ModbusRTUSimulator.__init__,
    ModbusRTUSimulator._setup_server_context.
  apply keeps_bind; [| intro; apply keeps_ret].
  apply keeps_bind; [apply keeps_create_slave_context | intro].
  apply keeps_bind; [| intro; apply keeps_ret].
  apply keeps_for_fold. intros acc d. cbv zeta.
  destruct (decide (device_id d ∈ [1; 2])); [| apply keeps_ret].
  apply keeps_bind; [| intro; apply keeps_ret].
  destruct (registers d) as [regs |]; [| apply keeps_ret].
  destruct (if device_id d =? 1 then sfps regs else None);
    [apply keeps_init_sfp_data |].
  destruct (if device_id d =? 2 then product_info regs else None);
    [apply keeps_init_product_info | apply keeps_ret].
Qed.

Lemma keeps_update_values self n :
  keeps P (ModbusRTUSimulator.update_values self n).
Proof.
  unfold ModbusRTUSimulator.update_values. cbv zeta. generalize 0.
  induction n as [| n IH]; intros counter;
    cbn [ModbusRTUSimulator.update_values_loop]; [apply keeps_ret |].
  cbv zeta.
  apply keeps_bind;
    [| intro; apply keeps_bind; [apply keeps_time_sleep | intro; apply IH]].
  unfold ModbusRTUSimulator.update_values_body.
  apply keeps_for_each. intros d.
  unfold ModbusRTUSimulator.update_values_device. cbv zeta.
  destruct (decide (device_id d ∈ [1; 2])); [| apply keeps_ret].
  apply keeps_bind; [apply keeps_lift | intros r].
  destruct (registers d) as [regs |]; [| apply keeps_ret].
  destruct (if device_id d =? 1 then sfps regs else None);
    [apply keeps_update_sfp_values |].
  destruct (if (device_id d =? 2) && (counter mod 10 =? 0)
            then product_info regs else None);
    [apply keeps_update_product_info | apply keeps_ret].
Qed.

(** The property holds of every slave context after construction, done
    or failed, and after any number of turns of the update loop. *)
Lemma kept_throughout (config : Config) (rand : nat -> PyFloat.float)
    (n : nat) :
  match ModbusRTUSimulator.__init__ config (boot rand) with
  | (inr self, w) =>
      Forall P (heap w) /\
      Forall P (heap (snd (ModbusRTUSimulator.update_values self n w)))
  | (inl _, w) => Forall P (heap w)
  end.
Proof.
  pose proof (keeps_init config (boot rand) ltac:(constructor)) as Hinit.
  destruct (ModbusRTUSimulator.__init__ config (boot rand))
    as [[e | self] w]; cbn [snd] in Hinit; [exact Hinit |].
  split; [exact Hinit |]. apply keeps_update_values, Hinit.
Qed.

End Keeps.

Lemma others_untouched_written c a new c' :
  others_untouched c -> Forall register16 new ->
  ModbusSlaveContext.setValues c 3 a new = Ok c' -> others_untouched c'.
Proof.
  intros H _ Hs. unfold ModbusSlaveContext.setValues in Hs.
  rewrite decode_3 in Hs. cbn [rbind Ok] in Hs. injection Hs as <-.
  exact H.
Qed.

Lemma holding16_created :
  holding16 {| ModbusSlaveContext.di := ModbusRTUSimulator.zeros;
               ModbusSlaveContext.co := ModbusRTUSimulator.zeros;
               ModbusSlaveContext.hr := ModbusRTUSimulator.zeros;
               ModbusSlaveContext.ir := ModbusRTUSimulator.zeros;
               ModbusSlaveContext.zero_mode := true |}.
Proof.
  unfold holding16. cbn [ModbusSlaveContext.hr ModbusRTUSimulator.zeros
    ModbusSequentialDataBlock.values].
  apply Forall_replicate. unfold register16. lia.
Qed.

Lemma holding16_written c a new c' :
  holding16 c -> Forall register16 new ->
  ModbusSlaveContext.setValues c 3 a new = Ok c' -> holding16 c'.
Proof.
  intros H Hnew Hs. unfold ModbusSlaveContext.setValues in Hs.
  rewrite decode_3 in Hs. cbn [rbind Ok] in Hs. injection Hs as <-.
  unfold holding16 in *.
  cbn [ModbusSlaveContext.set_store ModbusSlaveContext.hr
       ModbusSlaveContext.get_store ModbusSequentialDataBlock.setValues
       ModbusSequentialDataBlock.values].
  unfold slice_assign. rewrite !Forall_app.
  split; [apply Forall_take, H |]. split; [exact Hnew |].
  apply Forall_drop, H.
Qed.

(** X7. The simulator writes holding registers only. For every
    configuration, after construction (done or failed) and after any
    number of turns of the update loop, the discrete inputs, the coils and
    the input registers of every slave context are the 65536 zeros they
    were created with. *)
Theorem only_holding_registers_are_written (config : Config)
    (rand : nat -> PyFloat.float) (n : nat) :
  match ModbusRTUSimulator.__init__ config (boot rand) with
  | (inr self, w) =>
      Forall others_untouched (heap w) /\
      Forall others_untouched
        (heap (snd (ModbusRTUSimulator.update_values self n w)))
  | (inl _, w) => Forall others_untouched (heap w)
  end.
Proof.
  apply (kept_throughout others_untouched); [repeat split |].
  exact others_untouched_written.
Qed.

(** X8. Every holding register holds a 16-bit value at all times: for
    every configuration and every sequence of random draws, after
    construction (done or failed) and after any number of turns of the
    update loop, each holding register of every slave context lies in
    0..65535. *)
Theorem holding_registers_stay_16_bit (config : Config)
    (rand : nat -> PyFloat.float) (n : nat) :
  match ModbusRTUSimulator.__init__ config (boot rand) with
  | (inr self, w) =>
      Forall holding16 (heap w) /\
      Forall holding16
        (heap (snd (ModbusRTUSimulator.update_values self n w)))
  | (inl _, w) => Forall holding16 (heap w)
  end.
Proof.
  apply (kept_throughout holding16);
    [exact holding16_created | exact holding16_written].
Qed.

(** What the server sends: as many registers as were asked for, taken
    from the holding registers of a slave context. *)
Lemma serve_registers w context address count slave registers :
  serve w context address count slave = RegistersResponse registers ->
  List.length registers = count /\
  exists c k, c ∈ heap w /\
    registers = take count
      (drop k (ModbusSequentialDataBlock.values (ModbusSlaveContext.hr c))).
Proof.
  unfold serve. intros H.
  destruct (ModbusServerContext.getitem context slave) as [e | r];
    [discriminate H |].
  destruct (heap w !! r) as [c |] eqn:Ec; [| discriminate H].
  destruct ((1 <=? count)%nat && (count <=? 125)%nat); [| discriminate H].
  unfold ModbusSlaveContext.validate, ModbusSlaveContext.getValues in H.
  rewrite decode_3 in H. cbn [rbind Ok ModbusSlaveContext.get_store] in H.
  destruct (ModbusSequentialDataBlock.validate (ModbusSlaveContext.hr c)
              (ModbusSlaveContext.shift c address) count) eqn:Ev;
    [| discriminate H].
  injection H as <-. unfold ModbusSequentialDataBlock.validate in Ev.
  apply andb_prop in Ev as [E1 E2]. apply Nat.leb_le in E1, E2.
  unfold ModbusSequentialDataBlock.getValues. split.
  - rewrite length_take, length_drop. lia.
  - exists c, (ModbusSlaveContext.shift c address
               - ModbusSequentialDataBlock.address (ModbusSlaveContext.hr c))%nat.
    split; [eapply list_elem_of_lookup_2, Ec | reflexivity].
Qed.

(** X9. [read_float] does not raise on what the simulator answers.
    Through the link to a simulator constructed from any configuration,
    after any number of update turns and for any draws, [read_float] of a
    slave id of one byte and an address of 16 bits (a request that the
    client can encode) returns [None], or the float whose binary32 bit
    pattern is in the two registers that the server sent. *)
Theorem read_float_never_raises (config : Config)
    (rand : nat -> PyFloat.float) (n : nat) (link : Transport)
    (slave : Z) (address : nat) :
  link_after config rand n = Some link ->
  on_wire slave address 2 ->
  ModbusRTUClient.read_float link slave address = Ok None \/
  exists hi lo,
    link address 2%nat slave = RegistersResponse [hi; lo] /\
    ModbusRTUClient.read_float link slave address
      = Ok (Some (PyFloat.double_of_single
                    (PyFloat.single_of_bits (hi * 2 ^ 16 + lo)))).
Proof.
  unfold link_after. intros Hlink _.
  pose proof (kept_throughout holding16 holding16_created holding16_written
                config rand n) as Hinv.
  destruct (ModbusRTUSimulator.__init__ config (boot rand))
    as [[e | self] w]; [discriminate Hlink |].
  injection Hlink as <-. destruct Hinv as [_ Hinv].
  unfold ModbusRTUClient.read_float.
  destruct (serve _ _ address 2%nat slave) as [| registers] eqn:Es;
    [left; reflexivity |].
  right. destruct (serve_registers _ _ _ _ _ _ Es)
    as (Hlen & c & k & Hc & Hregs).
  assert (H16 : Forall register16 registers).
  { rewrite Hregs. apply Forall_take, Forall_drop.
    rewrite Forall_forall in Hinv. apply (Hinv c Hc). }
  destruct registers as [| hi [| lo [| ? ?]]]; try discriminate Hlen.
  exists hi, lo. split; [reflexivity |].
  rewrite (read_float_decode_registers _ H16). reflexivity.
Qed.

Lemma read_float_never_raises_witness :
  exists link,
    link_after Example.config Example.quarter 1 = Some link /\
    (ModbusRTUClient.read_float link 1 0 = Ok None \/
     exists hi lo,
       link 0%nat 2%nat 1 = RegistersResponse [hi; lo] /\
       ModbusRTUClient.read_float link 1 0
         = Ok (Some (PyFloat.double_of_single
                       (PyFloat.single_of_bits (hi * 2 ^ 16 + lo))))).
Proof.
  assert (E : exists link,
            link_after Example.config Example.quarter 1 = Some link).
  { unfold link_after.
    rewrite (init_effect Example.config Example.quarter example_seedable).
    eexists. reflexivity. }
  destruct E as [link E]. exists link. split; [exact E |].
  exact (read_float_never_raises Example.config Example.quarter 1 link 1 0
           E ltac:(unfold on_wire; lia)).
Defined.

(** ** When construction and the update loop fail *)

Section Outcomes.

Import ModbusRTUSimulator.

Lemma bind_raise {S A B} (m : ST S A) (k : A -> ST S B) w e w' :
  m w = (Raise e, w') -> bind m k w = (Raise e, w').
Proof. intros H. unfold bind. rewrite H. reflexivity. Qed.

(** Writing one optional string field: done when the padded value has an
    even number of bytes, [struct.error] with nothing written otherwise. *)
Lemma string_write_outcome r (f : option StringField.t) value w :
  live r w -> isascii value = true ->
  (writable f value /\
   match f with
   | Some f => write_string r (StringField.address f) value
                 (StringField.length f)
   | None => ret tt
   end w = (Ok tt, fold_left (poke r) (string_writes f value) w)) \/
  (~ writable f value /\
   match f with
   | Some f => write_string r (StringField.address f) value
                 (StringField.length f)
   | None => ret tt
   end w = (Raise StructError, w)).
Proof.
  intros Hl Ha. destruct f as [f |].
  - cbn [writable].
    destruct (Nat.Even_or_Odd
                (Nat.max (String.length value) (StringField.length f)))
      as [He | Ho].
    + left. split; [exact He |].
      apply (string_write_poke r (Some f) value w Hl Ha He).
    + right. split.
      * intros He. eapply Nat.Even_Odd_False; eassumption.
      * unfold write_string. apply bind_raise. unfold lift.
        rewrite write_string_registers_odd by assumption. reflexivity.
  - left. split; [exact I | reflexivity].
Qed.

Lemma init_product_info_outcome r pi w :
  live r w ->
  (writable (product_number pi) "PROD123456" /\
   writable (serial_number pi) "SN987654321" /\
   init_product_info r pi w =
     (Ok tt, fold_left (poke r)
               (product_info_writes pi "PROD123456" "SN987654321") w)) \/
  (~ (writable (product_number pi) "PROD123456" /\
      writable (serial_number pi) "SN987654321") /\
   exists w', init_product_info r pi w = (Raise StructError, w')).
Proof.
  intros Hl. unfold init_product_info.
  destruct (string_write_outcome r (product_number pi) "PROD123456" w Hl
              eq_refl) as [[Hp Ep] | [Hp Ep]].
  - destruct (string_write_outcome r (serial_number pi) "SN987654321"
                (fold_left (poke r)
                   (string_writes (product_number pi) "PROD123456") w)
                (live_pokes _ _ _ Hl) eq_refl) as [[Hs Es] | [Hs Es]].
    + left. split; [exact Hp |]. split; [exact Hs |].
      apply init_product_info_pokes; assumption.
    + right. split; [tauto |]. eexists.
      erewrite bind_ok by exact Ep. exact Es.
  - right. split; [tauto |]. eexists. apply bind_raise. exact Ep.
Qed.

(** One device of the loop of [_setup_server_context]. *)
Lemma setup_device_outcome r (d : Device) w :
  live r w ->
  (device_seedable d /\
   match registers d with
   | Some regs =>
       match (if device_id d =? 1 then sfps regs else None) with
       | Some sfps => init_sfp_data r sfps
       | None =>
           match (if device_id d =? 2 then product_info regs else None) with
           | Some pi => init_product_info r pi
           | None => ret tt
           end
       end
   | None => ret tt
   end w = (Ok tt, fold_left (poke r) (device_writes d) w)) \/
  (~ device_seedable d /\
   exists w',
     match registers d with
     | Some regs =>
         match (if device_id d =? 1 then sfps regs else None) with
         | Some sfps => init_sfp_data r sfps
         | None =>
             match (if device_id d =? 2 then product_info regs else None) with
             | Some pi => init_product_info r pi
             | None => ret tt
             end
         end
     | None => ret tt
     end w = (Raise StructError, w')).
Proof.
  intros Hl. unfold device_writes, device_seedable.
  destruct (registers d) as [regs |] eqn:Er;
    [| left; split; [intros ? ? _ H; discriminate H | reflexivity]].
  destruct (device_id d =? 1) eqn:E1.
  { apply Z.eqb_eq in E1. left. split; [intros ? ? H; lia |].
    destruct (sfps regs) as [l |].
    - apply init_sfp_data_pokes, Hl.
    - rewrite E1. reflexivity. }
  destruct (device_id d =? 2) eqn:E2;
    [| left; split; [intros ? ? H; apply Z.eqb_neq in E2; lia
                    | reflexivity]].
  destruct (product_info regs) as [pi |] eqn:Ep;
    [| left; split; [intros regs' pi' _ Hr' Hp'; injection Hr' as <-;
                     rewrite Ep in Hp'; discriminate Hp' | reflexivity]].
  destruct (init_product_info_outcome r pi w Hl)
    as [(Hp & Hs & E) | (Hn & w' & E)].
  - left. split; [| exact E].
    intros regs' pi' _ Hr' Hp'. injection Hr' as <-.
    rewrite Ep in Hp'. injection Hp' as <-. split; assumption.
  - right. split; [| exists w'; exact E].
    intros H. apply Hn. apply (H regs pi); [| reflexivity | exact Ep].
    apply Z.eqb_eq, E2.
Qed.

(** The loop of [_setup_server_context] stops with [struct.error] at the
    first device whose product info cannot be written. *)
Lemma setup_loop_outcome r config (contexts : gmap Z nat) w :
  live r w ->
  Forall device_seedable config \/
  (~ Forall device_seedable config /\
   exists w',
     for_fold config contexts (fun contexts device =>
       let device_id := device_id device in
       if decide (device_id ∈ [1; 2]) then
         (run! match registers device with
               | Some regs =>
                   match (if device_id =? 1 then sfps regs else None) with
                   | Some sfps => init_sfp_data r sfps
                   | None =>
                       match (if device_id =? 2
                              then product_info regs else None) with
                       | Some pi => init_product_info r pi
                       | None => ret tt
                       end
                   end
               | None => ret tt
               end in
          ret (<[device_id := r]> contexts))%M
       else ret contexts) w = (Raise StructError, w')).
Proof.
  revert contexts w. induction config as [| d config IH];
    intros contexts w Hl; [left; constructor |].
  cbn [for_fold]. cbv zeta.
  destruct (decide (device_id d ∈ [1; 2])) as [Hin | Hout].
  - destruct (setup_device_outcome r d w Hl) as [[Hd E] | (Hd & w' & E)].
    + destruct (IH (<[device_id d := r]> contexts)
                  (fold_left (poke r) (device_writes d) w)
                  (live_pokes _ _ _ Hl)) as [Hs | (Hs & w' & E')].
      * left. constructor; assumption.
      * right. split; [intros H; inversion H; auto |].
        exists w'.
        erewrite bind_ok by (erewrite bind_ok by exact E; reflexivity).
        exact E'.
    + right. split; [intros H; inversion H; auto |].
      exists w'. apply bind_raise. apply bind_raise. exact E.
  - assert (Hd : device_seedable d).
    { intros regs pi Hid. exfalso. apply Hout. rewrite Hid. set_solver. }
    destruct (IH contexts w Hl) as [Hs | (Hs & w' & E')].
    + left. constructor; assumption.
    + right. split; [intros H; inversion H; auto |].
      exists w'. erewrite bind_ok by reflexivity. exact E'.
Qed.

(** Construction either seeds every device and returns, or raises
    [struct.error]. *)
Lemma init_outcome config rand :
  (Forall device_seedable config /\
   __init__ config (boot rand) =
     (Ok {| config := config;
            context :=
              {| ModbusServerContext.slaves := served 0 config;
                 ModbusServerContext.single := false |} |},
      fold_left (poke 0%nat) (seed_writes config)
        (snd (_create_slave_context (boot rand))))) \/
  (~ Forall device_seedable config /\
   exists w, __init__ config (boot rand) = (Raise StructError, w)).
Proof.
  destruct (create_slave_context_live (boot rand)) as (Hc & Hl & _).
  cbn zeta in Hc, Hl.
  destruct (setup_loop_outcome 0 config ∅ _ Hl) as [Hs | (Hs & w' & E)].
  - left. split; [exact Hs | apply init_effect, Hs].
  - right. split; [exact Hs |]. exists w'.
    unfold __init__, _setup_server_context.
    apply bind_raise. erewrite bind_ok by exact Hc.
    apply bind_raise. exact E.
Qed.

Lemma update_product_info_outcome r pi pn sn w :
  live r w -> isascii pn = true -> isascii sn = true ->
  (writable (product_number pi) pn /\ writable (serial_number pi) sn) \/
  (~ (writable (product_number pi) pn /\ writable (serial_number pi) sn) /\
   exists w', update_product_info r pi pn sn w = (Raise StructError, w')).
Proof.
  intros Hl Hap Has. unfold update_product_info.
  destruct (string_write_outcome r (product_number pi) pn w Hl Hap)
    as [[Hp Ep] | [Hp Ep]].
  - destruct (string_write_outcome r (serial_number pi) sn
                (fold_left (poke r) (string_writes (product_number pi) pn) w)
                (live_pokes _ _ _ Hl) Has) as [[Hs Es] | [Hs Es]].
    + left. split; assumption.
    + right. split; [tauto |]. eexists.
      erewrite bind_ok by exact Ep. apply bind_raise. exact Es.
  - right. split; [tauto |]. eexists. apply bind_raise. exact Ep.
Qed.

(** The step of a turn in which the product info is refreshed. *)
Lemma update_values_device_outcome self counter d r w :
  runs r w -> counter mod 10 = 0 ->
  (device_id d ∈ [1; 2] ->
   ModbusServerContext.getitem (context self) (device_id d) = Ok r) ->
  device_refreshable d \/
  (~ device_refreshable d /\
   exists w', update_values_device self counter d w
              = (Raise StructError, w')).
Proof.
  intros Hr H10 Hg. unfold device_refreshable.
  destruct (decide (device_id d = 2)) as [Hid | Hid];
    [| left; intros ? ? H; contradiction].
  destruct (registers d) as [regs |] eqn:Er;
    [| left; intros ? ? _ H; discriminate H].
  destruct (product_info regs) as [pi |] eqn:Ep;
    [| left; intros regs' pi' _ Hr' Hp'; injection Hr' as <-;
       rewrite Ep in Hp'; discriminate Hp'].
  assert (Hg2 : ModbusServerContext.getitem (context self) 2 = Ok r).
  { rewrite <- Hid. apply Hg. rewrite Hid. set_solver. }
  destruct (update_product_info_outcome r pi "PROD-12" "SN-Q10" w
              (proj1 Hr) eq_refl eq_refl) as [[Hp Hs] | (Hn & w' & E)].
  - left. intros regs' pi' _ Hr' Hp'. injection Hr' as <-.
    rewrite Ep in Hp'. injection Hp' as <-. split; assumption.
  - right. split.
    + intros H. apply Hn. apply (H regs pi); [exact Hid | reflexivity
                                             | exact Ep].
    + exists w'.
      rewrite (update_values_device_product_info self counter d regs pi r w
                 Hid Er Ep Hg2).
      apply Z.eqb_eq in H10. rewrite H10. exact E.
Qed.

Lemma update_values_devices_outcome self counter (l : list Device) r w :
  runs r w -> counter mod 10 = 0 ->
  (forall d, In d l -> device_id d ∈ [1; 2] ->
     ModbusServerContext.getitem (context self) (device_id d) = Ok r) ->
  Forall device_refreshable l \/
  (~ Forall device_refreshable l /\
   exists w', for_each l (update_values_device self counter) w
              = (Raise StructError, w')).
Proof.
  intros Hr H10. revert w Hr. induction l as [| d l IH]; intros w Hr Hg;
    [left; constructor |].
  destruct (update_values_device_outcome self counter d r w Hr H10
              (Hg d (or_introl eq_refl))) as [Hd | (Hd & w' & E)].
  - destruct (update_values_device_runs self counter d r w Hr Hd
                (Hg d (or_introl eq_refl))) as (w1 & E1 & Hr1 & _).
    destruct (IH w1 Hr1 (fun d' H => Hg d' (or_intror H)))
      as [Hl | (Hl & w' & E')].
    + left. constructor; assumption.
    + right. split; [intros H; inversion H; auto |]. exists w'.
      cbn [for_each]. erewrite bind_ok by exact E1. exact E'.
  - right. split; [intros H; inversion H; auto |]. exists w'.
    cbn [for_each]. apply bind_raise. exact E.
Qed.

Lemma random_outputs_pokes r ws w :
  random_outputs (fold_left (poke r) ws w) = random_outputs w.
Proof.
  revert w. induction ws as [| wr ws IH]; intros w; cbn [fold_left];
    [reflexivity |]. rewrite IH. apply poke_random_outputs.
Qed.

(** The link to a constructed simulator does not know a slave id that is
    not 1 or 2, or that no device of the configuration has. *)
Lemma link_after_unserved config rand n link slave :
  link_after config rand n = Some link ->
  ~ (slave ∈ [1; 2] /\ slave ∈ map device_id config) ->
  forall address count, link address count slave = ErrorResponse.
Proof.
  unfold link_after. intros Hlink Hslave address count.
  destruct (init_outcome config rand) as [[Hs E] | (Hs & w & E)];
    rewrite E in Hlink; [| discriminate Hlink].
  injection Hlink as <-.
  unfold serve, ModbusServerContext.getitem.
  cbn [ModbusRTUSimulator.context ModbusServerContext.single
       ModbusServerContext.slaves].
  unfold served. rewrite served_lookup, lookup_empty.
  rewrite decide_False by exact Hslave. reflexivity.
Qed.

Lemma link_after_seedable config rand n :
  Forall device_seedable config ->
  exists link, link_after config rand n = Some link.
Proof.
  intros Hs. unfold link_after. rewrite (init_effect config rand Hs).
  eauto.
Qed.

End Outcomes.

(** X10. What [__init__] does with a loaded configuration. Once the file
    is read and parsed, for a configuration of the expected shape (a list
    of devices with an integer [device_id], whose SFP entries have an
    integer [sfp] and three fields with a natural [address], and whose
    string fields have a natural [address] and [length]): either every
    device with id 2 and product info has string fields that can be
    written with the placeholders (the padded placeholder has an even
    number of bytes) and the rest of [__init__] returns a simulator, or
    some device has not and it raises [struct.error]. Reading the file
    and a document of another shape are outside the statement. *)
Theorem construction_succeeds_iff_seedable (config : Config)
    (rand : nat -> PyFloat.float) :
  (Forall device_seedable config /\
   exists self w,
     ModbusRTUSimulator.__init__ config (boot rand) = (Ok self, w)) \/
  (~ Forall device_seedable config /\
   exists w,
     ModbusRTUSimulator.__init__ config (boot rand)
       = (Raise StructError, w)).
Proof.
  destruct (init_outcome config rand) as [[Hs E] | [Hs E]].
  - left. split; [exact Hs |]. eauto.
  - right. split; [exact Hs | exact E].
Qed.

(** X11. The update loop runs for ever or dies in its first turn. After
    a construction that returned, with draws of [random.random()] in
    [[0, 1)]: either every device with id 2 and product info has string
    fields that can be written with the refresh values, and every turn of
    [update_values] completes; or some device has not, and the first turn
    raises [struct.error], which ends the loop: whatever the number of
    turns asked for, the state is the one that the first turn left. *)
Theorem update_loop_runs_or_dies_at_once (config : Config)
    (rand : nat -> PyFloat.float) (self : ModbusRTUSimulator.t)
    (w : World) :
  (forall i, unit_draw (rand i) = true) ->
  ModbusRTUSimulator.__init__ config (boot rand) = (Ok self, w) ->
  (Forall device_refreshable config /\
   forall n, exists w',
     ModbusRTUSimulator.update_values self n w = (Ok tt, w')) \/
  (~ Forall device_refreshable config /\
   exists w', forall n,
     ModbusRTUSimulator.update_values self (S n) w
       = (Raise StructError, w')).
Proof.
  intros Hu Hinit.
  destruct (init_outcome config rand) as [[Hs E] | (Hs & w0 & E)];
    rewrite E in Hinit; [| discriminate Hinit].
  injection Hinit as <- <-.
  destruct (create_slave_context_live (boot rand)) as (_ & Hl & _).
  cbn zeta in Hl.
  set (w0 := snd (ModbusRTUSimulator._create_slave_context (boot rand)))
    in *.
  set (w := fold_left (poke 0%nat) (seed_writes config) w0).
  set (self := {| ModbusRTUSimulator.config := config;
                  ModbusRTUSimulator.context := _ |}).
  assert (Hlive : live 0 w) by (apply live_pokes, Hl).
  assert (Hdraws : forall i, unit_draw (random_outputs w i) = true).
  { intros i. subst w. rewrite random_outputs_pokes. apply Hu. }
  assert (Hg : forall d, In d config -> device_id d ∈ [1; 2] ->
            ModbusServerContext.getitem
              (ModbusRTUSimulator.context self) (device_id d) = Ok 0%nat).
  { intros d Hd Hin. unfold ModbusServerContext.getitem. subst self.
    cbn [ModbusRTUSimulator.context ModbusServerContext.single
         ModbusServerContext.slaves].
    unfold served. rewrite served_lookup.
    rewrite decide_True; [reflexivity |].
    split; [exact Hin | apply device_id_in, Hd]. }
  assert (Hruns : runs 0 w).
  { split; [exact Hlive |]. intros i. apply unit_draw_packable, Hdraws. }
  destruct (update_values_devices_outcome self 0 config 0%nat w Hruns
              eq_refl Hg) as [Hall | (Hall & w' & E')].
  - left. split; [exact Hall |]. intros n.
    destruct (update_values_runs self n 0%nat w Hlive Hdraws Hall Hg)
      as (w' & E' & _).
    exists w'. exact E'.
  - right. split; [exact Hall |]. exists w'. intros n.
    unfold ModbusRTUSimulator.update_values. cbv zeta.
    cbn [ModbusRTUSimulator.update_values_loop].
    apply bind_raise. exact E'.
Qed.

Lemma odd_refresh_seedable : Forall device_seedable Sample.odd_refresh.
Proof.
  constructor; [| constructor; [| constructor]].
  - intros regs pi Hid. discriminate Hid.
  - intros regs pi _ Hr Hp. cbn in Hr. injection Hr as <-.
    cbn in Hp. injection Hp as <-. cbn.
    split; [exists 5%nat | exists 6%nat]; reflexivity.
Qed.

Lemma odd_refresh_not_refreshable :
  ~ Forall device_refreshable Sample.odd_refresh.
Proof.
  intros H. inversion H as [| ? ? _ H']. inversion H' as [| ? ? Hd _].
  destruct (Hd _ _ eq_refl eq_refl eq_refl) as [[k Hk] _].
  cbn in Hk. lia.
Qed.

(** With a product number field of 7 bytes construction returns, and the
    first refresh, in the first turn, ends the update loop. *)
Lemma update_loop_runs_or_dies_at_once_witness :
  exists self w w',
    ModbusRTUSimulator.__init__ Sample.odd_refresh (boot Example.quarter)
      = (Ok self, w) /\
    forall n,
      ModbusRTUSimulator.update_values self (S n) w
        = (Raise StructError, w').
Proof.
  pose proof (init_effect Sample.odd_refresh Example.quarter
                odd_refresh_seedable) as E.
  destruct (update_loop_runs_or_dies_at_once Sample.odd_refresh
              Example.quarter _ _ (fun _ => eq_refl) E)
    as [[Hall _] | [_ [w' Hdies]]].
  - exfalso. exact (odd_refresh_not_refreshable Hall).
  - eexists. eexists. exists w'. split; [exact E | exact Hdies].
Defined.

(** X12. Only the ids 1 and 2 are served. Through the link to a
    simulator constructed from any configuration, at any time, a slave id
    other than 1 and 2, or one that no device of the configuration has,
    gets an error response to every read that the client can encode (a
    slave id of one byte, an address and a count of 16 bits):
    [read_float] and [read_string] return [None] for it, whatever the
    address and the length within these bounds. *)
Theorem other_slaves_are_not_served (config : Config)
    (rand : nat -> PyFloat.float) (n : nat) (link : Transport) (slave : Z) :
  link_after config rand n = Some link ->
  ~ (slave ∈ [1; 2] /\ slave ∈ map device_id config) ->
  forall address : nat,
    (forall count, on_wire slave address count ->
       link address count slave = ErrorResponse) /\
    (on_wire slave address 2 ->
     ModbusRTUClient.read_float link slave address = Ok None) /\
    (forall length, on_wire slave address ((length + 1) / 2) ->
       ModbusRTUClient.read_string link slave address length = Ok None).
Proof.
  intros Hlink Hslave address.
  pose proof (link_after_unserved config rand n link slave Hlink Hslave)
    as H.
  split; [intros count _; apply H |]. split.
  - intros _. unfold ModbusRTUClient.read_float. rewrite H. reflexivity.
  - intros length _. unfold ModbusRTUClient.read_string. cbv zeta.
    rewrite H. reflexivity.
Qed.

Lemma unseeded_seedable : Forall device_seedable Example.unseeded.
Proof.
  constructor; [| constructor; [| constructor]];
    intros regs pi Hid; discriminate Hid.
Qed.

(** The id 3 is configured, with an SFP channel, and not served. *)
Lemma other_slaves_are_not_served_witness :
  exists link,
    link_after Example.unseeded Example.no_draw 0 = Some link /\
    link 0%nat 2%nat 3 = ErrorResponse /\
    ModbusRTUClient.read_float link 3 0 = Ok None.
Proof.
  destruct (link_after_seedable Example.unseeded Example.no_draw 0
              unseeded_seedable) as [link E].
  exists link. split; [exact E |].
  destruct (other_slaves_are_not_served Example.unseeded Example.no_draw 0
              link 3 E ltac:(intros [H _]; set_solver) 0%nat)
    as (Hread & Hfloat & _).
  split; [apply Hread | apply Hfloat]; unfold on_wire; lia.
Defined.

(** * More of the client *)

Lemma for_each_app {S A} (l1 l2 : list A) (body : A -> ST S unit) w :
  for_each (l1 ++ l2) body w =
    bind (for_each l1 body) (fun _ => for_each l2 body) w.
Proof.
  revert w. induction l1 as [| x l1 IH]; intros w; cbn [app for_each].
  - reflexivity.
  - unfold bind. destruct (body x w) as [[e | []] w1]; [reflexivity |].
    rewrite IH. reflexivity.
Qed.

(** X13. A device without a description ends the polling cycle. The
    client indexes [device['description']], which the simulator reads with
    a default: when the devices before [d] were read, and [d] has no
    description, [read_all_values] raises [KeyError]; nothing is printed
    for [d] or for the devices after it. *)
Theorem missing_description_aborts_cycle (self : ModbusRTUClient.t)
    (pre post : Config) (d : Device) (out out' : list printed) :
  ModbusRTUClient.config self = pre ++ d :: post ->
  description d = None ->
  ModbusRTUClient.read_all_values
    (ModbusRTUClient.__init__ pre (ModbusRTUClient.client self)) out
    = (Ok tt, out') ->
  ModbusRTUClient.read_all_values self out = (Raise KeyError, out').
Proof.
  intros Hc Hd Hpre.
  unfold ModbusRTUClient.read_all_values, ModbusRTUClient.__init__ in *.
  cbn [ModbusRTUClient.config ModbusRTUClient.client] in Hpre.
  rewrite Hc, for_each_app. cbv zeta in Hpre |- *.
  erewrite bind_ok by exact Hpre.
  cbn [for_each]. rewrite Hd. reflexivity.
Qed.

(** The product information is read, with a link whose read at address
    100 fails; the device after it has no description. *)
Lemma missing_description_aborts_cycle_witness :
  ModbusRTUClient.read_all_values
    (ModbusRTUClient.__init__
       [Example.product_device 2 12; Sample.nameless]
       (Example.failing_at 100)) [] =
  (Raise KeyError,
   [Reading_from_Device 2 "Product information"; Product_Info_header;
    Product_Number None; Serial_Number (Some "@@"%string)]).
Proof.
  apply (missing_description_aborts_cycle
           (ModbusRTUClient.__init__
              [Example.product_device 2 12; Sample.nameless]
              (Example.failing_at 100))
           [Example.product_device 2 12] [] Sample.nameless [] _
           eq_refl eq_refl).
  reflexivity.
Defined.

(** X14. A device that the simulator does not serve ends the polling
    cycle. The client polls every device of the configuration, the
    simulator serves the ids 1 and 2 only: through the link to a simulator
    constructed from the configuration, at any time, when the devices
    before [d] were read and [d] has another id and an SFP channel whose
    three reads the client can encode (an id of one byte, addresses of 16
    bits), all three reads of that channel return [None] and
    [read_all_values] raises [TypeError] after the two header lines of
    [d]. *)
Theorem unserved_sfp_device_aborts_cycle (config : Config)
    (rand : nat -> PyFloat.float) (n : nat) (link : Transport)
    (pre post : Config) (d : Device) (desc : string) (regs : Registers)
    (s : Sfp) (l : list Sfp) (out out' : list printed) :
  link_after config rand n = Some link ->
  config = pre ++ d :: post ->
  device_id d ∉ [1; 2] ->
  description d = Some desc ->
  registers d = Some regs ->
  sfps regs = Some (s :: l) ->
  on_wire (device_id d) (FloatField.address (rx_power s)) 2 ->
  on_wire (device_id d) (FloatField.address (tx_power s)) 2 ->
  on_wire (device_id d) (FloatField.address (temperature s)) 2 ->
  ModbusRTUClient.read_all_values (ModbusRTUClient.__init__ pre link) out
    = (Ok tt, out') ->
  ModbusRTUClient.read_all_values (ModbusRTUClient.__init__ config link) out
    = (Raise TypeError,
       out' ++ [Reading_from_Device (device_id d) desc; SFP_header (sfp s)]).
Proof.
  intros Hlink Hc Hid Hdesc Hregs Hsfps _ _ _ Hpre.
  assert (Herr : forall a count, link a count (device_id d) = ErrorResponse).
  { apply (link_after_unserved config rand n); [exact Hlink |]. tauto. }
  unfold ModbusRTUClient.read_all_values, ModbusRTUClient.__init__ in *.
  cbn [ModbusRTUClient.config ModbusRTUClient.client] in *.
  rewrite Hc, for_each_app. cbv zeta in Hpre |- *.
  erewrite bind_ok by exact Hpre.
  cbn [for_each]. rewrite Hdesc, Hregs, Hsfps. cbn [for_each].
  unfold ModbusRTUClient.read_float. rewrite !Herr.
  unfold bind, lift, ModbusRTUClient.print, Ok, Raise.
  cbv beta iota. rewrite <- app_assoc. reflexivity.
Qed.

Lemma stranger_seedable : Forall device_seedable Sample.stranger.
Proof.
  constructor; [| constructor; [| constructor]];
    intros regs pi Hid; discriminate Hid.
Qed.

(** A device with id 3 comes first: nothing of device 1 is read. *)
Lemma unserved_sfp_device_aborts_cycle_witness :
  exists link,
    link_after Sample.stranger Example.no_draw 0 = Some link /\
    ModbusRTUClient.read_all_values
      (ModbusRTUClient.__init__ Sample.stranger link) [] =
    (Raise TypeError, [Reading_from_Device 3 "SFP module"; SFP_header 1]).
Proof.
  destruct (link_after_seedable Sample.stranger Example.no_draw 0
              stranger_seedable) as [link E].
  exists link. split; [exact E |].
  apply (unserved_sfp_device_aborts_cycle Sample.stranger Example.no_draw 0
           link [] [Example.sfp_device 1 1] (Example.sfp_device 3 1)
           "SFP module"
           {| sfps := Some [ {| sfp := 1; rx_power := Example.float_at 2;
                                tx_power := Example.float_at 0;
                                temperature := Example.float_at 4 |} ];
              product_info := None |}
           {| sfp := 1; rx_power := Example.float_at 2;
              tx_power := Example.float_at 0;
              temperature := Example.float_at 4 |}
           [] [] [] E eq_refl);
    try reflexivity; try (unfold on_wire; cbn; lia).
  set_solver.
Defined.

(** X15. The server answers reads of 1 to 125 registers only, so
    [read_string] returns [None] for a declared length of 0 and for one
    above 250, as far as the client can encode the request (a length of
    131070 at most, which asks for 65535 registers, a slave id of one
    byte and an address of 16 bits), whatever the contents of the
    registers. *)
Theorem read_string_length_bounds (w : World)
    (context : ModbusServerContext.t) (slave : Z) (address length : nat) :
  length = 0%nat \/ (250 < length)%nat ->
  on_wire slave address ((length + 1) / 2) ->
  ModbusRTUClient.read_string (serve w context) slave address length
    = Ok None.
Proof.
  intros Hlen _. unfold ModbusRTUClient.read_string. cbv zeta.
  set (count := ((length + 1) / 2)%nat).
  assert (Hcount : (count = 0 \/ 125 < count)%nat).
  { subst count. destruct Hlen as [-> | Hbig]; [left; reflexivity |].
    right. apply Nat.div_le_lower_bound; lia. }
  assert (Hcheck : ((1 <=? count) && (count <=? 125))%nat = false).
  { destruct Hcount as [-> | Hbig]; [reflexivity |].
    apply andb_false_intro2. apply Nat.leb_gt. exact Hbig. }
  unfold serve.
  destruct (ModbusServerContext.getitem context slave) as [e | r];
    [reflexivity |].
  destruct (heap w !! r) as [c |]; [| reflexivity].
  rewrite Hcheck. reflexivity.
Qed.

(** A field of 252 bytes needs 126 registers. *)
Lemma read_string_length_bounds_witness :
  match link_after Example.config Example.no_draw 0 with
  | Some link => ModbusRTUClient.read_string link 2 100 252 = Ok None
  | None => False
  end.
Proof.
  unfold link_after.
  rewrite (init_effect Example.config Example.no_draw example_seedable).
  apply (read_string_length_bounds _ _ 2 100 252); [right; lia |].
  unfold on_wire. cbn. lia.
Defined.

(** ** [start_server] *)

Section StartServer.

Import ModbusRTUSimulator.

Lemma start_server_loop_served self (devices : list Device) shutdowns :
  start_server_loop self devices shutdowns =
    (flat_map
       (fun d => [Update_thread;
                  Serial_server (context self) (identity_of d)
                    "/dev/pts/13" (baudrate d)])
       (take (S shutdowns) (served_devices devices)),
     bool_decide (List.length (served_devices devices) <= shutdowns)%nat).
Proof.
  revert shutdowns. unfold served_devices.
  induction devices as [| d devices IH]; intros shutdowns;
    cbn [start_server_loop List.filter]; [reflexivity |].
  cbv zeta. destruct (decide (device_id d ∈ [1; 2])) as [Hin | Hout].
  - rewrite bool_decide_eq_true_2 by exact Hin.
    destruct shutdowns as [| k].
    + cbn [take flat_map List.length app]. rewrite take_0. reflexivity.
    + rewrite IH. cbn [take flat_map List.length app]. f_equal.
      apply bool_decide_ext. lia.
  - rewrite bool_decide_eq_false_2 by exact Hout. apply IH.
Qed.

End StartServer.

(** X16. [start_server] serves the devices one after another. With
    [shutdowns] servers that get shut down, it starts an update thread and
    then a serial server for each of the first [shutdowns + 1] devices
    with id 1 or 2, in the order of the configuration, every server on
    port /dev/pts/13 with the whole server context and the baud rate of
    its device, and it returns only when none of these devices is left:
    while the first server runs, one thread and one server exist, under
    the identity of the first such device, and a configuration without
    such a device starts nothing. The identity has vendor name
    "Simulator", product code "Device1" or "Device2" and, as model name,
    the description of the device, or "Device 1" or "Device 2" when it
    has none. *)
Theorem start_server_serves_in_turn (self : ModbusRTUSimulator.t)
    (shutdowns : nat) :
  ModbusRTUSimulator.start_server self shutdowns =
    (flat_map
       (fun d => [Update_thread;
                  Serial_server (ModbusRTUSimulator.context self)
                    (ModbusRTUSimulator.identity_of d)
                    "/dev/pts/13" (baudrate d)])
       (take (S shutdowns)
          (served_devices (ModbusRTUSimulator.config self))),
     bool_decide
       (List.length (served_devices (ModbusRTUSimulator.config self))
        <= shutdowns)%nat) /\
  forall d, In d (served_devices (ModbusRTUSimulator.config self)) ->
    ModbusRTUSimulator.identity_of d =
      {| VendorName := "Simulator";
         ProductCode := if device_id d =? 1 then "Device1" else "Device2";
         ModelName :=
           match description d with
           | Some model => model
           | None => if device_id d =? 1 then "Device 1" else "Device 2"
           end |}.
Proof.
  split; [apply start_server_loop_served |].
  intros d Hd. unfold served_devices in Hd. apply filter_In in Hd as [_ Hd].
  apply bool_decide_eq_true_1 in Hd.
  rewrite !elem_of_cons, elem_of_nil in Hd.
  unfold ModbusRTUSimulator.identity_of. cbv zeta.
  destruct Hd as [-> | [-> | []]]; destruct (description d); reflexivity.
Qed.

(** ** [run] *)

Section Run.

Import ModbusRTUClient.

Lemma cycle_polled self link j out :
  cycle {| config := config self; client := link j |} out =
    (fst (polled self link j), out ++ map Line (snd (polled self link j))).
Proof.
  unfold cycle, polled.
  destruct (read_all_values _ []) as [r lines]. reflexivity.
Qed.

(** The cycles of the loop up to the first one that raises. *)
Lemma run_loop_returns self link k0 n out :
  (forall j, (k0 <= j < k0 + n)%nat -> fst (polled self link j) = Ok tt) ->
  run_loop self link k0 n out =
    (Ok tt, out ++ flat_map (cycle_events self link) (seq k0 n)).
Proof.
  revert k0 out. induction n as [| n IH]; intros k0 out Hok.
  - cbn [run_loop seq flat_map]. rewrite app_nil_r. reflexivity.
  - cbn [run_loop seq flat_map].
    erewrite bind_ok
      by (rewrite cycle_polled, (Hok k0) by lia; reflexivity).
    erewrite bind_ok by reflexivity.
    rewrite IH by (intros j Hj; apply Hok; lia).
    unfold cycle_events at 2. rewrite <- !app_assoc. reflexivity.
Qed.

Lemma run_loop_raises self link k0 k n e out :
  (k < n)%nat ->
  (forall j, (k0 <= j < k0 + k)%nat -> fst (polled self link j) = Ok tt) ->
  fst (polled self link (k0 + k)) = Raise e ->
  run_loop self link k0 n out =
    (Raise e,
     out ++ flat_map (cycle_events self link) (seq k0 k) ++
     map Line (snd (polled self link (k0 + k)))).
Proof.
  revert k0 n out. induction k as [| k IH]; intros k0 n out Hk Hok He.
  - destruct n as [| n]; [lia |]. cbn [run_loop seq flat_map app].
    rewrite Nat.add_0_r in He |- *.
    apply bind_raise. rewrite cycle_polled, He. reflexivity.
  - destruct n as [| n]; [lia |]. cbn [run_loop seq flat_map].
    erewrite bind_ok
      by (rewrite cycle_polled, (Hok k0) by lia; reflexivity).
    erewrite bind_ok by reflexivity.
    rewrite (IH (S k0) n); [| lia | intros j Hj; apply Hok; lia
                            | replace (S k0 + k)%nat with (k0 + S k)%nat
                                by lia; exact He].
    replace (S k0 + k)%nat with (k0 + S k)%nat by lia.
    unfold cycle_events at 2. rewrite <- !app_assoc. reflexivity.
Qed.

(** What the loop adds to the events: lines and separators. *)
Lemma run_loop_adds self link k0 n out :
  exists more,
    snd (run_loop self link k0 n out) = out ++ more /\
    Forall (fun e => e <> Close /\
                     e <> Text (String "010" "Stopping client...")) more.
Proof.
  revert k0 out. induction n as [| n IH]; intros k0 out.
  - exists []. cbn. rewrite app_nil_r. split; [reflexivity | constructor].
  - cbn [run_loop]. unfold bind at 1. rewrite cycle_polled.
    assert (Hlines : Forall (fun e => e <> Close /\
                       e <> Text (String "010" "Stopping client..."))
                       (map Line (snd (polled self link k0)))).
    { apply Forall_forall. intros e He. apply list_elem_of_In in He.
      apply in_map_iff in He as (l & <- & _).
      split; discriminate. }
    destruct (fst (polled self link k0)) as [e | []].
    + eexists. split; [reflexivity | exact Hlines].
    + unfold bind, emit, Ok. cbv beta iota.
      destruct (IH (S k0)
                  ((out ++ map Line (snd (polled self link k0))) ++
                   [Text separator])) as (more & Hm & Hf).
      exists (map Line (snd (polled self link k0)) ++
              [Text separator] ++ more).
      split.
      * rewrite Hm, <- !app_assoc. reflexivity.
      * rewrite !Forall_app. split; [exact Hlines |].
        split; [| exact Hf].
        constructor; [| constructor]. split; discriminate.
Qed.

End Run.

(** X17. [run] closes the serial client once, or never. When
    [connect()] fails, [run] prints "Failed to connect!" and returns: it
    polls nothing and does not call [close()]. When it succeeds, whatever
    the number of cycles and whatever they raise, [close()] is the last
    thing [run] does and is done once; "Stopping client..." is printed
    exactly when no exception leaves [run], that is when the loop was
    ended by [KeyboardInterrupt]. *)
Theorem run_closes_once (self : ModbusRTUClient.t) (connect : bool)
    (link : nat -> Transport) (n : nat) :
  let (r, events) := ModbusRTUClient.run self connect link n [] in
  if connect then
    exists body,
      events = body ++ [Close] /\ ~ In Close body /\
      (In (Text (String "010" "Stopping client...")) body <-> r = Ok tt)
  else r = Ok tt /\ events = [Text "Failed to connect!"].
Proof.
  unfold ModbusRTUClient.run. destruct connect; cbn [negb];
    [| split; reflexivity].
  destruct (run_loop_adds self link 0 n []) as (more & Hm & Hf).
  destruct (ModbusRTUClient.run_loop self link 0 n []) as [[e | []] out'];
    cbn [snd app] in Hm; subst out'.
  - exists more. split; [reflexivity |]. split.
    + intros Hin. apply list_elem_of_In in Hin.
      rewrite Forall_forall in Hf. destruct (Hf _ Hin) as [H _].
      apply H. reflexivity.
    + split; [| discriminate]. intros Hin. apply list_elem_of_In in Hin.
      rewrite Forall_forall in Hf. destruct (Hf _ Hin) as [_ H].
      exfalso. apply H. reflexivity.
  - exists (more ++ [Text (String "010" "Stopping client...")]).
    split; [rewrite <- app_assoc; reflexivity |]. split.
    + intros Hin. apply in_app_or in Hin as [Hin | [Hin | []]];
        [| discriminate Hin].
      apply list_elem_of_In in Hin.
      rewrite Forall_forall in Hf. destruct (Hf _ Hin) as [H _].
      apply H. reflexivity.
    + split; [reflexivity |]. intros _. apply in_or_app. right.
      left. reflexivity.
Qed.

(** X18. An exception in a polling cycle ends [run]. When the first [k]
    cycles return and cycle [k] raises, [run] does what those [k] cycles
    did, each followed by the separator line, then what cycle [k] printed
    before it raised, then closes the client, and the exception leaves
    [run]: no later cycle is polled, however long [run] would have gone
    on, and "Stopping client..." is not printed. *)
Theorem failed_cycle_ends_run (self : ModbusRTUClient.t)
    (link : nat -> Transport) (k n : nat) (e : exn)
    (out : list run_event) :
  (k < n)%nat ->
  (forall j, (j < k)%nat -> fst (polled self link j) = Ok tt) ->
  fst (polled self link k) = Raise e ->
  ModbusRTUClient.run self true link n out =
    (Raise e,
     out ++ flat_map (cycle_events self link) (seq 0 k) ++
     map Line (snd (polled self link k)) ++ [Close]).
Proof.
  intros Hk Hok He. unfold ModbusRTUClient.run. cbn [negb].
  rewrite (run_loop_raises self link 0 k n e out Hk);
    [| intros j Hj; apply Hok; lia | exact He].
  cbn [Nat.add]. rewrite <- !app_assoc. reflexivity.
Qed.

(** The first cycle is polled through a link on which the floats can be
    read, the second through one on which the rx power cannot. *)
Lemma failed_cycle_ends_run_witness :
  let self := ModbusRTUClient.__init__ Example.config
                (Example.failing_at 100) in
  let link := fun j : nat =>
    if (j =? 0)%nat then Example.failing_at 100 else Example.failing_at 2 in
  ModbusRTUClient.run self true link 5 [] =
    (Raise TypeError,
     [Line (Reading_from_Device 1 "SFP module"); Line (SFP_header 1);
      Line (SFP_values (PyFloat.decimal 30 10) (PyFloat.decimal 30 10)
              (PyFloat.decimal 30 10));
      Line (Reading_from_Device 2 "Product information");
      Line Product_Info_header; Line (Product_Number None);
      Line (Serial_Number (Some "@@"%string));
      Text ModbusRTUClient.separator;
      Line (Reading_from_Device 1 "SFP module"); Line (SFP_header 1);
      Close]).
Proof.
  intros self link.
  apply (failed_cycle_ends_run self link 1 5 TypeError []).
  - lia.
  - intros j Hj. replace j with 0%nat by lia. reflexivity.
  - reflexivity.
Defined.

(** * The refresh of the product information

    What the update loop does to a string field of a device with id 2,
    for every configuration. *)

(** ** Registers that stay where they are written *)

Section Refresh.

Import ModbusRTUSimulator.

Lemma preserves_ret {A} Q (a : A) : preserves Q (ret a).
Proof. intros w H. exact H. Qed.

Lemma preserves_bind {A B} Q (m : M A) (k : A -> M B) :
  preserves Q m -> (forall a, preserves Q (k a)) -> preserves Q (bind m k).
Proof.
  intros Hm Hk w H. unfold bind. specialize (Hm w H).
  destruct (m w) as [[e | a] w']; cbn [snd] in *; [exact Hm |].
  apply Hk, Hm.
Qed.

Lemma preserves_for_each {A} Q (xs : list A) (body : A -> M unit) :
  (forall x, In x xs -> preserves Q (body x)) ->
  preserves Q (for_each xs body).
Proof.
  induction xs as [| x xs IH]; intros Hb; cbn [for_each].
  - apply preserves_ret.
  - apply preserves_bind; [apply Hb; left; reflexivity | intros _].
    apply IH. intros y Hy. apply Hb. right. exact Hy.
Qed.

Lemma holds_heap r x w w' :
  heap w' = heap w -> holds r x w -> holds r x w'.
Proof.
  intros E. unfold holds, live, holding. rewrite E. tauto.
Qed.

Lemma slice_assign_grows vals a new :
  (List.length vals <= List.length (slice_assign vals a new))%nat.
Proof.
  unfold slice_assign. rewrite !length_app, length_take, length_drop. lia.
Qed.

Lemma holds_poke_apart r x y w :
  holds r x w -> in_block y -> apart x y -> holds r x (poke r w y).
Proof.
  intros (Hl & Hlen & Hx) Hb Ha. unfold in_block in Hb.
  split; [apply live_poke, Hl |].
  rewrite holding_poke by exact Hl. split.
  - rewrite slice_assign_length by lia. exact Hlen.
  - rewrite slice_assign_frame; [exact Hx | lia |].
    unfold apart in Ha. lia.
Qed.

Lemma holds_poke_same r x w :
  holds r (0%nat, []) w -> in_block x -> holds r x (poke r w x).
Proof.
  intros (Hl & Hlen & _) Hb. unfold in_block in Hb.
  split; [apply live_poke, Hl |].
  rewrite holding_poke by exact Hl. split.
  - rewrite slice_assign_length by lia. exact Hlen.
  - apply slice_assign_read. lia.
Qed.

Lemma holds_base r x w : holds r x w -> holds r (0%nat, []) w.
Proof. intros (Hl & Hlen & _). split; [exact Hl |]. split; [exact Hlen |]. reflexivity. Qed.

Lemma apart_base y : apart (0%nat, []) y.
Proof. left. cbn. lia. Qed.

(** Writes that are apart from [x], or write [x] again, leave [x] where
    it is. *)
Lemma holds_pokes r x ws w :
  Forall in_block ws -> Forall (fun y => apart x y \/ y = x) ws ->
  holds r x w -> holds r x (fold_left (poke r) ws w).
Proof.
  intros Hb Ha. revert w. induction ws as [| y ws IH]; intros w H;
    cbn [fold_left]; [exact H |].
  apply Forall_cons in Hb as [Hby Hb]. apply Forall_cons in Ha as [Hay Ha].
  apply IH; try assumption.
  destruct Hay as [Hay | ->].
  - apply holds_poke_apart; assumption.
  - apply holds_poke_same; [eapply holds_base, H | exact Hby].
Qed.

(** Writes of which one is [x], the others apart from it, put [x] in
    place. *)
Lemma holds_pokes_in r x ws w :
  Forall in_block ws -> Forall (fun y => apart x y \/ y = x) ws ->
  In x ws -> holds r (0%nat, []) w -> holds r x (fold_left (poke r) ws w).
Proof.
  intros Hb Ha. revert w. induction ws as [| y ws IH]; intros w Hin H;
    cbn [fold_left]; [destruct Hin |].
  apply Forall_cons in Hb as [Hby Hb]. apply Forall_cons in Ha as [Hay Ha].
  destruct Hay as [Hay | ->].
  - destruct Hin as [-> | Hin].
    + apply holds_pokes; try assumption. apply holds_poke_same; assumption.
    + apply IH; try assumption.
      apply holds_poke_apart; [exact H | exact Hby | apply apart_base].
  - apply holds_pokes; try assumption. apply holds_poke_same; assumption.
Qed.

Lemma preserves_log_info r x l : preserves (holds r x) (log_info l).
Proof. intros w H. eapply holds_heap; [| exact H]. reflexivity. Qed.

Lemma preserves_time_sleep r x seconds :
  preserves (holds r x) (time_sleep seconds).
Proof. intros w H. eapply holds_heap; [| exact H]. reflexivity. Qed.

Lemma preserves_random_uniform r x a b :
  preserves (holds r x) (random_uniform a b).
Proof. intros w H. eapply holds_heap; [| exact H]. reflexivity. Qed.

(** A float written apart from [x]. *)
Lemma preserves_write_float r x a v :
  (a + 2 <= block_size)%nat ->
  (x.1 + List.length x.2 <= a \/ a + 2 <= x.1)%nat ->
  preserves (holds r x) (write_float r a v).
Proof.
  intros Hb Ha w H. unfold write_float, bind, lift.
  destruct (write_float_registers v) as [e | regs] eqn:E; [exact H |].
  destruct (write_float_registers_bits v regs E) as [_ ->].
  rewrite context_setValues_poke by apply H. cbn [snd].
  apply holds_poke_apart; [exact H | |].
  - unfold in_block. cbn [fst snd List.length]. lia.
  - unfold apart. cbn [fst snd List.length]. lia.
Qed.

Lemma sfp_writes_length s y :
  In y (sfp_writes s) -> List.length y.2 = 2%nat.
Proof.
  unfold sfp_writes. destruct (decide (sfp s ∈ [1; 2; 3; 4])); [| intros []].
  intros [<- | [<- | [<- | []]]]; reflexivity.
Qed.

Lemma preserves_update_sfp_values r x sfps :
  Forall in_block (flat_map sfp_writes sfps) ->
  Forall (apart x) (flat_map sfp_writes sfps) ->
  preserves (holds r x) (update_sfp_values r sfps).
Proof.
  intros Hb Ha. unfold update_sfp_values.
  apply preserves_bind; [| intros _; apply preserves_log_info].
  apply preserves_for_each. intros s Hs.
  unfold update_sfp_base_values. rewrite base_values_lookup.
  destruct (decide (sfp s ∈ [1; 2; 3; 4])) as [Hin | Hout];
    [| apply preserves_ret].
  assert (Hw : forall y, In y (sfp_writes s) ->
            in_block y /\ apart x y).
  { intros y Hy. rewrite Forall_forall in Hb, Ha.
    assert (In y (flat_map sfp_writes sfps))
      by (apply in_flat_map; exists s; auto).
    split; [apply Hb | apply Ha]; apply list_elem_of_In; assumption. }
  assert (Hf : forall a rs, In (a, rs) (sfp_writes s) ->
            List.length rs = 2%nat ->
            (a + 2 <= block_size)%nat /\
            (x.1 + List.length x.2 <= a \/ a + 2 <= x.1)%nat).
  { intros a rs Hy Hlen. destruct (Hw _ Hy) as [H1 H2].
    unfold in_block, apart in H1, H2. cbn [fst snd] in H1, H2.
    rewrite Hlen in H1, H2. lia. }
  unfold sfp_writes in Hf. rewrite decide_True in Hf by exact Hin.
  destruct (Hf _ _ (or_introl eq_refl) eq_refl) as [B1 A1].
  destruct (Hf _ _ (or_intror (or_introl eq_refl)) eq_refl) as [B2 A2].
  destruct (Hf _ _ (or_intror (or_intror (or_introl eq_refl))) eq_refl)
    as [B3 A3].
  repeat (apply preserves_bind; [apply preserves_random_uniform | intro]).
  cbv zeta.
  repeat (apply preserves_bind;
          [apply preserves_write_float; assumption | intro]).
  apply preserves_write_float; assumption.
Qed.

(** The step of the body for a device whose fields are apart from [x], or
    are [x]: it leaves [x] where it is. *)
Lemma preserves_update_values_device self counter d r x :
  (device_id d ∈ [1; 2] ->
   ModbusServerContext.getitem (context self) (device_id d) = Ok r) ->
  device_refreshable d ->
  Forall in_block (device_updates d) ->
  Forall (fun y => apart x y \/ (y = x /\ (3 <= List.length x.2)%nat))
    (device_updates d) ->
  preserves (holds r x) (update_values_device self counter d).
Proof.
  intros Hg Hd Hb Ha. unfold update_values_device. cbv zeta.
  destruct (decide (device_id d ∈ [1; 2])) as [Hin | Hout];
    [| apply preserves_ret].
  intros w H. unfold bind, lift. rewrite (Hg Hin). unfold Ok. cbv beta iota.
  revert w H. change (preserves (holds r x)
    (match registers d with
     | Some regs =>
         match (if device_id d =? 1 then sfps regs else None) with
         | Some sfps => update_sfp_values r sfps
         | None =>
             match (if (device_id d =? 2) && (counter mod 10 =? 0)
                    then product_info regs else None) with
             | Some pi => update_product_info r pi "PROD-12" "SN-Q10"
             | None => ret tt
             end
         end
     | None => ret tt
     end)).
  unfold device_updates in Hb, Ha.
  destruct (registers d) as [regs |] eqn:Er; [| apply preserves_ret].
  destruct (device_id d =? 1) eqn:E1.
  - destruct (sfps regs) as [l |]; [| cbn [andb]].
    + apply preserves_update_sfp_values; [exact Hb |].
      rewrite Forall_forall in Ha |- *. intros y Hy.
      destruct (Ha y Hy) as [H | [-> Hlen]]; [exact H |].
      apply list_elem_of_In, in_flat_map in Hy as (s & _ & Hy).
      apply sfp_writes_length in Hy. lia.
    + apply Z.eqb_eq in E1. rewrite E1. cbn [Z.eqb Pos.eqb andb].
      apply preserves_ret.
  - destruct (device_id d =? 2) eqn:E2; cbn [andb]; [| apply preserves_ret].
    destruct (counter mod 10 =? 0); [| apply preserves_ret].
    destruct (product_info regs) as [pi |] eqn:Ep; [| apply preserves_ret].
    apply Z.eqb_eq in E2. destruct (Hd regs pi E2 Er Ep) as [Hp Hs].
    intros w H.
    rewrite update_product_info_effect;
      [| apply H | reflexivity | reflexivity | exact Hp | exact Hs].
    apply preserves_log_info. apply holds_pokes; [exact Hb | | exact H].
    eapply Forall_impl; [exact Ha |]. cbv beta. tauto.
Qed.

(** The step for the device that has [x] among its refreshed fields, at
    a counter that 10 divides: it puts [x] in place. *)
Lemma update_values_device_refreshes self counter d regs pi r x w :
  device_id d = 2 -> registers d = Some regs ->
  product_info regs = Some pi ->
  ModbusServerContext.getitem (context self) 2 = Ok r ->
  device_refreshable d ->
  counter mod 10 = 0 ->
  In x (product_info_writes pi "PROD-12" "SN-Q10") ->
  Forall in_block (device_updates d) ->
  Forall (fun y => apart x y \/ (y = x /\ (3 <= List.length x.2)%nat))
    (device_updates d) ->
  holds r (0%nat, []) w ->
  holds r x (snd (update_values_device self counter d w)).
Proof.
  intros Hid Hr Hp Hg Hd H10 Hin Hb Ha H.
  rewrite (update_values_device_product_info self counter d regs pi r w
             Hid Hr Hp Hg).
  rewrite H10. cbn [Z.eqb]. destruct (Hd regs pi Hid Hr Hp) as [Hwp Hws].
  rewrite update_product_info_effect;
    [| apply H | reflexivity | reflexivity | exact Hwp | exact Hws].
  apply preserves_log_info.
  unfold device_updates in Hb, Ha. rewrite Hr, Hid, Hp in Hb, Ha.
  cbn [Z.eqb Pos.eqb] in Hb, Ha.
  apply holds_pokes_in; [exact Hb | | exact Hin | exact H].
  eapply Forall_impl; [exact Ha |]. cbv beta. tauto.
Qed.

End Refresh.

Section RefreshLoop.

Import ModbusRTUSimulator.

Lemma holds_after_bind {A B} Q (m : M A) (k : A -> M B) w :
  Q (snd (m w)) -> (forall a, preserves Q (k a)) -> Q (snd (bind m k w)).
Proof.
  intros Hm Hk. unfold bind.
  destruct (m w) as [[e | a] w']; cbn [snd] in *; [exact Hm |].
  apply Hk, Hm.
Qed.

Lemma Forall_flat_map_in {A B} (P : B -> Prop) (f : A -> list B) l x :
  Forall P (flat_map f l) -> In x l -> Forall P (f x).
Proof.
  rewrite !Forall_forall. intros H Hx y Hy. apply H.
  apply list_elem_of_In, in_flat_map. exists x. split; [exact Hx |].
  apply list_elem_of_In, Hy.
Qed.

(** The steps for devices whose fields are apart from [x], or are [x]. *)
Lemma preserves_devices self counter r x (l : list Device) :
  (forall d, In d l -> device_id d ∈ [1; 2] ->
     ModbusServerContext.getitem (context self) (device_id d) = Ok r) ->
  Forall device_refreshable l ->
  Forall in_block (update_writes l) ->
  Forall (fun y => apart x y \/ (y = x /\ (3 <= List.length x.2)%nat))
    (update_writes l) ->
  preserves (holds r x) (for_each l (update_values_device self counter)).
Proof.
  intros Hg Hd Hb Ha. apply preserves_for_each. intros d Hin.
  apply preserves_update_values_device.
  - apply Hg, Hin.
  - rewrite Forall_forall in Hd. apply Hd, list_elem_of_In, Hin.
  - exact (Forall_flat_map_in _ _ _ _ Hb Hin).
  - exact (Forall_flat_map_in _ _ _ _ Ha Hin).
Qed.

Lemma Forall_apart_base (ws : list (nat * list Z)) :
  Forall (fun y => apart (0%nat, []) y \/
                   (y = (0%nat, []) /\ (3 <= List.length (@nil Z))%nat)) ws.
Proof. apply Forall_forall. intros y _. left. apply apart_base. Qed.

(** A turn at a counter that 10 divides puts the refreshed field [x] of
    the device [d] in place. *)
Lemma devices_refresh self counter r x (l : list Device) d regs pi w :
  In d l -> device_id d = 2 -> registers d = Some regs ->
  product_info regs = Some pi ->
  In x (product_info_writes pi "PROD-12" "SN-Q10") ->
  counter mod 10 = 0 ->
  (forall d, In d l -> device_id d ∈ [1; 2] ->
     ModbusServerContext.getitem (context self) (device_id d) = Ok r) ->
  Forall device_refreshable l ->
  Forall in_block (update_writes l) ->
  Forall (fun y => apart x y \/ (y = x /\ (3 <= List.length x.2)%nat))
    (update_writes l) ->
  runs r w -> holds r (0%nat, []) w ->
  holds r x (snd (for_each l (update_values_device self counter) w)).
Proof.
  intros Hin Hid Hr Hp Hx H10.
  revert w. induction l as [| d' l IH]; intros w Hg Hd Hb Ha Hruns H;
    [destruct Hin |].
  pose proof Hb as Hb'. pose proof Ha as Ha'.
  unfold update_writes in Hb', Ha'. cbn [flat_map] in Hb', Ha'.
  apply Forall_app in Hb' as [Hb1 Hb2]. apply Forall_app in Ha' as [Ha1 Ha2].
  apply Forall_cons in Hd as [Hd1 Hd2].
  cbn [for_each].
  destruct Hin as [-> | Hin].
  - apply holds_after_bind.
    + apply (update_values_device_refreshes self counter d regs pi);
        try assumption.
      rewrite <- Hid. apply Hg; [left; reflexivity |]. rewrite Hid.
      set_solver.
    + intros _. apply preserves_devices; try assumption.
      intros d0 H0. apply Hg. right. exact H0.
  - destruct (update_values_device_runs self counter d' r w Hruns Hd1
                (Hg d' (or_introl eq_refl))) as (w1 & E1 & Hr1 & _).
    assert (H1 : holds r (0%nat, []) w1).
    { change w1 with (snd (Ok tt, w1)). rewrite <- E1.
      apply preserves_update_values_device; try assumption.
      - apply Hg. left. reflexivity.
      - apply Forall_apart_base. }
    unfold bind. rewrite E1. unfold Ok. cbv beta iota.
    apply IH; try assumption.
    intros d0 H0. apply Hg. right. exact H0.
Qed.

Lemma preserves_update_values_loop self n counter r x :
  (forall d, In d (config self) -> device_id d ∈ [1; 2] ->
     ModbusServerContext.getitem (context self) (device_id d) = Ok r) ->
  Forall device_refreshable (config self) ->
  Forall in_block (update_writes (config self)) ->
  Forall (fun y => apart x y \/ (y = x /\ (3 <= List.length x.2)%nat))
    (update_writes (config self)) ->
  preserves (holds r x) (update_values_loop self n counter).
Proof.
  intros Hg Hd Hb Ha. revert counter.
  induction n as [| n IH]; intros counter; cbn [update_values_loop];
    [apply preserves_ret |].
  cbv zeta. apply preserves_bind.
  - unfold update_values_body. apply preserves_devices; assumption.
  - intros _. apply preserves_bind; [apply preserves_time_sleep |].
    intros _. apply IH.
Qed.

(** After the first turn, and after any number of turns from then on,
    the refreshed field is in place. *)
Lemma update_values_refreshes self n r x d regs pi w :
  In d (config self) -> device_id d = 2 -> registers d = Some regs ->
  product_info regs = Some pi ->
  In x (product_info_writes pi "PROD-12" "SN-Q10") ->
  (forall d, In d (config self) -> device_id d ∈ [1; 2] ->
     ModbusServerContext.getitem (context self) (device_id d) = Ok r) ->
  Forall device_refreshable (config self) ->
  Forall in_block (update_writes (config self)) ->
  Forall (fun y => apart x y \/ (y = x /\ (3 <= List.length x.2)%nat))
    (update_writes (config self)) ->
  runs r w -> holds r (0%nat, []) w ->
  holds r x (snd (update_values self (S n) w)).
Proof.
  intros Hin Hid Hr Hp Hx Hg Hd Hb Ha Hruns H.
  unfold update_values. cbv zeta. cbn [update_values_loop]. cbv zeta.
  apply holds_after_bind.
  - unfold update_values_body.
    apply (devices_refresh self 0 r x (config self) d regs pi);
      try assumption. reflexivity.
  - intros _. apply preserves_bind; [apply preserves_time_sleep |].
    intros _. apply preserves_update_values_loop; assumption.
Qed.

End RefreshLoop.

Lemma apart_sym x y : apart x y -> apart y x.
Proof. unfold apart. tauto. Qed.

Lemma pairwise_apart_in ws x :
  pairwise_apart ws -> In x ws -> Forall (fun y => apart x y \/ y = x) ws.
Proof.
  induction ws as [| y ws IH]; intros Hp Hin; [constructor |].
  cbn [pairwise_apart] in Hp. destruct Hp as [Hy Hp].
  destruct Hin as [-> | Hin].
  - constructor; [right; reflexivity |].
    eapply Forall_impl; [exact Hy |]. cbv beta. tauto.
  - constructor; [| apply IH; assumption].
    left. apply apart_sym. rewrite Forall_forall in Hy.
    apply Hy, list_elem_of_In, Hin.
Qed.

Lemma live_holds_base r w :
  live r w -> (block_size <= List.length (holding r w))%nat ->
  holds r (0%nat, []) w.
Proof. intros Hl Hlen. split; [exact Hl |]. split; [exact Hlen | reflexivity]. Qed.

Lemma holding_pokes_grow r ws w :
  live r w ->
  (List.length (holding r w)
   <= List.length (holding r (fold_left (poke r) ws w)))%nat.
Proof.
  revert w. induction ws as [| y ws IH]; intros w Hl; cbn [fold_left];
    [lia |].
  etransitivity; [| apply IH, live_poke, Hl].
  rewrite holding_poke by exact Hl. apply slice_assign_grows.
Qed.

(** The world that a construction leaves. *)
Lemma init_world config rand self w :
  ModbusRTUSimulator.__init__ config (boot rand) = (Ok self, w) ->
  ModbusRTUSimulator.config self = config /\
  ModbusRTUSimulator.context self
    = {| ModbusServerContext.slaves := served 0 config;
         ModbusServerContext.single := false |} /\
  holds 0 (0%nat, []) w /\ random_outputs w = rand /\ log w = [].
Proof.
  intros E. destruct (init_outcome config rand) as [[_ E'] | (_ & w' & E')];
    rewrite E' in E; [| discriminate E].
  injection E as <- <-. split; [reflexivity |]. split; [reflexivity |].
  destruct (create_slave_context_live (boot rand)) as (_ & Hl & Hh).
  cbv zeta in Hl, Hh. cbn [boot heap List.length] in Hl, Hh.
  split; [| split].
  - apply live_holds_base; [apply live_pokes, Hl |].
    pose proof (holding_pokes_grow 0 (seed_writes config) _ Hl) as Hg.
    rewrite Hh, length_replicate in Hg. exact Hg.
  - rewrite random_outputs_pokes. reflexivity.
  - rewrite log_pokes. reflexivity.
Qed.

(** What the server answers from registers that are in place. *)
Lemma serve_holds w context slave r x :
  ModbusServerContext.single context = false ->
  ModbusServerContext.slaves context !! slave = Some r ->
  holds r x w -> in_block x ->
  (1 <= List.length x.2 <= 125)%nat ->
  serve w context x.1 (List.length x.2) slave = RegistersResponse x.2.
Proof.
  intros Hsingle Hslave ((c & Hc & Hz & Ha) & Hlen & Hx) Hb Hcount.
  unfold in_block in Hb.
  unfold serve, ModbusServerContext.getitem. rewrite Hsingle, Hslave.
  unfold Ok. cbv beta iota. rewrite Hc.
  unfold holding in *. rewrite Hc in *.
  assert (H1 : (1 <=? List.length x.2)%nat = true)
    by (apply Nat.leb_le; lia).
  assert (H2 : (List.length x.2 <=? 125)%nat = true)
    by (apply Nat.leb_le; lia).
  rewrite H1, H2. cbn [andb].
  unfold ModbusSlaveContext.validate, ModbusSlaveContext.getValues.
  rewrite decode_3. cbn [rbind Ok ModbusSlaveContext.get_store].
  unfold ModbusSlaveContext.shift. rewrite Hz.
  unfold ModbusSequentialDataBlock.validate,
    ModbusSequentialDataBlock.getValues.
  rewrite Ha. cbn [Nat.leb andb].
  assert (H3 : (x.1 + List.length x.2
                <=? 0 + List.length
                          (ModbusSequentialDataBlock.values
                             (ModbusSlaveContext.hr c)))%nat = true)
    by (apply Nat.leb_le; lia).
  rewrite H3, Nat.sub_0_r, Hx. reflexivity.
Qed.

(** Reading a string field whose registers are in place. *)
Lemma read_string_holds w context slave r (f : StringField.t) value :
  ModbusServerContext.single context = false ->
  ModbusServerContext.slaves context !! slave = Some r ->
  let x := (StringField.address f,
            words (codes (ljust value (StringField.length f) NUL))) in
  holds r x w -> in_block x ->
  isascii value = true -> last_char value <> Some NUL ->
  (String.length value <= StringField.length f)%nat ->
  Nat.Even (StringField.length f) ->
  (2 <= StringField.length f <= 250)%nat ->
  ModbusRTUClient.read_string (serve w context) slave
    (StringField.address f) (StringField.length f) = Ok (Some value).
Proof.
  intros Hsingle Hslave x H Hb Ha Hl Hle He Hr.
  unfold ModbusRTUClient.read_string. cbv zeta.
  assert (Hlen : List.length x.2 = ((StringField.length f + 1) / 2)%nat).
  { subst x. cbn [snd].
    rewrite words_length, codes_length, ljust_length, Nat.max_r by exact Hle.
    symmetry. apply even_half, He. }
  assert (Hcount : (1 <= List.length x.2 <= 125)%nat).
  { rewrite Hlen, even_half by exact He. destruct He as [k Hk].
    rewrite Hk in *. replace (2 * k)%nat with (0 + k * 2)%nat by lia.
    rewrite Nat.div_add by lia. cbn. lia. }
  pose proof (serve_holds w context slave r x Hsingle Hslave H Hb Hcount)
    as Hs.
  rewrite Hlen in Hs. change x.1 with (StringField.address f) in Hs.
  rewrite Hs. subst x. cbn [snd]. unfold ljust.
  rewrite read_string_decode_words; [reflexivity | exact Ha | exact Hl |].
  replace (String.length value + (StringField.length f - String.length value))%nat
    with (StringField.length f) by lia.
  exact He.
Qed.

Lemma no_sleep_in_turn_log config counter seconds :
  ~ In (Slept seconds) (turn_log config counter).
Proof.
  unfold turn_log. rewrite in_flat_map. intros (d & _ & H).
  unfold device_log in H.
  destruct (decide (device_id d ∈ [1; 2])); [| destruct H].
  destruct (registers d) as [regs |]; [| destruct H].
  destruct (if device_id d =? 1 then sfps regs else None);
    [destruct H as [H | []]; discriminate H |].
  destruct (if (device_id d =? 2) && (counter mod 10 =? 0)
            then product_info regs else None);
    [destruct H as [H | []]; discriminate H | destruct H].
Qed.

(** A refreshed string field, read through the link after the first
    turn or later. *)
Lemma read_refreshed config rand self w d regs pi (f : StringField.t)
    value n link :
  ModbusRTUSimulator.__init__ config (boot rand) = (Ok self, w) ->
  (forall i, unit_draw (rand i) = true) ->
  Forall device_refreshable config ->
  In d config -> device_id d = 2 -> registers d = Some regs ->
  product_info regs = Some pi ->
  Forall in_block (update_writes config) ->
  pairwise_apart (update_writes config) ->
  In (StringField.address f,
      words (codes (ljust value (StringField.length f) NUL)))
    (product_info_writes pi "PROD-12" "SN-Q10") ->
  isascii value = true -> last_char value <> Some NUL ->
  (6 <= String.length value <= StringField.length f)%nat ->
  Nat.Even (StringField.length f) ->
  (StringField.length f <= 250)%nat ->
  link_after config rand (S n) = Some link ->
  ModbusRTUClient.read_string link 2 (StringField.address f)
    (StringField.length f) = Ok (Some value).
Proof.
  intros Hinit Hu Hall Hd Hid Hr Hp Hb Hpa Hx Ha Hl Hlen He Hmax Hlink.
  destruct (init_world config rand self w Hinit)
    as (Hconfig & Hcontext & Hbase & Hrand & _).
  unfold link_after in Hlink. rewrite Hinit in Hlink.
  injection Hlink as <-.
  set (x := (StringField.address f,
             words (codes (ljust value (StringField.length f) NUL)))) in *.
  assert (Hxin : In x (update_writes config)).
  { unfold update_writes. apply in_flat_map. exists d. split; [exact Hd |].
    unfold device_updates. rewrite Hr, Hid, Hp. exact Hx. }
  assert (Hxlen : (3 <= List.length x.2)%nat).
  { subst x. cbn [snd].
    rewrite words_length, codes_length, ljust_length, Nat.max_r by lia.
    destruct He as [k Hk]. rewrite Hk in *.
    replace (2 * k)%nat with (0 + k * 2)%nat by lia.
    rewrite Nat.div_add by lia. cbn. lia. }
  assert (Hruns : runs 0 w).
  { split; [apply Hbase |]. intros i. apply unit_draw_packable.
    rewrite Hrand. apply Hu. }
  assert (Hg : forall d, In d (ModbusRTUSimulator.config self) ->
            device_id d ∈ [1; 2] ->
            ModbusServerContext.getitem
              (ModbusRTUSimulator.context self) (device_id d) = Ok 0%nat).
  { intros d0 Hd0 Hin0. rewrite Hconfig in Hd0.
    unfold ModbusServerContext.getitem. rewrite Hcontext.
    cbn [ModbusServerContext.single ModbusServerContext.slaves].
    unfold served. rewrite served_lookup.
    rewrite decide_True; [reflexivity |].
    split; [exact Hin0 | apply device_id_in, Hd0]. }
  apply (read_string_holds _ _ 2 0%nat f value).
  - rewrite Hcontext. reflexivity.
  - rewrite Hcontext. cbn [ModbusServerContext.slaves].
    unfold served. rewrite served_lookup.
    rewrite decide_True; [reflexivity |].
    split; [set_solver |]. rewrite <- Hid. apply device_id_in, Hd.
  - apply (update_values_refreshes self n 0%nat x d regs pi);
      try assumption; rewrite ?Hconfig; try assumption.
    eapply Forall_impl; [exact (pairwise_apart_in _ _ Hpa Hxin) |].
    cbv beta. intros y [H | H]; [left; exact H | right; split; assumption].
  - rewrite Forall_forall in Hb. apply Hb, list_elem_of_In, Hxin.
  - exact Ha.
  - exact Hl.
  - lia.
  - exact He.
  - lia.
Qed.

(** C10, as amended. The counter of [update_values] starts at 0, so the
    refresh condition [counter % 10 == 0] holds in the first turn of the
    loop, which runs before the loop has slept at all, and then exactly
    in the turns [10 * k]. After a construction that returned, with draws
    of [random.random()] in [[0, 1)], and when every product info field
    of a device with id 2 can be written with its refresh value (the
    padded value has an even number of bytes): every turn completes; the
    thread logs the lines of turn 0, sleeps one second, logs the lines of
    turn 1, and so on; the lines of turn [k] hold the product info update
    exactly when 10 divides [k]. When furthermore the fields that the
    loop writes lie inside the block and apart from one another, then
    after the first turn, and after any number of turns from then on, the
    link reads "PROD-12" from a product number field of 7 to 250 bytes
    of the device and "SN-Q10" from a serial number field of 6 to 250
    bytes. *)
Theorem C10_refresh_from_the_first_turn (config : Config)
    (rand : nat -> PyFloat.float) (self : ModbusRTUSimulator.t) (w : World)
    (d : Device) (regs : Registers) (pi : ProductInfo) :
  ModbusRTUSimulator.__init__ config (boot rand) = (Ok self, w) ->
  (forall i, unit_draw (rand i) = true) ->
  Forall device_refreshable config ->
  In d config -> device_id d = 2 -> registers d = Some regs ->
  product_info regs = Some pi ->
  (forall n, exists w',
     ModbusRTUSimulator.update_values self n w = (Ok tt, w') /\
     log w' =
       flat_map (fun k => turn_log config (Z.of_nat k) ++ [Slept 1])
         (seq 0 n)) /\
  (forall k : nat,
     (In Completed_Product_Info_update (turn_log config (Z.of_nat k)) <->
      exists j : nat, k = (10 * j)%nat) /\
     forall seconds, ~ In (Slept seconds) (turn_log config (Z.of_nat k))) /\
  (Forall in_block (update_writes config) ->
   pairwise_apart (update_writes config) ->
   forall n link,
     link_after config rand (S n) = Some link ->
     (forall f, product_number pi = Some f ->
        (7 <= StringField.length f <= 250)%nat ->
        ModbusRTUClient.read_string link 2 (StringField.address f)
          (StringField.length f) = Ok (Some "PROD-12"%string)) /\
     (forall f, serial_number pi = Some f ->
        (6 <= StringField.length f <= 250)%nat ->
        ModbusRTUClient.read_string link 2 (StringField.address f)
          (StringField.length f) = Ok (Some "SN-Q10"%string))).
Proof.
  intros Hinit Hu Hall Hd Hid Hr Hp.
  destruct (init_world config rand self w Hinit)
    as (Hconfig & Hcontext & Hbase & Hrand & Hlog).
  assert (Hdref : device_refreshable d).
  { rewrite Forall_forall in Hall. apply Hall, list_elem_of_In, Hd. }
  destruct (Hdref regs pi Hid Hr Hp) as [Hwp Hws].
  split; [| split].
  - intros n.
    destruct (update_values_runs self n 0%nat w) as (w' & E & L).
    + apply Hbase.
    + intros i. rewrite Hrand. apply Hu.
    + rewrite Hconfig. exact Hall.
    + intros d0 Hd0 Hin0. rewrite Hconfig in Hd0.
      unfold ModbusServerContext.getitem. rewrite Hcontext.
      cbn [ModbusServerContext.single ModbusServerContext.slaves].
      unfold served. rewrite served_lookup.
      rewrite decide_True; [reflexivity |].
      split; [exact Hin0 | apply device_id_in, Hd0].
    + exists w'. split; [exact E |]. rewrite L, Hlog, Hconfig. reflexivity.
  - intros k. split; [| intros seconds; apply no_sleep_in_turn_log].
    rewrite refresh_in_turn_log. split.
    + intros [H10 _]. exists (k / 10)%nat.
      apply Nat2Z.inj. rewrite Nat2Z.inj_mul, Nat2Z.inj_div.
      change (Z.of_nat 10) with 10. clear - H10.
      Z.div_mod_to_equations. lia.
    + intros [j ->]. split.
      * rewrite Nat2Z.inj_mul. change (Z.of_nat 10) with 10.
        Z.div_mod_to_equations. lia.
      * exists d, regs, pi. auto.
  - intros Hb Hpa n link Hlink. split.
    + intros f Hf Hlen. rewrite Hf in Hwp. cbn [writable] in Hwp.
      change (String.length "PROD-12") with 7%nat in Hwp.
      rewrite Nat.max_r in Hwp by lia.
      apply (read_refreshed config rand self w d regs pi f "PROD-12" n);
        try assumption; try reflexivity; try discriminate.
      * unfold product_info_writes. rewrite Hf.
        apply in_or_app. left. left. reflexivity.
      * change (String.length "PROD-12") with 7%nat. lia.
      * lia.
    + intros f Hf Hlen. rewrite Hf in Hws. cbn [writable] in Hws.
      change (String.length "SN-Q10") with 6%nat in Hws.
      rewrite Nat.max_r in Hws by lia.
      apply (read_refreshed config rand self w d regs pi f "SN-Q10" n);
        try assumption; try reflexivity; try discriminate.
      * unfold product_info_writes. rewrite Hf.
        apply in_or_app. right. left. reflexivity.
      * change (String.length "SN-Q10") with 6%nat. lia.
      * lia.
Qed.

Lemma example_update_writes :
  update_writes Example.config =
    [(0%nat, [16448; 0]); (2%nat, [15820; 52429]); (4%nat, [16840; 0]);
     (100%nat, [20562; 20292; 11569; 12800; 0; 0]);
     (110%nat, [21326; 11601; 12592; 0; 0; 0])].
Proof. vm_compute. reflexivity. Qed.

Lemma example_updates_in_block :
  Forall in_block (update_writes Example.config).
Proof.
  rewrite example_update_writes. rewrite !Forall_cons, Forall_nil.
  unfold in_block, block_size. cbn [fst snd List.length]. lia.
Qed.

Lemma example_updates_apart :
  pairwise_apart (update_writes Example.config).
Proof.
  rewrite example_update_writes. cbn [pairwise_apart].
  rewrite !Forall_cons, !Forall_nil.
  unfold apart. cbn [fst snd List.length]. lia.
Qed.

Lemma example_refreshable : Forall device_refreshable Example.config.
Proof.
  constructor; [| constructor; [| constructor]].
  - intros regs pi Hid. discriminate Hid.
  - intros regs pi _ Hr Hp. cbn in Hr. injection Hr as <-.
    cbn in Hp. injection Hp as <-. cbn.
    split; exists 6%nat; reflexivity.
Qed.

(** The example configuration, with draws of 0.25: two turns complete,
    the refresh is logged in the first, before the first sleep, and after
    the first turn the link reads the refresh values. *)
Lemma C10_refresh_from_the_first_turn_witness :
  exists self w w' link,
    ModbusRTUSimulator.__init__ Example.config (boot Example.quarter)
      = (Ok self, w) /\
    ModbusRTUSimulator.update_values self 2 w = (Ok tt, w') /\
    log w' = [Completed_SFP_update; Completed_Product_Info_update; Slept 1;
              Completed_SFP_update; Slept 1] /\
    link_after Example.config Example.quarter 1 = Some link /\
    ModbusRTUClient.read_string link 2 100 12 = Ok (Some "PROD-12"%string) /\
    ModbusRTUClient.read_string link 2 110 12 = Ok (Some "SN-Q10"%string).
Proof.
  pose proof (init_effect Example.config Example.quarter example_seedable)
    as E.
  destruct (link_after_seedable Example.config Example.quarter 1
              example_seedable) as [link Hlink].
  destruct (C10_refresh_from_the_first_turn Example.config Example.quarter
              _ _ (Example.product_device 2 12) _ _ E (fun _ => eq_refl)
              example_refreshable (or_intror (or_introl eq_refl))
              eq_refl eq_refl eq_refl) as (Hturns & _ & Hread).
  destruct (Hturns 2%nat) as (w' & Hrun & Hlog).
  destruct (Hread example_updates_in_block example_updates_apart 0%nat link
              Hlink) as [Hpn Hsn].
  eexists. eexists. exists w', link.
  split; [exact E |]. split; [exact Hrun |]. split; [exact Hlog |].
  split; [exact Hlink |]. split.
  - apply (Hpn (Example.string_at 100 12) eq_refl). cbn. lia.
  - apply (Hsn (Example.string_at 110 12) eq_refl). cbn. lia.
Defined.

(** C10 as stated fails. With a product number field of 7 bytes the
    placeholders are seeded, the first turn raises [struct.error] at the
    refresh, which ends the update thread, and the placeholders stay: no
    product info update is logged, and after any number of turns (here
    11) the link still reads the placeholders: the first four registers
    of "PROD123456" at the declared length of 7, all of it at length 10,
    and "SN987654321". *)
Lemma C10_counterexample :
  match ModbusRTUSimulator.__init__ Sample.odd_refresh
          (boot Example.quarter) with
  | (inr self, w) =>
      let after := ModbusRTUSimulator.update_values self 11 w in
      let link := serve (snd after) (ModbusRTUSimulator.context self) in
      fst after = Raise StructError /\
      log (snd after) = [Completed_SFP_update] /\
      ModbusRTUClient.read_string link 2 100 7
        = Ok (Some "PROD1234"%string) /\
      ModbusRTUClient.read_string link 2 100 10
        = Ok (Some "PROD123456"%string) /\
      ModbusRTUClient.read_string link 2 110 12
        = Ok (Some "SN987654321"%string)
  | (inl _, _) => False
  end.
Proof. vm_compute. repeat split; reflexivity. Qed.

(** * One register array for every served id *)

(** C9, as amended. The served ids do not own register arrays of their
    own: [_setup_server_context] creates one slave context and binds
    every id among 1 and 2 that the configuration has to it. For every
    configuration whose construction returns, after any number of turns
    of the update loop and for any draws, a read of any address and
    count that the client can encode gets the same answer under every
    served id: what is written for one device is what the other device
    answers at that address. *)
Theorem C9_served_ids_share_one_array (config : Config)
    (rand : nat -> PyFloat.float) (n : nat) (link : Transport)
    (id1 id2 : Z) (address count : nat) :
  link_after config rand n = Some link ->
  id1 ∈ [1; 2] -> id1 ∈ map device_id config ->
  id2 ∈ [1; 2] -> id2 ∈ map device_id config ->
  on_wire id1 address count -> on_wire id2 address count ->
  link address count id1 = link address count id2.
Proof.
  unfold link_after. intros Hlink H1 H1' H2 H2' _ _.
  destruct (ModbusRTUSimulator.__init__ config (boot rand))
    as [[e | self] w] eqn:E; [discriminate Hlink |].
  injection Hlink as <-.
  destruct (init_world config rand self w E) as (_ & Hcontext & _).
  unfold serve, ModbusServerContext.getitem. rewrite Hcontext.
  cbn [ModbusServerContext.single ModbusServerContext.slaves].
  unfold served. rewrite !served_lookup.
  rewrite !decide_True by (split; assumption). reflexivity.
Qed.

(** In the example configuration, after one turn, the ids 1 and 2 answer
    alike at device 1's tx power. *)
Lemma C9_served_ids_share_one_array_witness :
  exists link,
    link_after Example.config Example.quarter 1 = Some link /\
    link 0%nat 2%nat 1 = link 0%nat 2%nat 2.
Proof.
  destruct (link_after_seedable Example.config Example.quarter 1
              example_seedable) as [link Hlink].
  exists link. split; [exact Hlink |].
  apply (C9_served_ids_share_one_array Example.config Example.quarter 1
           link 1 2 0 2 Hlink); try set_solver; unfold on_wire; lia.
Defined.

(** * The drift of the SFP values *)

(** ** Rounding to nearest even, from the bits that [shr] keeps *)

Section Nearest.




End Nearest.

(** ** The value of a rounded number *)

Section Value.

Variables prec emax : Z.
Hypothesis Hprec : 0 < prec.







End Value.

(** ** Rounding is monotone *)

Section Monotone.

Variables prec emax : Z.
Hypothesis Hprec : 0 < prec.



End Monotone.

(** ** [binary_round] and [binary_normalize] are monotone *)

Section Order.

Variables prec emax : Z.
Hypothesis Hprec : 0 < prec.









End Order.

(** ** Sums, products and conversions *)

Section Operations.

Variables prec emax : Z.
Hypothesis Hprec : 0 < prec.

Lemma num_scale K J x :
  0 <= J -> scaled K x -> num (K + J) x = num K x * 2 ^ J.
Proof.
  intros HJ. destruct x as [| | | s m e]; cbn [num scaled]; try lia.
  intros HK. replace (e + (K + J)) with ((e + K) + J) by ring.
  rewrite Z.pow_add_r by lia. ring.
Qed.








End Operations.

(** ** A drifted value grows with the draw *)


Section Products.

Variables prec emax : Z.
Hypothesis Hprec : 0 < prec.




End Products.





Section Drift.

Variables base a b : PyFloat.float.
Variables (mc : positive) (ec : Z).
Hypothesis Hc : PyFloat.sub b a = S754_finite false mc ec.
Hypothesis Hmc : Zpos (digits2_pos mc) = 53.
Hypothesis Hec : ec <= 0.
Hypothesis Hvbase : valid_binary 53 1024 base = true.
Hypothesis Hva : valid_binary 53 1024 a = true.
Hypothesis Hbbase : below 5 base.
Hypothesis Hba : below 5 a.
Hypothesis Hbc : below 5 (PyFloat.sub b a).



End Drift.

(** ** The bands *)





Section Range.

Variables base a b : PyFloat.float.
Variables (mc : positive) (ec : Z).
Hypothesis Hc : PyFloat.sub b a = S754_finite false mc ec.
Hypothesis Hmc : Zpos (digits2_pos mc) = 53.
Hypothesis Hec : ec <= 0.
Hypothesis Hvbase : valid_binary 53 1024 base = true.
Hypothesis Hva : valid_binary 53 1024 a = true.
Hypothesis Hbbase : below 5 base.
Hypothesis Hba : below 5 a.
Hypothesis Hbc : below 5 (PyFloat.sub b a).


End Range.





